(** * Container based factories: the lifecycle controller

    A shallow embedding of [saltfactories/factories/daemons/container.py]
    (class [ContainerFactory]) and the properties of its start / terminate /
    run protocol.

    Conventions of the embedding:
    - every call that leaves the controller (the docker client, a container
      handle, a registered callback, the port probe, [time.sleep], the
      [logging] and [atexit] modules) is a transition of an abstract
      environment state [E]; the call is appended to a trace of [Event]s;
    - time is counted in integer milliseconds; [time.time()] reads a clock
      that is advanced by [time.sleep] and by the latency the environment
      assigns to each external call (so the clock never runs backwards);
    - Python exceptions are values: a computation returns, raises, or runs
      out of the fuel that bounds the [while] loops waiting on the clock;
    - the docker library is taken to be importable, so that the name
      [docker.errors.NotFound] of the [except] clause resolves. *)

From Stdlib Require Import ZArith NArith List String Bool Lia.
From stdpp Require Import base decidable list strings gmap.

Import ListNotations.
Local Open Scope string_scope.
Local Open Scope list_scope.
Local Open Scope Z_scope.

(** ** Python values and exceptions *)

(** A Python value as the controller observes it: [", ".join(args)] needs
    every item to be a [str]; ["{!r}".format(v)] needs its [repr]. *)
Inductive PyVal :=
| PyStr (s : string) (repr : string)
| PyObj (repr : string).

Definition py_repr (v : PyVal) : string :=
  match v with PyStr _ r => r | PyObj r => r end.

Definition Kwargs := list (string * PyVal).

Definition has_key (k : string) (kw : Kwargs) : bool :=
  existsb (fun kv => String.eqb (fst kv) k) kw.

(** The exception classes the source distinguishes.  [KeyboardInterrupt] and
    [SystemExit] derive from [BaseException] only; every other class derives
    from [Exception]; [NotFound] derives from [APIError]. *)
Inductive ExcClass :=
| KeyboardInterrupt | SystemExit
| OtherException
| APIError | NotFound | RequestsConnectionError | PyWinTypesError
| TypeError | AttributeError | RuntimeError | UnicodeDecodeError.

Definition is_Exception (k : ExcClass) : bool :=
  match k with KeyboardInterrupt | SystemExit => false | _ => true end.

Definition is_NotFound (k : ExcClass) : bool :=
  match k with NotFound => true | _ => false end.

Definition is_APIError (k : ExcClass) : bool :=
  match k with APIError | NotFound => true | _ => false end.

(** The positional arguments of [run]: strings or sequences of strings; a
    single argument stands for itself, several stay a tuple. *)
Inductive CmdArg := CmdStr (s : string) | CmdSeq (l : list string).
Inductive Cmdline := CmdSingle (a : CmdArg) | CmdTuple (l : list CmdArg).

(** ProcessResult (saltfactories.utils.processes), as the spec gives it. *)
Record ProcessResult := {
  exitcode : option Z;
  stdout : option string;
  stderr : option string;
  cmdline : option Cmdline;
}.

Record NotStartedInfo := {
  ns_attempts : Z;          (* "after {} attempts" *)
  ns_elapsed : Z;           (* "took {:.2f} seconds" *)
  ns_timeout : Z;           (* "({:.2f} seconds each)" *)
  ns_stdout : option string;
  ns_stderr : option string;
  ns_exitcode : option Z;
}.

Inductive Exc :=
| PyExc (k : ExcClass) (msg : string)
| Failed (reason : string)                 (* pytest.fail(reason) *)
| FactoryNotStarted (info : NotStartedInfo).

(** [isinstance(exc, Exception)]: pytest's [Failed] derives from
    [BaseException]; [FactoryNotStarted] derives from [Exception]. *)
Definition exc_is_Exception (e : Exc) : bool :=
  match e with
  | PyExc k _ => is_Exception k
  | Failed _ => false
  | FactoryNotStarted _ => true
  end.

Definition exc_is_NotFound (e : Exc) : bool :=
  match e with PyExc k _ => is_NotFound k | _ => false end.

(** ** Handles, callbacks, events *)

(** A container handle: the Python object ([cobj]) and the backend id it
    carries.  Its [status] attribute is read through the environment. *)
Record Container := { cobj : nat; cid : string }.

(** A registered callable; [cb_name] is its [__name__], when it has one. *)
Record Callback := { cb_key : nat; cb_name : option string }.

Definition CallbackEntry : Type := Callback * list PyVal * Kwargs.

Definition Bytes := list Byte.byte.

(** [container.logs(...)] gives [bytes], or else something indexable. *)
Inductive LogsOutput := LogsBytes (b : Bytes) | LogsPair (out err : Bytes).

(** [exec_run]'s result: [exit_code] and [output]; a falsy [output] is
    [None], otherwise it unpacks into the two demultiplexed streams. *)
Record ExecResult := {
  exit_code : option Z;
  output : option (option Bytes * option Bytes);
}.

Inductive Level := INFO | WARNING | ERROR.

Inductive LogMsg :=
| LogCallbackException (callback_str : string) (exc : Exc)
| LogStarting (current_attempt start_attempts : Z)
| LogContainerIsRunning (running : bool)
| LogFactoryIsRunning (current_attempt : Z) (took : Z)
| LogRunningContainerLogs (out err : option string)
| LogIsRunningCmd (cmd : Cmdline)
| LogNoLongerRunning
| LogFailedToCheckPorts (after : Z).

Inductive Event :=
| EvAtexitRegister
| EvAtexitUnregister
| EvCall (cb : Callback) (args : list PyVal) (kwargs : Kwargs)
| EvLog (lvl : Level) (m : LogMsg)
| EvPing
| EvContainersRun (image name : string) (detach stdin_open : bool) (kwargs : Kwargs)
| EvContainersGet (id : string)
| EvStatus (c : Container)
| EvLogs (c : Container) (want_stdout want_stderr stream : bool)
| EvRemove (c : Container) (force : bool)
| EvWait (c : Container)
| EvExecRun (c : Container) (cmd : Cmdline) (demux : bool) (kwargs : Kwargs)
| EvSleep (ms : Z)
| EvGetConnectablePorts (ports : gset Z).

(** What an external call answers. *)
Inductive Reply (A : Type) :=
| Gives (a : A)
| Throws (k : ExcClass) (msg : string).
Arguments Gives {A} a.
Arguments Throws {A} k msg.

(** The collaborators of the controller, as transitions of the environment. *)
Record Runtime (E : Type) := {
  rt_call : Callback -> list PyVal -> Kwargs -> E -> Reply unit * E;
  rt_ping : E -> Reply bool * E;
  rt_run : string -> string -> bool -> bool -> Kwargs -> E -> Reply Container * E;
  rt_get : string -> E -> Reply Container * E;
  rt_status : Container -> E -> Reply string * E;
  rt_logs : Container -> bool -> bool -> bool -> E -> Reply LogsOutput * E;
  rt_remove : Container -> bool -> E -> Reply unit * E;
  rt_wait : Container -> E -> Reply unit * E;
  rt_exec_run : Container -> Cmdline -> bool -> Kwargs -> E -> Reply ExecResult * E;
  rt_connectable_ports : gset Z -> E -> Reply (gset Z) * E;
  rt_sleep : Z -> E -> E;
  rt_latency : Event -> E -> N;
  rt_decode : Bytes -> option string;     (* bytes.decode(); None: UnicodeDecodeError *)
}.
Arguments rt_call {E}.
Arguments rt_ping {E}.
Arguments rt_run {E}.
Arguments rt_get {E}.
Arguments rt_status {E}.
Arguments rt_logs {E}.
Arguments rt_remove {E}.
Arguments rt_wait {E}.
Arguments rt_exec_run {E}.
Arguments rt_connectable_ports {E}.
Arguments rt_sleep {E}.
Arguments rt_latency {E}.
Arguments rt_decode {E}.

(** The attributes of [ContainerFactory] that stay fixed during a call. *)
Record ContainerFactory := {
  image : string;
  name : string;
  check_ports : option (list Z);
  container_run_kwargs : Kwargs;
  start_timeout : Z;
  max_start_attempts : Z;
  before_start_callbacks : list CallbackEntry;
  before_terminate_callbacks : list CallbackEntry;
  after_start_callbacks : list CallbackEntry;
  after_terminate_callbacks : list CallbackEntry;
}.

(** The state a call works on: the environment, the clock, the trace of
    external calls so far, and the attribute [self.container]. *)
Record World (E : Type) := {
  w_env : E;
  w_now : Z;
  w_trace : list Event;
  w_container : option Container;
}.
Arguments w_env {E}.
Arguments w_now {E}.
Arguments w_trace {E}.
Arguments w_container {E}.

Inductive Outcome (A : Type) :=
| Return (a : A)
| Raises (e : Exc)
| OutOfFuel.
Arguments Return {A} a.
Arguments Raises {A} e.
Arguments OutOfFuel {A}.

(** ** The computations of the controller *)

Section Computations.

Context {E : Type}.

Definition M (A : Type) : Type := World E -> Outcome A * World E.

Definition ret {A} (a : A) : M A := fun w => (Return a, w).

Definition raise {A} (e : Exc) : M A := fun w => (Raises e, w).

Definition out_of_fuel {A} : M A := fun w => (OutOfFuel, w).

Definition bind {A B} (m : M A) (k : A -> M B) : M B := fun w =>
  match m w with
  | (Return a, w') => k a w'
  | (Raises e, w') => (Raises e, w')
  | (OutOfFuel, w') => (OutOfFuel, w')
  end.

(** [try: m finally: f]: [f] runs however [m] ends; an exception of [f]
    replaces the outcome of [m]. *)
Definition finally {A} (m : M A) (f : M unit) : M A := fun w =>
  match m w with
  | (OutOfFuel, w') => (OutOfFuel, w')
  | (o, w') =>
      match f w' with
      | (Return _, w'') => (o, w'')
      | (Raises e, w'') => (Raises e, w'')
      | (OutOfFuel, w'') => (OutOfFuel, w'')
      end
  end.

(** [try: m except <classes> as exc: handler]: only the exceptions that
    [catches] accepts reach the handler. *)
Definition try_except {A} (m : M A) (catches : Exc -> bool) (handler : Exc -> M A)
  : M A := fun w =>
  match m w with
  | (Raises exc, w') => if catches exc then handler exc w' else (Raises exc, w')
  | r => r
  end.

(** One statement [x = m] of a [try] block whose handler is
    [except docker.errors.NotFound: pass]: when [m] raises [NotFound], the
    block ends with the values [locals] assigned so far. *)
Definition bind_unless_NotFound {A L} (locals : L) (m : M A) (k : A -> M L) : M L :=
  fun w =>
  match m w with
  | (Return a, w') => k a w'
  | (Raises e, w') =>
      if exc_is_NotFound e then (Return locals, w') else (Raises e, w')
  | (OutOfFuel, w') => (OutOfFuel, w')
  end.

(** [logging] and [atexit] calls: traced, no answer. *)
Definition emit (ev : Event) : M unit := fun w =>
  (Return tt, {| w_env := w_env w; w_now := w_now w;
                 w_trace := w_trace w ++ [ev]; w_container := w_container w |}).

Definition log (lvl : Level) (m : LogMsg) : M unit := emit (EvLog lvl m).

(** [time.time()] *)
Definition time_time : M Z := fun w => (Return (w_now w), w).

(** [self.container] and [self.container = c] *)
Definition get_container : M (option Container) :=
  fun w => (Return (w_container w), w).

Definition set_container (c : option Container) : M unit := fun w =>
  (Return tt, {| w_env := w_env w; w_now := w_now w;
                 w_trace := w_trace w; w_container := c |}).

End Computations.

Arguments M : clear implicits.

Declare Scope py_scope.
Delimit Scope py_scope with py.
Notation "'let*' x ':=' m 'in' k" := (bind m (fun x => k))
  (at level 10, x pattern, m at level 100, k at level 200) : py_scope.
Notation "m ';;' k" := (bind m (fun _ => k))
  (at level 100, k at level 200, right associativity) : py_scope.
Notation "'try*' x ':=' m 'keeping' l 'in' k" := (bind_unless_NotFound l m (fun x => k))
  (at level 10, x pattern, m at level 100, l at level 9, k at level 200) : py_scope.
Local Open Scope py_scope.

Section Controller.

Context {E : Type} (rt : Runtime E).

Definition record_event (ev : Event) (w : World E) (e' : E) (extra : Z) : World E :=
  {| w_env := e';
     w_now := w_now w + extra + Z.of_N (rt_latency rt ev (w_env w));
     w_trace := w_trace w ++ [ev];
     w_container := w_container w |}.

(** An external call: the environment answers and moves on, the call is
    traced, the clock advances by the latency of the call. *)
Definition extern {A} (ev : Event) (f : E -> Reply A * E) : M E A := fun w =>
  let '(r, e') := f (w_env w) in
  match r with
  | Gives a => (Return a, record_event ev w e' 0)
  | Throws k msg => (Raises (PyExc k msg), record_event ev w e' 0)
  end.

(** [time.sleep(ms)] *)
Definition time_sleep (ms : Z) : M E unit := fun w =>
  (Return tt, record_event (EvSleep ms) w (rt_sleep rt ms (w_env w)) ms).

(** *** Callbacks *)

(** [", ".join(items)] *)
Definition py_join (items : list string) : string := String.concat ", " items.

(** The [str] items of [args], or [None] when some item is not a [str]
    (then [", ".join(args)] raises [TypeError]). *)
Fixpoint str_items (args : list PyVal) : option (list string) :=
  match args with
  | [] => Some []
  | PyStr s _ :: rest => option_map (cons s) (str_items rest)
  | PyObj _ :: _ => None
  end.

Definition _format_callback (callback : Callback) (args : list PyVal) (kwargs : Kwargs)
  : M E string :=
  match cb_name callback with
  | None => raise (PyExc AttributeError "object has no attribute '__name__'")
  | Some callback_name =>
      let callback_str := callback_name +:+ "(" in
      let* callback_str :=
        match args with
        | [] => ret callback_str
        | _ => match str_items args with
               | Some items => ret (callback_str +:+ py_join items)
               | None => raise (PyExc TypeError "sequence item: expected str instance")
               end
        end in
      let callback_str :=
        match kwargs with
        | [] => callback_str
        | _ => callback_str +:+
               py_join (map (fun kv => fst kv +:+ "=" +:+ py_repr (snd kv)) kwargs)
        end in
      ret (callback_str +:+ ")")
  end.

(** The loop written four times in the source:
    for each entry [(callback, args, kwargs)], in order, call the callback
    with its arguments inside [try]; under [except Exception as exc], build
    the text [self._format_callback(callback, args, kwargs)] and pass it,
    with [exc], to [log.info]. *)
Fixpoint run_callbacks (callbacks : list CallbackEntry) : M E unit :=
  match callbacks with
  | [] => ret tt
  | (callback, args, kwargs) :: rest =>
      try_except
        (extern (EvCall callback args kwargs) (rt_call rt callback args kwargs))
        exc_is_Exception
        (fun exc =>
           let* callback_str := _format_callback callback args kwargs in
           log INFO (LogCallbackException callback_str exc)) ;;
      run_callbacks rest
  end.





(** *** Small pieces of Python *)

(** [x or default] on an optional number: [None] and [0] are falsy. *)
Definition py_or (x : option Z) (default : Z) : Z :=
  match x with
  | Some v => if v =? 0 then default else v
  | None => default
  end.

(** A call [f(..., k=v, **kwargs)] fails with [TypeError] when [kwargs]
    repeats a keyword that the call site already gives. *)
Definition check_keywords (given : list string) (kwargs : Kwargs) : M E unit :=
  if existsb (fun k => has_key k kwargs) given
  then raise (PyExc TypeError "got multiple values for keyword argument")
  else ret tt.

(** [b.decode()] *)
Definition py_decode (b : Bytes) : M E string :=
  match rt_decode rt b with
  | Some s => ret s
  | None => raise (PyExc UnicodeDecodeError "can't decode bytes")
  end.

Definition decode_present (b : option Bytes) : M E (option string) :=
  match b with
  | Some b => let* s := py_decode b in ret (Some s)
  | None => ret None
  end.

Definition status (c : Container) : M E string :=
  extern (EvStatus c) (rt_status rt c).

Definition is_status_running (st : string) : bool := String.eqb st "running".

(** *** client_connectable *)

Inductive Connectable := IsTrue | Reason (why : string).

Definition catches_ping_errors (e : Exc) : bool :=
  match e with
  | PyExc k _ =>
      is_APIError k ||
      match k with RequestsConnectionError | PyWinTypesError => true | _ => false end
  | _ => false
  end.

Definition exc_str (e : Exc) : string :=
  match e with
  | PyExc _ msg => msg
  | Failed reason => reason
  | FactoryNotStarted _ => "FactoryNotStarted"
  end.

Definition client_connectable : M E Connectable :=
  try_except
    (let* pong := extern EvPing (rt_ping rt) in
     if negb pong
     then ret (Reason "The docker client failed to get a ping response from the docker daemon")
     else ret IsTrue)
    catches_ping_errors
    (fun exc =>
       ret (Reason ("The docker client failed to ping the docker server: " +:+ exc_str exc))).

(** *** is_running, get_check_ports *)

Definition is_running : M E bool :=
  let* container := get_container in
  match container with
  | None => raise (PyExc AttributeError "'NoneType' object has no attribute 'status'")
  | Some c => let* st := status c in ret (is_status_running st)
  end.

Definition get_check_ports (self : ContainerFactory) : list Z :=
  match check_ports self with
  | Some (p :: ps) => p :: ps
  | _ => []
  end.

(** *** terminate *)

(** The body of the [try] block of [terminate], with its handler
    [except docker.errors.NotFound: pass]; the result is the pair of locals
    [(stdout, stderr)] as the block leaves them. *)
Definition terminate_capture_and_remove : M E (option string * option string) :=
  let* handle := get_container in
  match handle with
  | None => ret (None, None)
  | Some handle =>
      try* container := extern (EvContainersGet (cid handle)) (rt_get rt (cid handle))
        keeping (None, None) in
      try* logs := extern (EvLogs container true true false)
                     (rt_logs rt container true true false)
        keeping (None, None) in
      let after_capture (out err : option string) : M E (option string * option string) :=
        try* _ := log WARNING (LogRunningContainerLogs out err) keeping (out, err) in
        try* st := status container keeping (out, err) in
        try* _ := (if is_status_running st
                   then extern (EvRemove container true) (rt_remove rt container true) ;;
                        extern (EvWait container) (rt_wait rt container)
                   else ret tt)
          keeping (out, err) in
        set_container None ;;
        ret (out, err) in
      match logs with
      | LogsBytes b =>
          try* out := py_decode b keeping (None, None) in
          after_capture (Some out) None
      | LogsPair b0 b1 =>
          try* out := py_decode b0 keeping (None, None) in
          try* err := py_decode b1 keeping (Some out, None) in
          after_capture (Some out) (Some err)
      end
  end.

Definition terminate (self : ContainerFactory) : M E ProcessResult :=
  emit EvAtexitUnregister ;;
  run_callbacks (before_terminate_callbacks self) ;;
  let* (out, err) :=
    finally terminate_capture_and_remove
            (run_callbacks (after_terminate_callbacks self)) in
  ret {| exitcode := Some 0; stdout := out; stderr := err; cmdline := None |}.

(** *** run *)

(** [if len(cmd) == 1: cmd = cmd[0]] *)
Definition cmdline_of (cmd : list CmdArg) : Cmdline :=
  match cmd with [a] => CmdSingle a | _ => CmdTuple cmd end.

(** [stdout = stderr = None; if ret.output: stdout, stderr = ret.output] *)
Definition exec_streams (ret_ : ExecResult) : option Bytes * option Bytes :=
  match output ret_ with
  | Some (out, err) => (out, err)
  | None => (None, None)
  end.

Definition run (cmd : list CmdArg) (kwargs : Kwargs) : M E ProcessResult :=
  let cmd := cmdline_of cmd in
  log INFO (LogIsRunningCmd cmd) ;;
  let* container := get_container in
  match container with
  | None => raise (PyExc AttributeError "'NoneType' object has no attribute 'exec_run'")
  | Some c =>
      check_keywords ["demux"] kwargs ;;
      let* ret_ := extern (EvExecRun c cmd true kwargs) (rt_exec_run rt c cmd true kwargs) in
      let exitcode := exit_code ret_ in
      let (out, err) := exec_streams ret_ in
      let* out := decode_present out in
      let* err := decode_present err in
      ret {| exitcode := exitcode; stdout := out; stderr := err; cmdline := Some cmd |}
  end.

(** *** run_start_checks *)

Definition no_ports (ports : gset Z) : bool := bool_decide (ports = ∅).

(** The [while time.time() <= timeout_at] loop of [run_start_checks], with
    its [else] clause. *)
Fixpoint check_ports_loop (fuel : nat) (timeout_at checks_start_time : Z)
    (pending : gset Z) : M E bool :=
  match fuel with
  | O => out_of_fuel
  | S fuel' =>
      let* now := time_time in
      if now <=? timeout_at then
        let* running := is_running in
        if negb running then
          log INFO LogNoLongerRunning ;;
          ret false
        else if no_ports pending then
          ret true
        else
          let* connectable :=
            extern (EvGetConnectablePorts pending) (rt_connectable_ports rt pending) in
          check_ports_loop fuel' timeout_at checks_start_time (pending ∖ connectable)
      else
        let* now := time_time in
        log ERROR (LogFailedToCheckPorts (now - checks_start_time)) ;;
        ret false
  end.

Definition run_start_checks (fuel : nat) (self : ContainerFactory)
    (started_at timeout_at : Z) : M E bool :=
  let pending : gset Z := list_to_set (get_check_ports self) in
  if no_ports pending then ret true
  else
    let* checks_start_time := time_time in
    check_ports_loop fuel timeout_at checks_start_time pending.

(** *** start *)

(** The [while time.time() <= start_running_timeout] loop of one attempt,
    with its [else] clause; the result is [factory_started]. *)
Fixpoint wait_until_running (fuel : nat) (self : ContainerFactory)
    (start_time current_attempt current_start_time start_running_timeout : Z)
  : M E bool :=
  match fuel with
  | O => out_of_fuel
  | S fuel' =>
      let* now := time_time in
      if now <=? start_running_timeout then
        let* handle := get_container in
        match handle with
        | None => raise (PyExc AttributeError "'NoneType' object has no attribute 'id'")
        | Some handle =>
            let* container := extern (EvContainersGet (cid handle)) (rt_get rt (cid handle)) in
            let* st := status container in
            if negb (is_status_running st) then
              time_sleep 250 ;;
              wait_until_running fuel' self start_time current_attempt
                current_start_time start_running_timeout
            else
              let* st' := status handle in
              (if negb (is_status_running st')
               then set_container (Some container) else ret tt) ;;
              let* running := is_running in
              log WARNING (LogContainerIsRunning running) ;;
              let* running := is_running in
              if negb running then
                let* handle := get_container in
                match handle with
                | None =>
                    raise (PyExc AttributeError "'NoneType' object has no attribute 'remove'")
                | Some handle =>
                    extern (EvRemove handle true) (rt_remove rt handle true) ;;
                    extern (EvWait handle) (rt_wait rt handle) ;;
                    set_container None ;;
                    ret false
                end
              else
                let* ready := run_start_checks fuel' self current_start_time
                                start_running_timeout in
                if negb ready then
                  time_sleep 1000 ;;
                  wait_until_running fuel' self start_time current_attempt
                    current_start_time start_running_timeout
                else
                  let* now := time_time in
                  log INFO (LogFactoryIsRunning current_attempt (now - start_time)) ;;
                  ret true
        end
      else
        terminate self ;;
        ret false
  end.

(** The [while current_attempt <= start_attempts] loop; the result is the
    pair [(factory_started, current_attempt)] when the loop is left. *)
Fixpoint attempts_loop (fuel : nat) (self : ContainerFactory)
    (timeout start_time start_attempts current_attempt : Z) (factory_started : bool)
  : M E (bool * Z) :=
  if current_attempt <=? start_attempts then
    match fuel with
    | O => out_of_fuel
    | S fuel' =>
        let current_attempt := current_attempt + 1 in
        if factory_started then ret (factory_started, current_attempt)
        else
          log INFO (LogStarting current_attempt start_attempts) ;;
          let* current_start_time := time_time in
          let start_running_timeout := current_start_time + timeout in
          check_keywords ["name"; "detach"; "stdin_open"] (container_run_kwargs self) ;;
          let* c := extern
                      (EvContainersRun (image self) (name self) true true
                         (container_run_kwargs self))
                      (rt_run rt (image self) (name self) true true
                         (container_run_kwargs self)) in
          set_container (Some c) ;;
          let* factory_started :=
            wait_until_running fuel' self start_time current_attempt
              current_start_time start_running_timeout in
          attempts_loop fuel' self timeout start_time start_attempts
            current_attempt factory_started
    end
  else ret (factory_started, current_attempt).

Definition start (fuel : nat) (self : ContainerFactory)
    (max_start_attempts_arg start_timeout_arg : option Z) : M E bool :=
  emit EvAtexitRegister ;;
  let factory_started := false in
  run_callbacks (before_start_callbacks self) ;;
  let* connectable := client_connectable in
  match connectable with
  | IsTrue => ret tt
  | Reason why => terminate self ;; raise (Failed why)
  end ;;
  let* start_time := time_time in
  let start_attempts := py_or max_start_attempts_arg (max_start_attempts self) in
  let* (factory_started, current_attempt) :=
    attempts_loop fuel self (py_or start_timeout_arg (start_timeout self))
      start_time start_attempts 0 factory_started in
  if factory_started then
    run_callbacks (after_start_callbacks self) ;;
    ret factory_started
  else
    let* result := terminate self in
    let* now := time_time in
    raise (FactoryNotStarted
             {| ns_attempts := current_attempt - 1;
                ns_elapsed := now - start_time;
                ns_timeout := py_or start_timeout_arg (start_timeout self);
                ns_stdout := stdout result;
                ns_stderr := stderr result;
                ns_exitcode := exitcode result |}).

Definition started (fuel : nat) (self : ContainerFactory)
    (max_start_attempts_arg start_timeout_arg : option Z) : M E ContainerFactory :=
  start fuel self max_start_attempts_arg start_timeout_arg ;;
  ret self.

(** *** Scoped use *)

Definition __enter__ (self : ContainerFactory) : M E ContainerFactory :=
  let* running := is_running in
  if negb running
  then raise (PyExc RuntimeError "Factory not yet started")
  else ret self.

Definition __exit__ (self : ContainerFactory) : M E ProcessResult :=
  terminate self.

End Controller.

(** ** Vocabulary of the properties *)

(** Classes of events. *)
Definition hook_event (ev : Event) : bool :=
  match ev with
  | EvCall _ _ _ => true
  | EvLog INFO (LogCallbackException _ _) => true
  | _ => false
  end.

(** What [terminate] may do besides running hooks. *)
Definition teardown_event (ev : Event) : bool :=
  match ev with
  | EvAtexitUnregister => true
  | EvContainersGet _ => true
  | EvLogs _ true true false => true
  | EvLog WARNING (LogRunningContainerLogs _ _) => true
  | EvStatus _ => true
  | EvRemove _ true => true
  | EvWait _ => true
  | _ => false
  end.

(** What the polling loop of an attempt may do besides tearing down. *)
Definition polling_event (ev : Event) : bool :=
  match ev with
  | EvContainersGet _ => true
  | EvStatus _ => true
  | EvSleep _ => true
  | EvLog WARNING (LogContainerIsRunning _) => true
  | EvLog INFO (LogFactoryIsRunning _ _) => true
  | EvRemove _ true => true
  | EvWait _ => true
  | _ => false
  end.

(** What the port checks may do. *)
Definition readiness_event (ev : Event) : bool :=
  match ev with
  | EvStatus _ => true
  | EvGetConnectablePorts _ => true
  | EvLog INFO LogNoLongerRunning => true
  | EvLog ERROR (LogFailedToCheckPorts _) => true
  | _ => false
  end.

(** The first events of an attempt: its log line and the create-and-run
    request. *)
Definition attempt_event (ev : Event) : bool :=
  match ev with
  | EvLog INFO (LogStarting _ _) => true
  | EvContainersRun _ _ true true _ => true
  | _ => false
  end.

Definition is_ping (ev : Event) : bool :=
  match ev with EvPing => true | _ => false end.

Definition is_port_probe (ev : Event) : bool :=
  match ev with EvGetConnectablePorts _ => true | _ => false end.

Definition is_containers_run (ev : Event) : bool :=
  match ev with EvContainersRun _ _ _ _ _ => true | _ => false end.

(** Calls that reach the container runtime. *)
Definition backend_event (ev : Event) : bool :=
  match ev with
  | EvPing | EvContainersRun _ _ _ _ _ | EvContainersGet _ | EvStatus _
  | EvLogs _ _ _ _ | EvRemove _ _ | EvWait _ | EvExecRun _ _ _ _ => true
  | _ => false
  end.

(** The attempt numbers logged by ["Starting %s. Attempt: %d of %d"], one per
    execution of the body of the attempt loop that goes past its [break]. *)
Fixpoint attempts_logged (d : list Event) : list Z :=
  match d with
  | [] => []
  | EvLog INFO (LogStarting k _) :: d' => k :: attempts_logged d'
  | _ :: d' => attempts_logged d'
  end.

(** An exception of Python code, as opposed to the two that [start] itself
    ends with. *)
Definition plain_exception (e : Exc) : Prop := exists k msg, e = PyExc k msg.

(** The number of create-and-run requests sent. *)
Definition runs_requested (d : list Event) : nat :=
  length (List.filter is_containers_run d).

(** An event that starts no attempt. *)
Definition quiet (ev : Event) : Prop :=
  attempts_logged [ev] = [] /\ is_containers_run ev = false.

(** [first; first + 1; ...], [len] numbers. *)
Fixpoint zseq (first : Z) (len : nat) : list Z :=
  match len with
  | O => []
  | S len' => first :: zseq (first + 1) len'
  end.

(** The callback entries invoked, in order. *)
Fixpoint calls_made (d : list Event) : list CallbackEntry :=
  match d with
  | [] => []
  | EvCall cb args kwargs :: d' => (cb, args, kwargs) :: calls_made d'
  | _ :: d' => calls_made d'
  end.

(** The exceptions logged by the hook handler, in order. *)
Fixpoint failures_logged (d : list Event) : list Exc :=
  match d with
  | [] => []
  | EvLog INFO (LogCallbackException _ exc) :: d' => exc :: failures_logged d'
  | _ :: d' => failures_logged d'
  end.

(** The description of an entry can be built: the callable has a
    [__name__] and every positional argument is a [str]. *)
Definition formattable (entry : CallbackEntry) : bool :=
  let '(callback, args, _) := entry in
  match cb_name callback with
  | None => false
  | Some _ =>
      match args with
      | [] => true
      | _ => match str_items args with Some _ => true | None => false end
      end
  end.

Section Vocabulary.

Context {E : Type} (rt : Runtime E).

(** [emits P m]: whatever the world, [m] only appends events, and every
    event it appends satisfies [P]. *)
Definition emits {A} (P : Event -> Prop) (m : M E A) : Prop :=
  forall w, exists d, w_trace (snd (m w)) = w_trace w ++ d /\ Forall P d.

(** [raises_only Q m]: every exception that [m] raises satisfies [Q]. *)
Definition raises_only {A} (Q : Exc -> Prop) (m : M E A) : Prop :=
  forall w e w', m w = (Raises e, w') -> Q e.

(** [total m]: [m] never stops for lack of fuel. *)
Definition total {A} (m : M E A) : Prop :=
  forall w, fst (m w) <> OutOfFuel.

(** The streams of an exec result, decoded. *)
Definition decoded (b : option Bytes) : option string :=
  match b with Some b => rt_decode rt b | None => None end.

Definition decodable (b : option Bytes) : bool :=
  match b with
  | Some b => match rt_decode rt b with Some _ => true | None => false end
  | None => true
  end.

(** An entry whose exceptions the hook handler takes care of: whenever the
    callback raises, it raises an instance of [Exception], and the entry is
    [formattable]. *)
Definition handled (entry : CallbackEntry) : Prop :=
  forall e k msg e',
    rt_call rt (fst (fst entry)) (snd (fst entry)) (snd entry) e = (Throws k msg, e') ->
    is_Exception k = true /\ formattable entry = true.

(** The runtime conditions under which an attempt succeeds at once: the
    backend answers the ping, accepts the create-and-run request within the
    timeout, finds the container, and reports it running at every read. *)
Definition runtime_ready (self : ContainerFactory) (timeout : Z) : Prop :=
  (forall e, fst (rt_ping rt e) = Gives true) /\
  existsb (fun k => has_key k (container_run_kwargs self))
    ["name"; "detach"; "stdin_open"] = false /\
  (forall e, exists c,
      fst (rt_run rt (image self) (name self) true true (container_run_kwargs self) e)
      = Gives c) /\
  (forall e,
      Z.of_N (rt_latency rt
                (EvContainersRun (image self) (name self) true true
                   (container_run_kwargs self)) e) <= timeout) /\
  (forall id e, exists c, fst (rt_get rt id e) = Gives c) /\
  (forall c e, fst (rt_status rt c e) = Gives "running").

Definition logs_decodable (l : LogsOutput) : bool :=
  match l with
  | LogsBytes b => decodable (Some b)
  | LogsPair out err => decodable (Some out) && decodable (Some err)
  end.

(** The runtime of the scenario "the resource never transitions to running":
    the backend answers every request, and no status read is "running". *)
Definition runtime_never_running (self : ContainerFactory) : Prop :=
  (forall e, fst (rt_ping rt e) = Gives true) /\
  existsb (fun k => has_key k (container_run_kwargs self))
    ["name"; "detach"; "stdin_open"] = false /\
  (forall e, exists c,
      fst (rt_run rt (image self) (name self) true true (container_run_kwargs self) e)
      = Gives c) /\
  (forall id e, exists c, fst (rt_get rt id e) = Gives c) /\
  (forall c e, exists st,
      fst (rt_status rt c e) = Gives st /\ is_status_running st = false) /\
  (forall c e, exists l,
      fst (rt_logs rt c true true false e) = Gives l /\ logs_decodable l = true).

(** The runtime of the scenario "created, then running": the backend
    answers every request; [polls_left e] counts the status reads that, from
    the environment [e] on, still answer something else than "running" (a
    status read lowers it, no lookup and no sleep raises it, and at 0 every
    read answers "running"); it is at most [m]; and [m] polls that find the
    resource not running, each [poll_time] long at most, fit into the
    timeout after the create-and-run request. *)
Definition runtime_becomes_running (self : ContainerFactory) (timeout : Z)
    (polls_left : E -> nat) (m : nat) (poll_time : Z) : Prop :=
  (forall e, fst (rt_ping rt e) = Gives true) /\
  existsb (fun k => has_key k (container_run_kwargs self))
    ["name"; "detach"; "stdin_open"] = false /\
  (forall e, exists c,
      fst (rt_run rt (image self) (name self) true true (container_run_kwargs self) e)
      = Gives c) /\
  (forall id e, exists c, fst (rt_get rt id e) = Gives c) /\
  (forall c e, exists st,
      fst (rt_status rt c e) = Gives st /\
      is_status_running st = (polls_left e =? 0)%nat) /\
  (forall e, (polls_left e <= m)%nat) /\
  (forall c e, (polls_left (snd (rt_status rt c e)) <= pred (polls_left e))%nat) /\
  (forall id e, (polls_left (snd (rt_get rt id e)) <= polls_left e)%nat) /\
  (forall ms e, (polls_left (rt_sleep rt ms e) <= polls_left e)%nat) /\
  (forall e,
      Z.of_N (rt_latency rt
                (EvContainersRun (image self) (name self) true true
                   (container_run_kwargs self)) e)
      + Z.of_nat m * poll_time <= timeout) /\
  (m <> 0%nat -> forall ev e, 250 + 3 * Z.of_N (rt_latency rt ev e) <= poll_time).

(** What a hook sequence is to do, in the words of the spec: every callback
    is invoked, in insertion order, and every exception is recorded; the
    result is the exceptions raised, and the environment left. *)
Fixpoint hooks_outcome (callbacks : list CallbackEntry) (e : E) : list Exc * E :=
  match callbacks with
  | [] => ([], e)
  | (callback, args, kwargs) :: rest =>
      let '(r, e1) := rt_call rt callback args kwargs e in
      let '(excs, e') := hooks_outcome rest e1 in
      (match r with Gives _ => excs | Throws k msg => PyExc k msg :: excs end, e')
  end.

(** The world with its handle replaced. *)
Definition with_container (w : World E) (c : option Container) : World E :=
  {| w_env := w_env w; w_now := w_now w; w_trace := w_trace w; w_container := c |}.

End Vocabulary.

(** Fuel that suffices when every attempt times out: one unit per attempt,
    and one per poll, the polls of an attempt being 250 ms apart at least. *)
Definition fuel_needed (attempts timeout : Z) : nat :=
  (Z.to_nat (attempts + 1) + Z.to_nat (timeout / 250 + 1) + 1)%nat.

(** What [terminate] returns when it captured nothing. *)
Definition empty_result : ProcessResult :=
  {| exitcode := Some 0; stdout := None; stderr := None; cmdline := None |}.

(** Whether [terminate] is registered with [atexit] after the events [d],
    [registered] telling it for the time before them; [atexit.unregister]
    removes every registration of the function. *)
Fixpoint exit_hook_registered (registered : bool) (d : list Event) : bool :=
  match d with
  | [] => registered
  | EvAtexitRegister :: d' => exit_hook_registered true d'
  | EvAtexitUnregister :: d' => exit_hook_registered false d'
  | _ :: d' => exit_hook_registered registered d'
  end.

Definition is_unregister (ev : Event) : bool :=
  match ev with EvAtexitUnregister => true | _ => false end.

(** The locals [(stdout, stderr)] of [terminate] once the answer of
    [container.logs] is decoded. *)
Definition captured {E : Type} (rt : Runtime E) (l : LogsOutput)
  : option string * option string :=
  match l with
  | LogsBytes b => (rt_decode rt b, None)
  | LogsPair out err => (rt_decode rt out, rt_decode rt err)
  end.


(** ** SaltDaemonContainerFactory

    The class combines [ContainerFactory] with [SaltDaemonFactory]
    (saltfactories.factories.base), whose [start] and [terminate] are
    computations given from outside. *)
Module SaltDaemonContainerFactory.




Section Daemon.

Context {E : Type} (rt : Runtime E).
Variable SaltDaemonFactory_start : option Z -> option Z -> M E bool.
Variable SaltDaemonFactory_terminate : M E ProcessResult.

Definition start (fuel : nat) (self : ContainerFactory)
    (max_start_attempts_arg start_timeout_arg : option Z) : M E bool :=
  start rt fuel self max_start_attempts_arg start_timeout_arg ;;
  SaltDaemonFactory_start max_start_attempts_arg start_timeout_arg.

Definition terminate (self : ContainerFactory) : M E ProcessResult :=
  let* ret_ := SaltDaemonFactory_terminate in
  terminate rt self ;;
  ret ret_.

End Daemon.

End SaltDaemonContainerFactory.

(** ** Concrete environments

    A scripted runtime: the environment state counts the [status] reads made
    so far, the n-th read answers the n-th entry of [sc_statuses] (the last
    entry from then on); every other call has a fixed answer. *)
Module Demo.

Record Script := {
  sc_statuses : list string;
  sc_ping : Reply bool;
  sc_call : Callback -> Reply unit;
  sc_get : string -> Reply Container;
  sc_logs : Reply LogsOutput;
  sc_exec : Reply ExecResult;
  sc_probe : gset Z -> gset Z;
}.

Definition decode_ascii (b : Bytes) : option string :=
  if forallb (fun x => Nat.ltb (Byte.to_nat x) 128) b
  then Some (string_of_list_ascii (map Ascii.ascii_of_byte b))
  else None.

Definition scripted (sc : Script) : Runtime nat := {|
  rt_call := fun cb _ _ e => (sc_call sc cb, e);
  rt_ping := fun e => (sc_ping sc, e);
  rt_run := fun _ _ _ _ _ e => (Gives {| cobj := 1; cid := "c0ffee" |}, e);
  rt_get := fun id e => (sc_get sc id, e);
  rt_status := fun _ e =>
    (Gives (List.nth e (sc_statuses sc) (List.last (sc_statuses sc) "created")), S e);
  rt_logs := fun _ _ _ _ e => (sc_logs sc, e);
  rt_remove := fun _ _ e => (Gives tt, e);
  rt_wait := fun _ e => (Gives tt, e);
  rt_exec_run := fun _ _ _ _ e => (sc_exec sc, e);
  rt_connectable_ports := fun ports e => (Gives (sc_probe sc ports), e);
  rt_sleep := fun _ e => e;
  rt_latency := fun _ _ => 0%N;
  rt_decode := decode_ascii;
|}.

(** Callbacks: [cleanup] returns; [notify] raises an [Exception];
    [interrupt] raises [KeyboardInterrupt]. *)
Definition cleanup : Callback := {| cb_key := 1; cb_name := Some "cleanup" |}.
Definition notify : Callback := {| cb_key := 0; cb_name := Some "notify" |}.
Definition interrupt : Callback := {| cb_key := 2; cb_name := Some "interrupt" |}.

Definition call_script (cb : Callback) : Reply unit :=
  match cb_key cb with
  | 0%nat => Throws OtherException "boom"
  | 2%nat => Throws KeyboardInterrupt ""
  | _ => Gives tt
  end.

Definition fresh_handle (id : string) : Reply Container :=
  Gives {| cobj := 2; cid := id |}.

(** The bytes of "foo\n". *)
Definition foo_bytes : Bytes := [Byte.x66; Byte.x6f; Byte.x6f; Byte.x0a].

Definition script (statuses : list string) : Script := {|
  sc_statuses := statuses;
  sc_ping := Gives true;
  sc_call := call_script;
  sc_get := fresh_handle;
  sc_logs := Gives (LogsBytes foo_bytes);
  sc_exec := Gives {| exit_code := Some 0; output := Some (Some foo_bytes, None) |};
  sc_probe := fun ports => ports;
|}.

Definition with_ping (sc : Script) (r : Reply bool) : Script := {|
  sc_statuses := sc_statuses sc; sc_ping := r; sc_call := sc_call sc;
  sc_get := sc_get sc; sc_logs := sc_logs sc; sc_exec := sc_exec sc;
  sc_probe := sc_probe sc |}.

Definition with_get (sc : Script) (r : string -> Reply Container) : Script := {|
  sc_statuses := sc_statuses sc; sc_ping := sc_ping sc; sc_call := sc_call sc;
  sc_get := r; sc_logs := sc_logs sc; sc_exec := sc_exec sc;
  sc_probe := sc_probe sc |}.

(** The resource is never reported running / is running at once / is
    reported running and found not running by the double-check. *)
Definition never_running : Runtime nat := scripted (script ["created"]).
Definition running_at_once : Runtime nat := scripted (script ["running"]).
Definition flapping : Runtime nat :=
  scripted (script ["running"; "running"; "running"; "exited"]).

(** The docker daemon refuses the connection / has lost the container. *)
Definition unreachable : Runtime nat :=
  scripted (with_ping (script ["created"])
              (Throws RequestsConnectionError "Connection refused")).
Definition container_gone : Runtime nat :=
  scripted (with_get (script ["exited"])
              (fun _ => Throws NotFound "No such container")).

Definition factory : ContainerFactory := {|
  image := "cjimti/go-echo";
  name := "factories-demo";
  check_ports := None;
  container_run_kwargs := [];
  start_timeout := 500;
  max_start_attempts := 2;
  before_start_callbacks := [(notify, [PyStr "a" "'a'"], [("k", PyObj "1")])];
  before_terminate_callbacks := [(notify, [], []); (cleanup, [], [])];
  after_start_callbacks := [(cleanup, [], [])];
  after_terminate_callbacks := [(cleanup, [PyStr "/tmp/x" "'/tmp/x'"], []); (notify, [], [])];
|}.

Definition with_before_start (self : ContainerFactory)
    (callbacks : list CallbackEntry) : ContainerFactory := {|
  image := image self; name := name self; check_ports := check_ports self;
  container_run_kwargs := container_run_kwargs self;
  start_timeout := start_timeout self; max_start_attempts := max_start_attempts self;
  before_start_callbacks := callbacks;
  before_terminate_callbacks := before_terminate_callbacks self;
  after_start_callbacks := after_start_callbacks self;
  after_terminate_callbacks := after_terminate_callbacks self |}.

(** [interrupt] registered before [cleanup]; [notify] registered with the
    number 1 as its argument; no before-start hook at all. *)
Definition factory_interrupted : ContainerFactory :=
  with_before_start factory [(interrupt, [], []); (cleanup, [], [])].
Definition factory_unformattable : ContainerFactory :=
  with_before_start factory [(notify, [PyObj "1"], []); (cleanup, [], [])].
Definition factory_plain : ContainerFactory :=
  with_before_start factory [].

Definition fresh : World nat :=
  {| w_env := 0%nat; w_now := 0; w_trace := []; w_container := None |}.

Definition a_handle : Container := {| cobj := 1; cid := "c0ffee" |}.

(** A started controller: the handle is present. *)
Definition started_world : World nat :=
  {| w_env := 0%nat; w_now := 0; w_trace := []; w_container := Some a_handle |}.

(** The first attempt times out before the resource is reported running;
    the second finds it running. *)
Definition slow_start : Runtime nat :=
  scripted (script ["created"; "created"; "created"; "created"; "running"]).

Definition with_probe (sc : Script) (probe : gset Z -> gset Z) : Script := {|
  sc_statuses := sc_statuses sc; sc_ping := sc_ping sc; sc_call := sc_call sc;
  sc_get := sc_get sc; sc_logs := sc_logs sc; sc_exec := sc_exec sc;
  sc_probe := probe |}.

(** The resource runs, and none of its ports accepts a connection. *)
Definition ports_closed : Runtime nat :=
  scripted (with_probe (script ["running"]) (fun _ => ∅)).

Definition with_check_ports (self : ContainerFactory) (ports : option (list Z))
  : ContainerFactory := {|
  image := image self; name := name self; check_ports := ports;
  container_run_kwargs := container_run_kwargs self;
  start_timeout := start_timeout self; max_start_attempts := max_start_attempts self;
  before_start_callbacks := before_start_callbacks self;
  before_terminate_callbacks := before_terminate_callbacks self;
  after_start_callbacks := after_start_callbacks self;
  after_terminate_callbacks := after_terminate_callbacks self |}.

Definition factory_with_port : ContainerFactory :=
  with_check_ports factory (Some [8080]).

Definition with_latency (rt : Runtime nat) (latency : Event -> N) : Runtime nat := {|
  rt_call := rt_call rt; rt_ping := rt_ping rt; rt_run := rt_run rt;
  rt_get := rt_get rt; rt_status := rt_status rt; rt_logs := rt_logs rt;
  rt_remove := rt_remove rt; rt_wait := rt_wait rt; rt_exec_run := rt_exec_run rt;
  rt_connectable_ports := rt_connectable_ports rt; rt_sleep := rt_sleep rt;
  rt_latency := fun ev _ => latency ev;
  rt_decode := rt_decode rt |}.

(** The resource runs and its ports are open, but a probe takes a second. *)
Definition slow_probe : Runtime nat :=
  with_latency running_at_once
    (fun ev => match ev with EvGetConnectablePorts _ => 1000%N | _ => 0%N end).

Definition with_exec (sc : Script) (r : Reply ExecResult) : Script := {|
  sc_statuses := sc_statuses sc; sc_ping := sc_ping sc; sc_call := sc_call sc;
  sc_get := sc_get sc; sc_logs := sc_logs sc; sc_exec := r;
  sc_probe := sc_probe sc |}.

(** The command prints a byte that is not text. *)
Definition garbled_exec : Runtime nat :=
  scripted (with_exec (script ["running"])
              (Gives {| exit_code := Some 0; output := Some (Some [Byte.xff], None) |})).

(** The resource is reported running at the third status read. *)
Definition created_then_running : Runtime nat :=
  scripted (script ["created"; "created"; "running"]).

Definition with_before_terminate (self : ContainerFactory)
    (callbacks : list CallbackEntry) : ContainerFactory := {|
  image := image self; name := name self; check_ports := check_ports self;
  container_run_kwargs := container_run_kwargs self;
  start_timeout := start_timeout self; max_start_attempts := max_start_attempts self;
  before_start_callbacks := before_start_callbacks self;
  before_terminate_callbacks := callbacks;
  after_start_callbacks := after_start_callbacks self;
  after_terminate_callbacks := after_terminate_callbacks self |}.

(** [interrupt] registered before-terminate, ahead of [cleanup]. *)
Definition factory_teardown_interrupted : ContainerFactory :=
  with_before_terminate factory [(interrupt, [], []); (cleanup, [], [])].

(** The bytes of "bar". *)
Definition bar_bytes : Bytes := [Byte.x62; Byte.x61; Byte.x72].

(** The command writes to both streams and exits with code 3. *)
Definition both_streams : Runtime nat :=
  scripted (with_exec (script ["running"])
              (Gives {| exit_code := Some 3;
                        output := Some (Some foo_bytes, Some bar_bytes) |})).

End Demo.
(** ** Properties *)

Section Properties.

Context {E : Type} (rt : Runtime E).

Lemma emits_ret {A} P (a : A) : emits P (ret (E:=E) a).
Proof. intros w. exists []. simpl. rewrite app_nil_r. auto. Qed.

Lemma emits_raise {A} P e : emits P (raise (E:=E) (A:=A) e).
Proof. intros w. exists []. simpl. rewrite app_nil_r. auto. Qed.

Lemma emits_out_of_fuel {A} P : emits P (out_of_fuel (E:=E) (A:=A)).
Proof. intros w. exists []. simpl. rewrite app_nil_r. auto. Qed.

Lemma emits_time_time P : emits P (time_time (E:=E)).
Proof. intros w. exists []. simpl. rewrite app_nil_r. auto. Qed.

Lemma emits_get_container P : emits P (get_container (E:=E)).
Proof. intros w. exists []. simpl. rewrite app_nil_r. auto. Qed.

Lemma emits_set_container P c : emits P (set_container (E:=E) c).
Proof. intros w. exists []. simpl. rewrite app_nil_r. auto. Qed.

Lemma emits_emit (P : Event -> Prop) ev : P ev -> emits P (emit (E:=E) ev).
Proof. intros H w. exists [ev]. simpl. auto. Qed.

Lemma emits_log (P : Event -> Prop) lvl m : P (EvLog lvl m) -> emits P (log (E:=E) lvl m).
Proof. apply emits_emit. Qed.

Lemma emits_extern {A} (P : Event -> Prop) ev (f : E -> Reply A * E) :
  P ev -> emits P (extern rt ev f).
Proof.
  intros H w. exists [ev]. unfold extern.
  destruct (f (w_env w)) as [[a|k msg] e']; simpl; auto.
Qed.

Lemma emits_time_sleep (P : Event -> Prop) ms : P (EvSleep ms) -> emits P (time_sleep rt ms).
Proof. intros H w. exists [EvSleep ms]. simpl. auto. Qed.

Lemma emits_bind {A B} P (m : M E A) (k : A -> M E B) :
  emits P m -> (forall a, emits P (k a)) -> emits P (bind m k).
Proof.
  intros Hm Hk w. unfold bind.
  destruct (Hm w) as (d1 & H1 & F1).
  destruct (m w) as [[a|e|] w1]; simpl in *; eauto.
  destruct (Hk a w1) as (d2 & H2 & F2).
  exists (d1 ++ d2). rewrite H2, H1, app_assoc. split; [done|].
  apply Forall_app; auto.
Qed.

Lemma emits_try_except {A} P (m : M E A) catches handler :
  emits P m -> (forall e, emits P (handler e)) -> emits P (try_except m catches handler).
Proof.
  intros Hm Hh w. unfold try_except.
  destruct (Hm w) as (d1 & H1 & F1).
  destruct (m w) as [[a|e|] w1]; simpl in *; eauto.
  destruct (catches e); simpl; eauto.
  destruct (Hh e w1) as (d2 & H2 & F2).
  exists (d1 ++ d2). rewrite H2, H1, app_assoc. split; [done|].
  apply Forall_app; auto.
Qed.

Lemma emits_bind_unless_NotFound {A L} P (l : L) (m : M E A) (k : A -> M E L) :
  emits P m -> (forall a, emits P (k a)) -> emits P (bind_unless_NotFound l m k).
Proof.
  intros Hm Hk w. unfold bind_unless_NotFound.
  destruct (Hm w) as (d1 & H1 & F1).
  destruct (m w) as [[a|e|] w1]; simpl in *; eauto.
  - destruct (Hk a w1) as (d2 & H2 & F2).
    exists (d1 ++ d2). rewrite H2, H1, app_assoc. split; [done|].
    apply Forall_app; auto.
  - destruct (exc_is_NotFound e); simpl; eauto.
Qed.

Lemma emits_finally {A} P (m : M E A) (f : M E unit) :
  emits P m -> emits P f -> emits P (finally m f).
Proof.
  intros Hm Hf w. unfold finally.
  destruct (Hm w) as (d1 & H1 & F1).
  destruct (m w) as [[a|e|] w1]; simpl in *; eauto;
    destruct (Hf w1) as (d2 & H2 & F2);
    (exists (d1 ++ d2); split; [|apply Forall_app; auto]);
    destruct (f w1) as [[[]|e2|] w2]; simpl in *; rewrite H2, H1, app_assoc; done.
Qed.



Ltac emits_step :=
  match goal with
  | |- emits _ (ret _) => apply emits_ret
  | |- emits _ (raise _) => apply emits_raise
  | |- emits _ out_of_fuel => apply emits_out_of_fuel
  | |- emits _ time_time => apply emits_time_time
  | |- emits _ get_container => apply emits_get_container
  | |- emits _ (set_container _) => apply emits_set_container
  | |- emits _ (emit _) => apply emits_emit
  | |- emits _ (log _ _) => apply emits_log
  | |- emits _ (extern _ _ _) => apply emits_extern
  | |- emits _ (time_sleep _ _) => apply emits_time_sleep
  | |- emits _ (bind _ _) => apply emits_bind; [|intros]
  | |- emits _ (try_except _ _ _) => apply emits_try_except; [|intros]
  | |- emits _ (bind_unless_NotFound _ _ _) => apply emits_bind_unless_NotFound; [|intros]
  | |- emits _ (finally _ _) => apply emits_finally
  | |- emits _ (match ?x with _ => _ end) => destruct x
  | |- emits _ (let (_, _) := ?x in _) => destruct x
  | |- emits _ (let _ := _ in _) => cbv zeta
  end.

Ltac emits_event :=
  match goal with
  | H : forall ev, _ = true -> ?P ev |- ?P _ => apply H; reflexivity
  end.

Lemma emits_format_callback P callback args kwargs :
  emits P (_format_callback (E:=E) callback args kwargs).
Proof. unfold _format_callback. repeat emits_step. Qed.

Lemma emits_run_callbacks (P : Event -> Prop) callbacks :
  (forall ev, hook_event ev = true -> P ev) ->
  emits P (run_callbacks rt callbacks).
Proof.
  intros HP. induction callbacks as [|[[callback args] kwargs] rest IH]; simpl.
  - apply emits_ret.
  - repeat (emits_step; try apply emits_format_callback; try emits_event).
    exact IH.
Qed.

Lemma emits_py_decode P b : emits P (py_decode rt b).
Proof. unfold py_decode. repeat emits_step. Qed.

Lemma emits_status (P : Event -> Prop) c : P (EvStatus c) -> emits P (status rt c).
Proof. intros. unfold status. repeat emits_step. done. Qed.

Lemma emits_is_running (P : Event -> Prop) :
  (forall c, P (EvStatus c)) -> emits P (is_running rt).
Proof. intros. unfold is_running. repeat (emits_step; try apply emits_status; auto). Qed.

Lemma emits_terminate_capture_and_remove (P : Event -> Prop) :
  (forall ev, teardown_event ev = true -> P ev) ->
  emits P (terminate_capture_and_remove rt).
Proof.
  intros HP. unfold terminate_capture_and_remove.
  repeat (emits_step; try apply emits_py_decode; try apply emits_status; try emits_event).
Qed.

Lemma emits_terminate (P : Event -> Prop) self :
  (forall ev, hook_event ev = true -> P ev) ->
  (forall ev, teardown_event ev = true -> P ev) ->
  emits P (terminate rt self).
Proof.
  intros HP HQ. unfold terminate.
  repeat (emits_step; try apply emits_run_callbacks;
          try apply emits_terminate_capture_and_remove; try emits_event; auto).
Qed.


(** *** Hook sequences *)

Lemma format_callback_formattable callback args kwargs :
  formattable (callback, args, kwargs) = true ->
  exists str, forall w : World E,
    _format_callback callback args kwargs w = (Return str, w).
Proof.
  unfold formattable, _format_callback. intros H.
  destruct (cb_name callback) as [nm|]; [|discriminate].
  destruct args as [|a args'].
  - eexists. intros w. reflexivity.
  - destruct (str_items (a :: args')) as [items|]; [|discriminate].
    eexists. intros w. reflexivity.
Qed.

Lemma calls_made_app d1 d2 : calls_made (d1 ++ d2) = calls_made d1 ++ calls_made d2.
Proof.
  induction d1 as [|ev d1 IH]; simpl; [done|].
  destruct ev; simpl; rewrite ?IH; done.
Qed.

Lemma failures_logged_app d1 d2 :
  failures_logged (d1 ++ d2) = failures_logged d1 ++ failures_logged d2.
Proof.
  induction d1 as [|ev d1 IH]; simpl; [done|].
  destruct ev as [| | | [] []| | | | | | | | | | ]; simpl; rewrite ?IH; done.
Qed.

Lemma attempts_logged_app d1 d2 :
  attempts_logged (d1 ++ d2) = attempts_logged d1 ++ attempts_logged d2.
Proof.
  induction d1 as [|ev d1 IH]; simpl; [done|].
  destruct ev as [| | | [] []| | | | | | | | | | ]; simpl; rewrite ?IH; done.
Qed.

(** A sequence of handled hooks runs to its end: every callback is invoked,
    in order, every exception is logged, nothing is raised, and the handle
    is left alone. *)
Lemma run_callbacks_handled callbacks :
  Forall (handled rt) callbacks ->
  forall w, exists w' d,
    run_callbacks rt callbacks w = (Return tt, w') /\
    w_container w' = w_container w /\
    w_now w <= w_now w' /\
    w_env w' = snd (hooks_outcome rt callbacks (w_env w)) /\
    w_trace w' = w_trace w ++ d /\
    Forall (fun ev => hook_event ev = true) d /\
    calls_made d = callbacks /\
    failures_logged d = fst (hooks_outcome rt callbacks (w_env w)).
Proof.
  induction 1 as [|[[callback args] kwargs] rest Hh _ IH]; intros w.
  - exists w, []. simpl. rewrite app_nil_r. repeat split; auto. lia.
  - simpl. unfold bind at 1. unfold try_except, extern.
    specialize (Hh (w_env w)). simpl in Hh.
    destruct (rt_call rt callback args kwargs (w_env w)) as [[[]|k msg] e1].
    + destruct (IH (record_event rt (EvCall callback args kwargs) w e1 0))
        as (w' & d & Hrun & Hc & Hn & He & Ht & Hd & Hcalls & Hf).
      simpl in *. destruct (hooks_outcome rt rest e1) as [excs e'] eqn:Hho.
      exists w', (EvCall callback args kwargs :: d).
      rewrite Hrun, Ht, <- app_assoc. simpl in *.
      repeat split; auto; try lia. by rewrite Hcalls.
    + destruct (Hh k msg e1 eq_refl) as [Hk Hfmt]. simpl. rewrite Hk.
      destruct (format_callback_formattable callback args kwargs Hfmt) as [str Hstr].
      unfold bind at 1. rewrite Hstr. unfold log, emit. simpl.
      match goal with |- context [run_callbacks rt rest ?w1] =>
        destruct (IH w1) as (w' & d & Hrun & Hc & Hn & He & Ht & Hd & Hcalls & Hf)
      end.
      simpl in *. destruct (hooks_outcome rt rest e1) as [excs e'] eqn:Hho.
      exists w', (EvCall callback args kwargs ::
                  EvLog INFO (LogCallbackException str (PyExc k msg)) :: d).
      rewrite Hrun, Ht, <- !app_assoc. simpl in *.
      repeat split; auto; try lia; by rewrite ?Hcalls, ?Hf.
Qed.


(** *** terminate without a handle *)

Lemma terminate_capture_no_handle (w : World E) :
  w_container w = None ->
  terminate_capture_and_remove rt w = (Return (None, None), w).
Proof.
  intros H. unfold terminate_capture_and_remove, bind, get_container.
  rewrite H. reflexivity.
Qed.

Lemma terminate_no_handle self (w : World E) :
  w_container w = None ->
  Forall (handled rt) (before_terminate_callbacks self) ->
  Forall (handled rt) (after_terminate_callbacks self) ->
  exists w' d,
    terminate rt self w = (Return empty_result, w') /\
    w_container w' = None /\
    w_trace w' = w_trace w ++ EvAtexitUnregister :: d /\
    Forall (fun ev => hook_event ev = true) d /\
    calls_made d = before_terminate_callbacks self ++ after_terminate_callbacks self.
Proof.
  intros Hc Hb Ha. unfold terminate.
  unfold bind at 1. unfold emit.
  match goal with |- context [bind (run_callbacks rt _) _ ?w1] =>
    destruct (run_callbacks_handled _ Hb w1)
      as (w1' & d1 & Hrun1 & Hc1 & _ & _ & Ht1 & Hd1 & Hcalls1 & _)
  end.
  unfold bind at 1. rewrite Hrun1.
  unfold bind at 1. unfold finally.
  simpl in Hc1. rewrite terminate_capture_no_handle by congruence.
  destruct (run_callbacks_handled _ Ha w1')
    as (w2 & d2 & Hrun2 & Hc2 & _ & _ & Ht2 & Hd2 & Hcalls2 & _).
  rewrite Hrun2. exists w2, (d1 ++ d2). simpl in Ht1.
  repeat split.
  - congruence.
  - rewrite Ht2, Ht1, <- !app_assoc. reflexivity.
  - apply Forall_app; auto.
  - rewrite calls_made_app. congruence.
Qed.

(** *** is_running and scoped entry *)

(** C10: without a handle, [is_running] does not return: it raises
    [AttributeError], and so does [__enter__], instead of the [RuntimeError]
    "Factory not yet started"; with a handle, [is_running] tells whether
    the status read equals "running". *)
Theorem is_running_needs_handle self (w : World E) :
  is_running rt (with_container w None) =
    (Raises (PyExc AttributeError "'NoneType' object has no attribute 'status'"),
     with_container w None) /\
  __enter__ rt self (with_container w None) =
    (Raises (PyExc AttributeError "'NoneType' object has no attribute 'status'"),
     with_container w None) /\
  forall c,
    is_running rt (with_container w (Some c)) =
      match rt_status rt c (w_env w) with
      | (Gives st, e') =>
          (Return (String.eqb st "running"),
           record_event rt (EvStatus c) (with_container w (Some c)) e' 0)
      | (Throws k msg, e') =>
          (Raises (PyExc k msg),
           record_event rt (EvStatus c) (with_container w (Some c)) e' 0)
      end.
Proof.
  repeat split.
  intros c. unfold is_running, bind, get_container, status, extern. simpl.
  destruct (rt_status rt c (w_env w)) as [[st|k msg] e']; reflexivity.
Qed.


(** *** Exceptions and fuel *)

Lemma raises_only_bind {A B} Q (m : M E A) (k : A -> M E B) :
  raises_only Q m -> (forall a, raises_only Q (k a)) -> raises_only Q (bind m k).
Proof.
  intros Hm Hk w e w'. unfold bind.
  destruct (m w) as [[a|e0|] w1] eqn:Hmw; intros H; try discriminate.
  - eapply Hk; eauto.
  - inversion H; subst. eapply Hm; eauto.
Qed.

Lemma raises_only_unless_NotFound {A L} (Q : Exc -> Prop) (l : L) (m : M E A) k :
  (forall e, exc_is_NotFound e = false -> Q e) ->
  (forall a, raises_only Q (k a)) ->
  raises_only Q (bind_unless_NotFound l m k).
Proof.
  intros HQ Hk w e w'. unfold bind_unless_NotFound.
  destruct (m w) as [[a|e0|] w1] eqn:Hmw; intros H; try discriminate.
  - eapply Hk; eauto.
  - destruct (exc_is_NotFound e0) eqn:Hnf; inversion H; subst. auto.
Qed.

Lemma raises_only_never {A} Q (m : M E A) :
  (forall w e w', m w <> (Raises e, w')) -> raises_only Q m.
Proof. intros H w e w' Hm. destruct (H _ _ _ Hm). Qed.

Lemma terminate_capture_never_NotFound :
  raises_only (fun e => exc_is_NotFound e = false) (terminate_capture_and_remove rt).
Proof.
  unfold terminate_capture_and_remove.
  apply raises_only_bind; [apply raises_only_never; discriminate|].
  intros [handle|]; [|apply raises_only_never; discriminate].
  repeat first
    [ apply raises_only_unless_NotFound; [auto|intros]
    | apply raises_only_bind; [apply raises_only_never; discriminate|intros]
    | apply raises_only_never; discriminate
    | match goal with |- raises_only _ (match ?x with _ => _ end) => destruct x end ].
Qed.

Lemma total_bind {A B} (m : M E A) (k : A -> M E B) :
  total m -> (forall a, total (k a)) -> total (bind m k).
Proof.
  intros Hm Hk w. unfold bind. specialize (Hm w).
  destruct (m w) as [[a|e0|] w1]; simpl in *; try done. apply Hk.
Qed.

Lemma total_unless_NotFound {A L} (l : L) (m : M E A) k :
  total m -> (forall a, total (k a)) -> total (bind_unless_NotFound l m k).
Proof.
  intros Hm Hk w. unfold bind_unless_NotFound. specialize (Hm w).
  destruct (m w) as [[a|e0|] w1]; simpl in *; try done.
  - apply Hk.
  - destruct (exc_is_NotFound e0); done.
Qed.

Lemma total_extern {A} ev (f : E -> Reply A * E) : total (extern rt ev f).
Proof.
  intros w. unfold extern. destruct (f (w_env w)) as [[a|k msg] e']; done.
Qed.

Lemma total_py_decode b : total (py_decode rt b).
Proof. intros w. unfold py_decode. destruct (rt_decode rt b); done. Qed.

Lemma terminate_capture_total : total (terminate_capture_and_remove rt).
Proof.
  unfold terminate_capture_and_remove.
  apply total_bind; [done|].
  intros [handle|]; [|done].
  repeat first
    [ apply total_unless_NotFound; [|intros]
    | apply total_bind; [|intros]
    | apply total_extern
    | apply total_py_decode
    | match goal with |- total (match ?x with _ => _ end) => destruct x end
    | done ].
Qed.


Lemma emits_delta {A} (P : Event -> Prop) (m : M E A) w o w' :
  emits P m -> m w = (o, w') ->
  exists d, w_trace w' = w_trace w ++ d /\ Forall P d.
Proof. intros Hm Hw. specialize (Hm w). rewrite Hw in Hm. exact Hm. Qed.

(** *** terminate with a handle *)

(** The phases of [terminate] when its hooks are handled: the before
    hooks, the capture-and-removal step with whatever outcome, the after
    hooks, and the result. *)
Lemma terminate_phases self (w : World E) :
  Forall (handled rt) (before_terminate_callbacks self) ->
  Forall (handled rt) (after_terminate_callbacks self) ->
  exists w1 o w2 w3 d1 d2 d3,
    w_trace w1 = w_trace w ++ EvAtexitUnregister :: d1 /\
    calls_made d1 = before_terminate_callbacks self /\
    terminate_capture_and_remove rt w1 = (o, w2) /\
    w_trace w2 = w_trace w1 ++ d2 /\
    Forall (fun ev => teardown_event ev = true) d2 /\
    run_callbacks rt (after_terminate_callbacks self) w2 = (Return tt, w3) /\
    w_trace w3 = w_trace w2 ++ d3 /\
    calls_made d3 = after_terminate_callbacks self /\
    terminate rt self w =
      (match o with
       | Return (out, err) =>
           Return {| exitcode := Some 0; stdout := out; stderr := err; cmdline := None |}
       | Raises e => Raises e
       | OutOfFuel => OutOfFuel
       end, w3) /\
    o <> OutOfFuel /\
    (forall e, o = Raises e -> exc_is_NotFound e = false) /\
    (forall e, fst (terminate rt self w) = Raises e -> exc_is_NotFound e = false) /\
    (forall c msg e',
        w_container w = Some c ->
        rt_get rt (cid c) (w_env w1) = (Throws NotFound msg, e') ->
        terminate rt self w = (Return empty_result, w3)).
Proof.
  intros Hb Ha.
  destruct (run_callbacks_handled _ Hb (snd (emit EvAtexitUnregister w)))
    as (w1 & d1 & Hrun1 & Hc1 & _ & _ & Ht1 & _ & Hcalls1 & _).
  simpl in Ht1, Hc1, Hrun1.
  destruct (terminate_capture_and_remove rt w1) as [o w2] eqn:Hstep.
  destruct (emits_delta _ _ _ _ _
              (emits_terminate_capture_and_remove (fun ev => teardown_event ev = true)
                 (fun ev H => H)) Hstep) as (d2 & Ht2 & Hd2).
  destruct (run_callbacks_handled _ Ha w2)
    as (w3 & d3 & Hrun3 & _ & _ & _ & Ht3 & _ & Hcalls3 & _).
  assert (Hfuel : o <> OutOfFuel).
  { pose proof (terminate_capture_total w1) as Hx. rewrite Hstep in Hx. exact Hx. }
  assert (Hnf : forall e, o = Raises e -> exc_is_NotFound e = false).
  { intros e ->. eapply terminate_capture_never_NotFound; eauto. }
  assert (Hterm : terminate rt self w =
                (match o with
                 | Return (out, err) =>
                     Return {| exitcode := Some 0; stdout := out; stderr := err;
                               cmdline := None |}
                 | Raises e => Raises e
                 | OutOfFuel => OutOfFuel
                 end, w3)).
  { unfold terminate. unfold bind at 1. unfold emit. unfold bind at 1.
    rewrite Hrun1. unfold bind, finally. rewrite Hstep.
    destruct o as [[out err]|e|]; try done; rewrite Hrun3; reflexivity. }
  exists w1, o, w2, w3, d1, d2, d3.
  rewrite Hterm. split_and!; auto.
  - rewrite Ht1, <- app_assoc. reflexivity.
  - simpl. intros e He. destruct o as [[out err]|e0|]; try discriminate.
    inversion He; subst. auto.
  - intros c msg e' Hc Hget. f_equal.
    unfold terminate_capture_and_remove, bind, get_container in Hstep.
    rewrite Hc1, Hc in Hstep. unfold bind_unless_NotFound at 1 in Hstep.
    unfold extern in Hstep. rewrite Hget in Hstep. simpl in Hstep.
    inversion Hstep; subst. reflexivity.
Qed.

(** Once the before-terminate hooks have returned, the after-terminate
    sequence is run in the world the capture-and-removal step leaves,
    whatever the outcome of that step. *)
Lemma terminate_finally self (w w1 : World E) :
  run_callbacks rt (before_terminate_callbacks self) (snd (emit EvAtexitUnregister w))
  = (Return tt, w1) ->
  exists o w2,
    terminate_capture_and_remove rt w1 = (o, w2) /\
    o <> OutOfFuel /\
    (forall e, o = Raises e -> exc_is_NotFound e = false) /\
    terminate rt self w =
      (match fst (run_callbacks rt (after_terminate_callbacks self) w2) with
       | Return _ =>
           match o with
           | Return (out, err) =>
               Return {| exitcode := Some 0; stdout := out; stderr := err;
                         cmdline := None |}
           | Raises e => Raises e
           | OutOfFuel => OutOfFuel
           end
       | Raises e => Raises e
       | OutOfFuel => OutOfFuel
       end, snd (run_callbacks rt (after_terminate_callbacks self) w2)).
Proof.
  intros Hrun1.
  destruct (terminate_capture_and_remove rt w1) as [o w2] eqn:Hstep.
  exists o, w2. split_and!.
  - reflexivity.
  - pose proof (terminate_capture_total w1) as Hx. rewrite Hstep in Hx. exact Hx.
  - intros e ->. eapply terminate_capture_never_NotFound; eauto.
  - assert (Hfuel : o <> OutOfFuel).
    { pose proof (terminate_capture_total w1) as Hx. rewrite Hstep in Hx. exact Hx. }
    unfold terminate. unfold bind at 1. unfold emit at 1.
    simpl in Hrun1. unfold bind at 1. rewrite Hrun1.
    unfold bind, finally. rewrite Hstep.
    destruct o as [[out err]|e|]; [| |congruence];
      destruct (run_callbacks rt (after_terminate_callbacks self) w2) as [[[]|e2|] w3];
      reflexivity.
Qed.

(** C9: in every call of [terminate] that gets past its before-terminate
    hooks, the after-terminate sequence is run after the capture-and-removal
    step, in the world that step leaves, whether it returned or raised; and
    a [NotFound] of the backend in that step never leaves [terminate]: the
    step then ends normally.  When the hooks are handled, every
    before-terminate and every after-terminate callback is invoked, in
    order, and when the lookup of the handle answers [NotFound],
    [terminate] returns the empty result. *)
Theorem terminate_after_hooks_always_run self (w : World E) :
  (forall w1,
      run_callbacks rt (before_terminate_callbacks self) (snd (emit EvAtexitUnregister w))
      = (Return tt, w1) ->
      exists o w2,
        terminate_capture_and_remove rt w1 = (o, w2) /\
        o <> OutOfFuel /\
        (forall e, o = Raises e -> exc_is_NotFound e = false) /\
        terminate rt self w =
          (match fst (run_callbacks rt (after_terminate_callbacks self) w2) with
           | Return _ =>
               match o with
               | Return (out, err) =>
                   Return {| exitcode := Some 0; stdout := out; stderr := err;
                             cmdline := None |}
               | Raises e => Raises e
               | OutOfFuel => OutOfFuel
               end
           | Raises e => Raises e
           | OutOfFuel => OutOfFuel
           end, snd (run_callbacks rt (after_terminate_callbacks self) w2))) /\
  (Forall (handled rt) (before_terminate_callbacks self) ->
   Forall (handled rt) (after_terminate_callbacks self) ->
   exists w1 o w2 w3 d1 d2 d3,
     w_trace w1 = w_trace w ++ EvAtexitUnregister :: d1 /\
     calls_made d1 = before_terminate_callbacks self /\
     terminate_capture_and_remove rt w1 = (o, w2) /\
     w_trace w2 = w_trace w1 ++ d2 /\
     Forall (fun ev => teardown_event ev = true) d2 /\
     run_callbacks rt (after_terminate_callbacks self) w2 = (Return tt, w3) /\
     w_trace w3 = w_trace w2 ++ d3 /\
     calls_made d3 = after_terminate_callbacks self /\
     terminate rt self w =
       (match o with
        | Return (out, err) =>
            Return {| exitcode := Some 0; stdout := out; stderr := err; cmdline := None |}
        | Raises e => Raises e
        | OutOfFuel => OutOfFuel
        end, w3) /\
     o <> OutOfFuel /\
     (forall e, o = Raises e -> exc_is_NotFound e = false) /\
     (forall e, fst (terminate rt self w) = Raises e -> exc_is_NotFound e = false) /\
     (forall c msg e',
         w_container w = Some c ->
         rt_get rt (cid c) (w_env w1) = (Throws NotFound msg, e') ->
         terminate rt self w = (Return empty_result, w3))).
Proof.
  split.
  - intros w1 Hrun1. exact (terminate_finally self w w1 Hrun1).
  - intros Hb Ha. exact (terminate_phases self w Hb Ha).
Qed.

(** *** run *)

(** C8: every exec request that [run] sends asks for demultiplexed streams,
    whatever keyword options the caller passes; a [demux] option of the
    caller's own makes the call fail with [TypeError] before any request is
    sent.  Otherwise, when the request is answered and the streams that are
    present decode as text, the result carries the exit code of the exec,
    each stream that is present decoded, and no value for a stream that is
    absent (in particular for both when the exec has no output). *)
Theorem run_demux_and_decoding (cmd : list CmdArg) (kwargs : Kwargs)
    (c : Container) (w : World E) :
  w_container w = Some c ->
  (exists d,
      w_trace (snd (run rt cmd kwargs w)) = w_trace w ++ d /\
      Forall (fun ev => match ev with
                        | EvExecRun _ _ demux _ => demux = true
                        | _ => True
                        end) d) /\
  (has_key "demux" kwargs = true ->
   exists w', run rt cmd kwargs w =
                (Raises (PyExc TypeError "got multiple values for keyword argument"), w') /\
              w_trace w' = w_trace w ++ [EvLog INFO (LogIsRunningCmd (cmdline_of cmd))]) /\
  (forall r e',
      has_key "demux" kwargs = false ->
      rt_exec_run rt c (cmdline_of cmd) true kwargs (w_env w) = (Gives r, e') ->
      match output r with
      | Some (out, err) =>
          decodable rt out = true ->
          decodable rt err = true ->
          exists w',
            run rt cmd kwargs w =
              (Return {| exitcode := exit_code r;
                         stdout := decoded rt out;
                         stderr := decoded rt err;
                         cmdline := Some (cmdline_of cmd) |}, w') /\
            w_trace w' = w_trace w ++ [EvLog INFO (LogIsRunningCmd (cmdline_of cmd));
                                       EvExecRun c (cmdline_of cmd) true kwargs]
      | None =>
          exists w',
            run rt cmd kwargs w =
              (Return {| exitcode := exit_code r;
                         stdout := None;
                         stderr := None;
                         cmdline := Some (cmdline_of cmd) |}, w') /\
            w_trace w' = w_trace w ++ [EvLog INFO (LogIsRunningCmd (cmdline_of cmd));
                                       EvExecRun c (cmdline_of cmd) true kwargs]
      end) /\
  decoded rt None = None.
Proof.
  intros Hc. split_and!; [| | |reflexivity].
  - assert (Hem : emits (fun ev => match ev with
                                   | EvExecRun _ _ demux _ => demux = true
                                   | _ => True
                                   end) (run rt cmd kwargs)).
    { unfold run, check_keywords, decode_present.
      repeat (emits_step; try apply emits_py_decode; try done). }
    apply Hem.
  - intros Hk. unfold run.
    unfold bind at 1. unfold log, emit. unfold bind at 1. unfold get_container. simpl.
    rewrite Hc. unfold bind at 1. unfold check_keywords. simpl.
    rewrite Hk. simpl. eexists. split; reflexivity.
  - intros r e' Hk Hex.
    destruct (output r) as [[bo be]|] eqn:Hout; [intros Hdo Hde|];
      unfold run;
      unfold bind at 1; unfold log, emit; unfold bind at 1; unfold get_container; simpl;
      rewrite Hc; unfold bind at 1; unfold check_keywords; simpl;
      rewrite Hk; simpl; unfold bind at 1; unfold extern; simpl; rewrite Hex;
      unfold exec_streams; rewrite Hout.
    + revert Hdo Hde.
      destruct bo as [bo|], be as [be|]; simpl;
        unfold decodable, decoded, decode_present, py_decode, bind, ret; simpl;
        repeat match goal with
               | |- context [rt_decode rt ?b] => destruct (rt_decode rt b)
               end;
        intros; try discriminate;
        eexists; (split; [reflexivity|]); simpl; rewrite <- app_assoc; reflexivity.
    + unfold decode_present, bind, ret.
      eexists. split; [reflexivity|]. simpl. rewrite <- app_assoc. reflexivity.
Qed.

(** *** Stepping through a computation *)

Lemma bind_Return_inv {A B} (m : M E A) (k : A -> M E B) w b w' :
  bind m k w = (Return b, w') ->
  exists a w1, m w = (Return a, w1) /\ k a w1 = (Return b, w').
Proof.
  unfold bind. destruct (m w) as [[a|e|] w1]; intros H; try discriminate. eauto.
Qed.

Lemma bind_Return {A B} (m : M E A) (k : A -> M E B) w a w1 :
  m w = (Return a, w1) -> bind m k w = k a w1.
Proof. unfold bind. intros ->. reflexivity. Qed.

Lemma bind_Raises {A B} (m : M E A) (k : A -> M E B) w e w1 :
  m w = (Raises e, w1) -> bind m k w = (Raises e, w1).
Proof. unfold bind. intros ->. reflexivity. Qed.

Lemma extern_Gives {A} ev (f : E -> Reply A * E) w a e' :
  f (w_env w) = (Gives a, e') ->
  extern rt ev f w = (Return a, record_event rt ev w e' 0).
Proof. unfold extern. intros ->. reflexivity. Qed.

Lemma extern_Throws {A} ev (f : E -> Reply A * E) w k msg e' :
  f (w_env w) = (Throws k msg, e') ->
  extern rt ev f w = (Raises (PyExc k msg), record_event rt ev w e' 0).
Proof. unfold extern. intros ->. reflexivity. Qed.

Lemma extern_Return_inv {A} ev (f : E -> Reply A * E) w a w' :
  extern rt ev f w = (Return a, w') ->
  exists e', f (w_env w) = (Gives a, e') /\ w' = record_event rt ev w e' 0.
Proof.
  unfold extern. destruct (f (w_env w)) as [[a0|k msg] e']; intros H; inversion H.
  eauto.
Qed.

(** *** The events of the loops of start *)

Lemma no_ports_empty : no_ports (list_to_set (@nil Z)) = true.
Proof. reflexivity. Qed.

Lemma emits_check_ports_loop (P : Event -> Prop) fuel timeout_at t0 pending :
  (forall ev, readiness_event ev = true -> P ev) ->
  emits P (check_ports_loop rt fuel timeout_at t0 pending).
Proof.
  intros HP. revert pending.
  induction fuel as [|fuel IH]; intros pending; simpl.
  - apply emits_out_of_fuel.
  - repeat (emits_step; try apply emits_is_running; try emits_event; auto).
Qed.

Lemma emits_run_start_checks (P : Event -> Prop) fuel self started_at timeout_at :
  (get_check_ports self <> [] -> forall ev, readiness_event ev = true -> P ev) ->
  emits P (run_start_checks rt fuel self started_at timeout_at).
Proof.
  intros HP. unfold run_start_checks.
  destruct (get_check_ports self) as [|p ps] eqn:Hports.
  - rewrite no_ports_empty. apply emits_ret.
  - specialize (HP ltac:(discriminate)).
    repeat (emits_step; try apply emits_check_ports_loop; auto).
Qed.

Lemma emits_wait_until_running (P : Event -> Prop) fuel self t0 k t1 t2 :
  (forall ev, hook_event ev = true -> P ev) ->
  (forall ev, teardown_event ev = true -> P ev) ->
  (forall ev, polling_event ev = true -> P ev) ->
  (get_check_ports self <> [] -> forall ev, readiness_event ev = true -> P ev) ->
  emits P (wait_until_running rt fuel self t0 k t1 t2).
Proof.
  intros Hh Ht Hp Hr.
  induction fuel as [|fuel IH]; simpl.
  - apply emits_out_of_fuel.
  - repeat (emits_step;
            try apply emits_terminate; try apply emits_run_start_checks;
            try apply emits_is_running; try apply emits_status;
            try (intros; apply Hp; reflexivity); auto).
Qed.

Lemma emits_attempts_loop (P : Event -> Prop) fuel self timeout t0 n :
  (forall ev, hook_event ev = true -> P ev) ->
  (forall ev, teardown_event ev = true -> P ev) ->
  (forall ev, polling_event ev = true -> P ev) ->
  (get_check_ports self <> [] -> forall ev, readiness_event ev = true -> P ev) ->
  (forall ev, attempt_event ev = true -> P ev) ->
  forall k started, emits P (attempts_loop rt fuel self timeout t0 n k started).
Proof.
  intros Hh Ht Hp Hr Ha.
  induction fuel as [|fuel IH]; intros k started; simpl.
  - destruct (k <=? n); [apply emits_out_of_fuel|apply emits_ret].
  - unfold check_keywords.
    repeat (emits_step; try apply emits_wait_until_running;
            try (apply Ha; reflexivity); auto).
Qed.

Lemma emits_client_connectable (P : Event -> Prop) :
  P EvPing -> emits P (client_connectable rt).
Proof.
  intros HP. unfold client_connectable.
  repeat (emits_step; auto).
Qed.

(** *** The reachability check *)

Lemma client_connectable_spec (w : World E) :
  client_connectable rt w =
    match rt_ping rt (w_env w) with
    | (Gives pong, e') =>
        (Return (if pong then IsTrue
                 else Reason "The docker client failed to get a ping response from the docker daemon"),
         record_event rt EvPing w e' 0)
    | (Throws k msg, e') =>
        if catches_ping_errors (PyExc k msg)
        then (Return (Reason ("The docker client failed to ping the docker server: " +:+ msg)),
              record_event rt EvPing w e' 0)
        else (Raises (PyExc k msg), record_event rt EvPing w e' 0)
    end.
Proof.
  unfold client_connectable, try_except, bind, extern.
  destruct (rt_ping rt (w_env w)) as [[[]|k msg] e']; reflexivity.
Qed.

Lemma client_connectable_trace (w : World E) :
  w_trace (snd (client_connectable rt w)) = w_trace w ++ [EvPing].
Proof.
  rewrite client_connectable_spec.
  destruct (rt_ping rt (w_env w)) as [[[]|k msg] e']; try reflexivity.
  destruct (catches_ping_errors (PyExc k msg)); reflexivity.
Qed.

Lemma emits_after {A B} (P : Event -> Prop) (m : M E A) (k : A -> M E B) w :
  (forall a, emits P (k a)) ->
  exists d, w_trace (snd (bind m k w)) = w_trace (snd (m w)) ++ d /\ Forall P d.
Proof.
  intros Hk. unfold bind. destruct (m w) as [[a|e|] w1]; simpl.
  - apply Hk.
  - exists []. rewrite app_nil_r. auto.
  - exists []. rewrite app_nil_r. auto.
Qed.

Lemma hook_event_not_ping ev : hook_event ev = true -> is_ping ev = false.
Proof. destruct ev; simpl; congruence. Qed.

Lemma teardown_event_not_ping ev : teardown_event ev = true -> is_ping ev = false.
Proof. destruct ev; simpl; congruence. Qed.

Lemma polling_event_not_ping ev : polling_event ev = true -> is_ping ev = false.
Proof. destruct ev; simpl; congruence. Qed.

Lemma readiness_event_not_ping ev : readiness_event ev = true -> is_ping ev = false.
Proof. destruct ev; simpl; congruence. Qed.

Lemma attempt_event_not_ping ev : attempt_event ev = true -> is_ping ev = false.
Proof. destruct ev; simpl; congruence. Qed.

Ltac event_cases ev :=
  destruct ev; simpl; try congruence;
  repeat match goal with
         | |- context [match ?x with _ => _ end] => destruct x; simpl; try congruence
         end.

Lemma hook_event_not_attempt ev : hook_event ev = true -> attempt_event ev = false.
Proof. event_cases ev. Qed.

Lemma teardown_event_not_attempt ev : teardown_event ev = true -> attempt_event ev = false.
Proof. event_cases ev. Qed.

Lemma polling_event_not_attempt ev : polling_event ev = true -> attempt_event ev = false.
Proof. event_cases ev. Qed.

Lemma readiness_event_not_attempt ev : readiness_event ev = true -> attempt_event ev = false.
Proof. event_cases ev. Qed.

(** What [start] does once the reachability check has answered. *)
Lemma emits_start_after_ping (P : Event -> Prop) fuel self a t connectable :
  (forall ev, hook_event ev = true -> P ev) ->
  (forall ev, teardown_event ev = true -> P ev) ->
  (forall ev, polling_event ev = true -> P ev) ->
  (get_check_ports self <> [] -> forall ev, readiness_event ev = true -> P ev) ->
  (forall ev, attempt_event ev = true -> P ev) ->
  emits P
    (match connectable with
     | IsTrue => ret tt
     | Reason why => terminate rt self ;; raise (Failed why)
     end ;;
     let* start_time := time_time in
     let start_attempts := py_or a (max_start_attempts self) in
     let* (factory_started, current_attempt) :=
       attempts_loop rt fuel self (py_or t (start_timeout self))
         start_time start_attempts 0 false in
     if factory_started then
       run_callbacks rt (after_start_callbacks self) ;;
       ret factory_started
     else
       let* result := terminate rt self in
       let* now := time_time in
       raise (FactoryNotStarted
                {| ns_attempts := current_attempt - 1;
                   ns_elapsed := now - start_time;
                   ns_timeout := py_or t (start_timeout self);
                   ns_stdout := stdout result;
                   ns_stderr := stderr result;
                   ns_exitcode := exitcode result |})).
Proof.
  intros Hh Ht Hp Hr Ha.
  repeat (emits_step; try apply emits_terminate; try apply emits_run_callbacks;
          try apply emits_attempts_loop; auto).
Qed.

Lemma format_callback_fuel callback args kwargs (w : World E) :
  fst (_format_callback callback args kwargs w) <> OutOfFuel.
Proof.
  unfold _format_callback. destruct (cb_name callback); [|discriminate].
  destruct args as [|a args']; [discriminate|].
  unfold bind. destruct (str_items (a :: args')); discriminate.
Qed.

Lemma run_callbacks_total callbacks : total (run_callbacks rt callbacks).
Proof.
  induction callbacks as [|[[callback args] kwargs] rest IH]; intros w; [discriminate|].
  simpl. unfold bind at 1. unfold try_except, extern.
  destruct (rt_call rt callback args kwargs (w_env w)) as [[[]|k msg] e1]; simpl.
  - apply IH.
  - destruct (is_Exception k); [|discriminate].
    unfold bind at 1.
    pose proof (format_callback_fuel callback args kwargs
                  (record_event rt (EvCall callback args kwargs) w e1 0)) as Hf.
    destruct (_format_callback callback args kwargs _) as [[str|e|] w2];
      simpl in Hf; try discriminate; [|congruence].
    unfold log, emit. apply IH.
Qed.

(** Whatever the hooks do, [start] pings at most once: its trace is the
    registration of the exit hook, the events of the before-start hooks,
    and then either nothing more (a hook raised an exception that left
    [start]) or one ping followed by events that are no pings. *)
Lemma start_pings_at_most_once fuel self a t (w : World E) :
  exists d_hooks d_tail,
    w_trace (snd (start rt fuel self a t w)) =
      w_trace w ++ EvAtexitRegister :: d_hooks ++ d_tail /\
    Forall (fun ev => hook_event ev = true) d_hooks /\
    (d_tail = [] \/
     exists d_rest, d_tail = EvPing :: d_rest /\
                    Forall (fun ev => is_ping ev = false) d_rest) /\
    (d_tail = [] ->
     exists e,
       fst (start rt fuel self a t w) = Raises e /\
       fst (run_callbacks rt (before_start_callbacks self)
              (snd (emit EvAtexitRegister w))) = Raises e).
Proof.
  destruct (run_callbacks rt (before_start_callbacks self) (snd (emit EvAtexitRegister w)))
    as [o1 w1] eqn:Hrun.
  destruct (emits_delta _ _ _ _ _
              (emits_run_callbacks (fun ev => hook_event ev = true) _ (fun ev H => H))
              Hrun) as (d1 & Ht1 & Hd1).
  simpl in Ht1, Hrun.
  destruct o1 as [[]|e|].
  - assert (Hstart : forall K : Connectable -> M E bool,
               bind (emit EvAtexitRegister)
                 (fun _ => bind (run_callbacks rt (before_start_callbacks self))
                    (fun _ => bind (client_connectable rt) K)) w =
               bind (client_connectable rt) K w1).
    { intros K. unfold bind at 1. unfold emit. unfold bind at 1. rewrite Hrun.
      reflexivity. }
    unfold start. rewrite Hstart.
    match goal with |- context [bind (client_connectable rt) ?K w1] => set (rest := K) end.
    assert (Hrest : forall c, emits (fun ev => is_ping ev = false) (rest c)).
    { intros c. subst rest. apply emits_start_after_ping;
        auto using hook_event_not_ping, teardown_event_not_ping, polling_event_not_ping,
                   readiness_event_not_ping, attempt_event_not_ping. }
    destruct (emits_after _ (client_connectable rt) rest w1 Hrest) as (d2 & Ht2 & Hd2).
    rewrite client_connectable_trace in Ht2.
    exists d1, (EvPing :: d2). split_and!.
    + rewrite Ht2, Ht1, <- !app_assoc. reflexivity.
    + exact Hd1.
    + right. exists d2. split; [reflexivity|exact Hd2].
    + discriminate.
  - assert (Hstart : start rt fuel self a t w = (Raises e, w1)).
    { unfold start. unfold bind at 1. unfold emit. unfold bind at 1. rewrite Hrun.
      reflexivity. }
    exists d1, []. rewrite Hstart. simpl. split_and!.
    + rewrite Ht1, app_nil_r, <- app_assoc. reflexivity.
    + exact Hd1.
    + left. reflexivity.
    + intros _. exists e. split; reflexivity.
  - pose proof (run_callbacks_total (before_start_callbacks self)
                  (snd (emit EvAtexitRegister w))) as Hx.
    simpl in Hx. rewrite Hrun in Hx. destruct (Hx eq_refl).
Qed.

(** With handled before-start hooks the ping is always reached. *)
Lemma reachability_after_handled_hooks fuel self a t (w : World E) :
  Forall (handled rt) (before_start_callbacks self) ->
  (forall w0 : World E,
      client_connectable rt w0 =
        match rt_ping rt (w_env w0) with
        | (Gives pong, e') =>
            (Return (if pong then IsTrue
                     else Reason "The docker client failed to get a ping response from the docker daemon"),
             record_event rt EvPing w0 e' 0)
        | (Throws k msg, e') =>
            if is_APIError k ||
               match k with RequestsConnectionError | PyWinTypesError => true | _ => false end
            then (Return (Reason ("The docker client failed to ping the docker server: " +:+ msg)),
                  record_event rt EvPing w0 e' 0)
            else (Raises (PyExc k msg), record_event rt EvPing w0 e' 0)
        end) /\
  exists w1 d_hooks d_rest,
    w_env w1 = snd (hooks_outcome rt (before_start_callbacks self) (w_env w)) /\
    w_container w1 = w_container w /\
    w_trace w1 = w_trace w ++ EvAtexitRegister :: d_hooks /\
    Forall (fun ev => hook_event ev = true) d_hooks /\
    calls_made d_hooks = before_start_callbacks self /\
    w_trace (snd (start rt fuel self a t w)) = w_trace w1 ++ EvPing :: d_rest /\
    Forall (fun ev => is_ping ev = false) d_rest /\
    forall why w2,
      client_connectable rt w1 = (Return (Reason why), w2) ->
      start rt fuel self a t w =
        (match fst (terminate rt self w2) with
         | Return _ => Raises (Failed why)
         | Raises e => Raises e
         | OutOfFuel => OutOfFuel
         end, snd (terminate rt self w2)) /\
      Forall (fun ev => attempt_event ev = false) d_rest /\
      (w_container w = None ->
       Forall (handled rt) (before_terminate_callbacks self) ->
       Forall (handled rt) (after_terminate_callbacks self) ->
       fst (start rt fuel self a t w) = Raises (Failed why)).
Proof.
  intros Hb. split; [exact client_connectable_spec|].
  destruct (run_callbacks_handled _ Hb (snd (emit EvAtexitRegister w)))
    as (w1 & d1 & Hrun1 & Hc1 & _ & He1 & Ht1 & Hd1 & Hcalls1 & _).
  simpl in Hrun1, Hc1, He1, Ht1.
  assert (Hstart : forall K : Connectable -> M E bool,
             bind (emit EvAtexitRegister)
               (fun _ => bind (run_callbacks rt (before_start_callbacks self))
                  (fun _ => bind (client_connectable rt) K)) w =
             bind (client_connectable rt) K w1).
  { intros K. unfold bind at 1. unfold emit. unfold bind at 1. rewrite Hrun1. reflexivity. }
  unfold start. rewrite Hstart.
  match goal with |- context [bind (client_connectable rt) ?K w1] => set (rest := K) end.
  assert (Hrest : forall c, emits (fun ev => is_ping ev = false) (rest c)).
  { intros c. subst rest. apply emits_start_after_ping;
      auto using hook_event_not_ping, teardown_event_not_ping, polling_event_not_ping,
                 readiness_event_not_ping, attempt_event_not_ping. }
  destruct (emits_after _ (client_connectable rt) rest w1 Hrest) as (d2 & Ht2 & Hd2).
  rewrite client_connectable_trace in Ht2.
  exists w1, d1, d2. split_and!; auto.
  - rewrite Ht1, <- app_assoc. reflexivity.
  - rewrite Ht2, <- app_assoc. reflexivity.
  - intros why w2 Hcc.
    assert (Heq : bind (client_connectable rt) rest w1 =
                  (match fst (terminate rt self w2) with
                   | Return _ => Raises (Failed why)
                   | Raises e => Raises e
                   | OutOfFuel => OutOfFuel
                   end, snd (terminate rt self w2))).
    { unfold bind at 1. rewrite Hcc. subst rest. cbv beta iota.
      unfold bind. destruct (terminate rt self w2) as [[r|e|] w3]; reflexivity. }
    split_and!.
    + exact Heq.
    + (* the events after the ping are those of terminate *)
      rewrite Heq in Ht2. simpl in Ht2.
      destruct (emits_terminate (fun ev => attempt_event ev = false) self
                  hook_event_not_attempt teardown_event_not_attempt w2)
        as (d3 & Ht3 & Hd3).
      rewrite Ht3 in Ht2.
      pose proof (client_connectable_trace w1) as Hp. rewrite Hcc in Hp. simpl in Hp.
      rewrite Hp in Ht2. apply app_inv_head in Ht2.
      subst d3. exact Hd3.
    + intros Hnone Hbt Hat. rewrite Heq. simpl.
      assert (Hc2 : w_container w2 = None).
      { rewrite client_connectable_spec in Hcc.
        destruct (rt_ping rt (w_env w1)) as [[[]|k msg] e'];
          [| |destruct (catches_ping_errors (PyExc k msg))];
          inversion Hcc; subst; simpl; congruence. }
      destruct (terminate_no_handle self w2 Hc2 Hbt Hat) as (w3 & d & Hterm & _).
      rewrite Hterm. reflexivity.
Qed.

(** C5: the reachability check.  [client_connectable] pings once and turns a
    false answer, an [APIError], a [RequestsConnectionError] and a
    [PyWinTypesError] into a reason string; it answers true only when the
    ping does.  In every call of [start] the ping is sent at most once: it
    comes after the before-start hooks and before any attempt, no other
    ping follows, and it is missing only when a before-start hook raised an
    exception that left [start].  When the before-start hooks are handled,
    the ping is sent exactly once; and when its answer is a reason, [start]
    calls [terminate] and then raises pytest's [Failed] with that reason,
    without any attempt. *)
Theorem reachability_checked_once fuel self a t (w : World E) :
  (forall w0 : World E,
      client_connectable rt w0 =
        match rt_ping rt (w_env w0) with
        | (Gives pong, e') =>
            (Return (if pong then IsTrue
                     else Reason "The docker client failed to get a ping response from the docker daemon"),
             record_event rt EvPing w0 e' 0)
        | (Throws k msg, e') =>
            if is_APIError k ||
               match k with RequestsConnectionError | PyWinTypesError => true | _ => false end
            then (Return (Reason ("The docker client failed to ping the docker server: " +:+ msg)),
                  record_event rt EvPing w0 e' 0)
            else (Raises (PyExc k msg), record_event rt EvPing w0 e' 0)
        end) /\
  (exists d_hooks d_tail,
      w_trace (snd (start rt fuel self a t w)) =
        w_trace w ++ EvAtexitRegister :: d_hooks ++ d_tail /\
      Forall (fun ev => hook_event ev = true) d_hooks /\
      (d_tail = [] \/
       exists d_rest, d_tail = EvPing :: d_rest /\
                      Forall (fun ev => is_ping ev = false) d_rest) /\
      (d_tail = [] ->
       exists e,
         fst (start rt fuel self a t w) = Raises e /\
         fst (run_callbacks rt (before_start_callbacks self)
                (snd (emit EvAtexitRegister w))) = Raises e)) /\
  (Forall (handled rt) (before_start_callbacks self) ->
   exists w1 d_hooks d_rest,
     w_env w1 = snd (hooks_outcome rt (before_start_callbacks self) (w_env w)) /\
     w_container w1 = w_container w /\
     w_trace w1 = w_trace w ++ EvAtexitRegister :: d_hooks /\
     Forall (fun ev => hook_event ev = true) d_hooks /\
     calls_made d_hooks = before_start_callbacks self /\
     w_trace (snd (start rt fuel self a t w)) = w_trace w1 ++ EvPing :: d_rest /\
     Forall (fun ev => is_ping ev = false) d_rest /\
     forall why w2,
       client_connectable rt w1 = (Return (Reason why), w2) ->
       start rt fuel self a t w =
         (match fst (terminate rt self w2) with
          | Return _ => Raises (Failed why)
          | Raises e => Raises e
          | OutOfFuel => OutOfFuel
          end, snd (terminate rt self w2)) /\
       Forall (fun ev => attempt_event ev = false) d_rest /\
       (w_container w = None ->
        Forall (handled rt) (before_terminate_callbacks self) ->
        Forall (handled rt) (after_terminate_callbacks self) ->
        fst (start rt fuel self a t w) = Raises (Failed why))).
Proof.
  split_and!.
  - exact client_connectable_spec.
  - exact (start_pings_at_most_once fuel self a t w).
  - intros Hb.
    destruct (reachability_after_handled_hooks fuel self a t w Hb) as [_ H].
    exact H.
Qed.

(** *** The attempt loop *)

Lemma runs_requested_app d1 d2 :
  runs_requested (d1 ++ d2) = (runs_requested d1 + runs_requested d2)%nat.
Proof. unfold runs_requested. rewrite List.filter_app, length_app. reflexivity. Qed.

Lemma quiet_events d :
  Forall quiet d -> attempts_logged d = [] /\ runs_requested d = 0%nat.
Proof.
  induction 1 as [|ev d [Hl Hr] _ [IH1 IH2]]; [split; reflexivity|].
  change (ev :: d) with ([ev] ++ d).
  rewrite attempts_logged_app, runs_requested_app, Hl, IH1, IH2.
  unfold runs_requested. simpl. rewrite Hr. split; reflexivity.
Qed.

Lemma hook_event_quiet ev : hook_event ev = true -> quiet ev.
Proof. unfold quiet. event_cases ev; intros; split; reflexivity. Qed.

Lemma teardown_event_quiet ev : teardown_event ev = true -> quiet ev.
Proof. unfold quiet. event_cases ev; intros; split; reflexivity. Qed.

Lemma polling_event_quiet ev : polling_event ev = true -> quiet ev.
Proof. unfold quiet. event_cases ev; intros; split; reflexivity. Qed.

Lemma readiness_event_quiet ev : readiness_event ev = true -> quiet ev.
Proof. unfold quiet. event_cases ev; intros; split; reflexivity. Qed.

Lemma wait_until_running_quiet fuel self t0 k t1 t2 :
  emits quiet (wait_until_running rt fuel self t0 k t1 t2).
Proof.
  apply emits_wait_until_running;
    auto using hook_event_quiet, teardown_event_quiet, polling_event_quiet,
               readiness_event_quiet.
Qed.

Lemma attempts_loop_started fuel self timeout t0 n k w b k' w' :
  attempts_loop rt fuel self timeout t0 n k true w = (Return (b, k'), w') ->
  b = true.
Proof.
  destruct fuel; simpl; destruct (k <=? n); intros H; inversion H; reflexivity.
Qed.

Lemma zseq_S first len : zseq first (S len) = first :: zseq (first + 1) len.
Proof. reflexivity. Qed.

(** When the loop is left without [factory_started], its body ran once for
    each value [k + 1, ..., n + 1] of [current_attempt], each time logging
    the attempt and requesting a container. *)
Lemma attempts_loop_exhausted fuel self timeout t0 n :
  forall k w k' w',
    attempts_loop rt fuel self timeout t0 n k false w = (Return (false, k'), w') ->
    k <= n + 1 ->
    k' = n + 1 /\
    exists d,
      w_trace w' = w_trace w ++ d /\
      attempts_logged d = zseq (k + 1) (Z.to_nat (n + 1 - k)) /\
      runs_requested d = Z.to_nat (n + 1 - k).
Proof.
  induction fuel as [|fuel IH]; intros k w k' w' H Hk; simpl in H;
    destruct (Z.leb_spec k n) as [Hle|Hgt].
  - discriminate.
  - inversion H; subst. split; [lia|]. exists [].
    rewrite app_nil_r. replace (Z.to_nat (n + 1 - k')) with 0%nat by lia.
    split_and!; reflexivity.
  - apply bind_Return_inv in H as ([] & w1 & Hlog & H).
    apply bind_Return_inv in H as (t1 & w2 & Htime & H).
    apply bind_Return_inv in H as ([] & w3 & Hkw & H).
    apply bind_Return_inv in H as (c & w4 & Hrun & H).
    apply bind_Return_inv in H as ([] & w5 & Hset & H).
    apply bind_Return_inv in H as (started & w6 & Hwait & H).
    destruct started.
    { apply attempts_loop_started in H. discriminate. }
    apply IH in H as (Hk' & d & Ht & Hlogd & Hruns); [|lia].
    split; [exact Hk'|].
    inversion Hlog; subst w1; clear Hlog.
    inversion Htime; subst w2 t1; clear Htime.
    assert (w3 = {| w_env := w_env w; w_now := w_now w;
                    w_trace := w_trace w ++ [EvLog INFO (LogStarting (k + 1) n)];
                    w_container := w_container w |}) as ->.
    { unfold check_keywords in Hkw.
      destruct (existsb _ _); inversion Hkw; reflexivity. }
    apply extern_Return_inv in Hrun as (e' & _ & ->).
    inversion Hset; subst w5; clear Hset.
    destruct (emits_delta _ _ _ _ _ (wait_until_running_quiet _ _ _ _ _ _) Hwait)
      as (dw & Htw & Hq).
    apply quiet_events in Hq as [Hq1 Hq2].
    simpl in Htw.
    exists ([EvLog INFO (LogStarting (k + 1) n)] ++
            [EvContainersRun (image self) (name self) true true
               (container_run_kwargs self)] ++ dw ++ d).
    split_and!.
    + rewrite Ht, Htw, <- !app_assoc. reflexivity.
    + rewrite !attempts_logged_app, Hq1, Hlogd. simpl.
      replace (Z.to_nat (n + 1 - k)) with (S (Z.to_nat (n + 1 - (k + 1)))) by lia.
      reflexivity.
    + rewrite !runs_requested_app, Hq2, Hruns. unfold runs_requested. simpl. lia.
  - inversion H; subst. split; [lia|]. exists [].
    rewrite app_nil_r. replace (Z.to_nat (n + 1 - k')) with 0%nat by lia.
    split_and!; reflexivity.
Qed.

(** *** Where the exceptions of start come from *)

Lemma raises_only_raise {A} (Q : Exc -> Prop) e : Q e -> raises_only Q (raise (E:=E) (A:=A) e).
Proof. intros H w e' w' Hr. inversion Hr; subst. exact H. Qed.

Lemma raises_only_extern {A} (Q : Exc -> Prop) ev (f : E -> Reply A * E) :
  (forall k msg, Q (PyExc k msg)) -> raises_only Q (extern rt ev f).
Proof.
  intros H w e w'. unfold extern.
  destruct (f (w_env w)) as [[a|k msg] e']; intros Hr; inversion Hr; subst. apply H.
Qed.

Lemma raises_only_try_except {A} Q (m : M E A) catches handler :
  raises_only Q m -> (forall e, raises_only Q (handler e)) ->
  raises_only Q (try_except m catches handler).
Proof.
  intros Hm Hh w e w'. unfold try_except.
  destruct (m w) as [[a|e0|] w1] eqn:Hmw; intros H; try discriminate.
  destruct (catches e0).
  - eapply Hh; eauto.
  - inversion H; subst. eapply Hm; eauto.
Qed.

Lemma raises_only_keeping {A L} Q (l : L) (m : M E A) k :
  raises_only Q m -> (forall a, raises_only Q (k a)) ->
  raises_only Q (bind_unless_NotFound l m k).
Proof.
  intros Hm Hk w e w'. unfold bind_unless_NotFound.
  destruct (m w) as [[a|e0|] w1] eqn:Hmw; intros H; try discriminate.
  - eapply Hk; eauto.
  - destruct (exc_is_NotFound e0); inversion H; subst. eapply Hm; eauto.
Qed.

Lemma raises_only_finally {A} Q (m : M E A) (f : M E unit) :
  raises_only Q m -> raises_only Q f -> raises_only Q (finally m f).
Proof.
  intros Hm Hf w e w'. unfold finally.
  destruct (m w) as [[a|e0|] w1] eqn:Hmw; try discriminate;
    destruct (f w1) as [[[]|e1|] w2] eqn:Hfw; intros H; inversion H; subst;
    solve [eapply Hf; eauto | eapply Hm; eauto].
Qed.

Lemma plain_PyExc k msg : plain_exception (PyExc k msg).
Proof. exists k, msg. reflexivity. Qed.

Ltac raises_step :=
  match goal with
  | |- raises_only _ (raise (PyExc _ _)) => apply raises_only_raise, plain_PyExc
  | |- raises_only _ (extern _ _ _) => apply raises_only_extern, plain_PyExc
  | |- raises_only _ (bind _ _) => apply raises_only_bind; [|intros]
  | |- raises_only _ (try_except _ _ _) => apply raises_only_try_except; [|intros]
  | |- raises_only _ (bind_unless_NotFound _ _ _) => apply raises_only_keeping; [|intros]
  | |- raises_only _ (finally _ _) => apply raises_only_finally
  | |- raises_only _ (match ?x with _ => _ end) => destruct x
  | |- raises_only _ (let _ := _ in _) => cbv zeta
  | |- raises_only _ _ => apply raises_only_never; discriminate
  end.

Lemma plain_format_callback callback args kwargs :
  raises_only plain_exception (_format_callback (E:=E) callback args kwargs).
Proof. unfold _format_callback. repeat raises_step. Qed.

Lemma plain_run_callbacks callbacks :
  raises_only plain_exception (run_callbacks rt callbacks).
Proof.
  induction callbacks as [|[[callback args] kwargs] rest IH]; simpl.
  - raises_step.
  - repeat first [exact IH | apply plain_format_callback | raises_step].
Qed.

Lemma plain_py_decode b : raises_only plain_exception (py_decode rt b).
Proof. unfold py_decode. repeat raises_step. Qed.

Lemma plain_status c : raises_only plain_exception (status rt c).
Proof. unfold status. raises_step. Qed.

Lemma plain_is_running : raises_only plain_exception (is_running rt).
Proof. unfold is_running. repeat first [apply plain_status | raises_step]. Qed.

Lemma plain_terminate self : raises_only plain_exception (terminate rt self).
Proof.
  unfold terminate, terminate_capture_and_remove.
  repeat first [apply plain_run_callbacks | apply plain_py_decode
               | apply plain_status | raises_step].
Qed.

Lemma plain_check_ports_loop fuel timeout_at t0 pending :
  raises_only plain_exception (check_ports_loop rt fuel timeout_at t0 pending).
Proof.
  revert pending. induction fuel as [|fuel IH]; intros pending; simpl.
  - raises_step.
  - repeat first [apply IH | apply plain_is_running | raises_step].
Qed.

Lemma plain_run_start_checks fuel self t1 t2 :
  raises_only plain_exception (run_start_checks rt fuel self t1 t2).
Proof.
  unfold run_start_checks.
  repeat first [apply plain_check_ports_loop | raises_step].
Qed.

Lemma plain_wait_until_running fuel self t0 k t1 t2 :
  raises_only plain_exception (wait_until_running rt fuel self t0 k t1 t2).
Proof.
  induction fuel as [|fuel IH]; simpl.
  - raises_step.
  - repeat first [exact IH | apply plain_terminate | apply plain_run_start_checks
                 | apply plain_is_running | apply plain_status | raises_step].
Qed.

Lemma plain_attempts_loop fuel self timeout t0 n :
  forall k started,
    raises_only plain_exception (attempts_loop rt fuel self timeout t0 n k started).
Proof.
  induction fuel as [|fuel IH]; intros k started; simpl.
  - repeat raises_step.
  - unfold check_keywords.
    repeat first [apply IH | apply plain_wait_until_running | raises_step].
Qed.

Lemma plain_client_connectable : raises_only plain_exception (client_connectable rt).
Proof. unfold client_connectable. repeat raises_step. Qed.

(** *** start that never gets ready *)

Lemma bind_Raises_inv {A B} (m : M E A) (k : A -> M E B) w e w' :
  bind m k w = (Raises e, w') ->
  m w = (Raises e, w') \/
  exists a w1, m w = (Return a, w1) /\ k a w1 = (Raises e, w').
Proof.
  unfold bind. destruct (m w) as [[a|e0|] w1]; intros H; try discriminate.
  - right. exists a, w1. split; [reflexivity|exact H].
  - left. inversion H; subst. reflexivity.
Qed.

Lemma not_plain_FactoryNotStarted info : ~ plain_exception (FactoryNotStarted info).
Proof. intros (k & msg & H). discriminate. Qed.

Lemma terminate_exitcode self (w : World E) result w' :
  terminate rt self w = (Return result, w') -> exitcode result = Some 0.
Proof.
  unfold terminate. intros H.
  apply bind_Return_inv in H as ([] & w1 & _ & H).
  apply bind_Return_inv in H as ([] & w2 & _ & H).
  apply bind_Return_inv in H as ([out err] & w3 & _ & H).
  inversion H; subst. reflexivity.
Qed.

Lemma terminate_unregisters_first self (w : World E) :
  exists d, w_trace (snd (terminate rt self w)) = w_trace w ++ EvAtexitUnregister :: d.
Proof.
  unfold terminate.
  match goal with |- context [bind (emit EvAtexitUnregister) ?K w] =>
    destruct (emits_after (fun _ => True) (emit EvAtexitUnregister) K w) as (d & Hd & _)
  end.
  - intros _.
    repeat (emits_step; try apply emits_run_callbacks;
            try apply emits_terminate_capture_and_remove; auto).
  - exists d. rewrite Hd. simpl. rewrite <- app_assoc. reflexivity.
Qed.

(** Every [FactoryNotStarted] of [start] comes from the attempt loop left
    without [factory_started], followed by a [terminate] that returned. *)
Lemma start_not_started_inv fuel self a t (w : World E) info w' :
  start rt fuel self a t w = (Raises (FactoryNotStarted info), w') ->
  exists d1 w2 cur w3 result,
    w_trace w2 = w_trace w ++ EvAtexitRegister :: d1 ++ [EvPing] /\
    Forall (fun ev => hook_event ev = true) d1 /\
    attempts_loop rt fuel self (py_or t (start_timeout self)) (w_now w2)
      (py_or a (max_start_attempts self)) 0 false w2 = (Return (false, cur), w3) /\
    terminate rt self w3 = (Return result, w') /\
    info = {| ns_attempts := cur - 1;
              ns_elapsed := w_now w' - w_now w2;
              ns_timeout := py_or t (start_timeout self);
              ns_stdout := stdout result;
              ns_stderr := stderr result;
              ns_exitcode := exitcode result |}.
Proof.
  unfold start. intros H.
  apply bind_Raises_inv in H as [H|([] & w0 & Hreg & H)]; [discriminate|].
  inversion Hreg; subst w0; clear Hreg.
  apply bind_Raises_inv in H as [H|([] & w1 & Hhooks & H)].
  { apply plain_run_callbacks in H. destruct (not_plain_FactoryNotStarted _ H). }
  destruct (emits_delta _ _ _ _ _
              (emits_run_callbacks (fun ev => hook_event ev = true) _ (fun ev H => H))
              Hhooks) as (d1 & Ht1 & Hd1).
  simpl in Ht1.
  apply bind_Raises_inv in H as [H|(c & w2 & Hcc & H)].
  { apply plain_client_connectable in H. destruct (not_plain_FactoryNotStarted _ H). }
  pose proof (client_connectable_trace w1) as Ht2. rewrite Hcc in Ht2. simpl in Ht2.
  apply bind_Raises_inv in H as [H|([] & w2' & Hmatch & H)].
  { destruct c as [|why]; [discriminate|].
    apply bind_Raises_inv in H as [H|(r & w3 & _ & H)]; [|discriminate].
    apply plain_terminate in H. destruct (not_plain_FactoryNotStarted _ H). }
  destruct c as [|why].
  2:{ apply bind_Return_inv in Hmatch as (r & w3 & _ & Hm). discriminate. }
  inversion Hmatch; subst w2'; clear Hmatch.
  apply bind_Raises_inv in H as [H|(t0 & w2' & Htime & H)]; [discriminate|].
  inversion Htime; subst w2' t0; clear Htime.
  cbv zeta in H.
  apply bind_Raises_inv in H as [H|([started cur] & w3 & Hloop & H)].
  { apply plain_attempts_loop in H. destruct (not_plain_FactoryNotStarted _ H). }
  destruct started.
  { apply bind_Raises_inv in H as [H|([] & w4 & _ & H)]; [|discriminate].
    apply plain_run_callbacks in H. destruct (not_plain_FactoryNotStarted _ H). }
  apply bind_Raises_inv in H as [H|(result & w4 & Hterm & H)].
  { apply plain_terminate in H. destruct (not_plain_FactoryNotStarted _ H). }
  apply bind_Raises_inv in H as [H|(t1 & w4' & Htime & H)]; [discriminate|].
  inversion Htime; subst w4' t1; clear Htime.
  inversion H; subst w'; clear H.
  exists d1, w2, cur, w3, result. split_and!; auto.
  rewrite Ht2, Ht1, <- !app_assoc. reflexivity.
Qed.

(** C1: when the resource never becomes ready, so that [start] ends with
    [FactoryNotStarted], the body of the attempt loop has run exactly N + 1
    times for N the attempt count in force (the argument, or else the
    attribute): the attempts logged are numbered 1, ..., N + 1, and N + 1
    containers were requested. *)
Theorem attempt_loop_runs_N_plus_1 fuel self a t (w : World E) info w' :
  start rt fuel self a t w = (Raises (FactoryNotStarted info), w') ->
  0 <= py_or a (max_start_attempts self) ->
  exists d,
    w_trace w' = w_trace w ++ d /\
    attempts_logged d = zseq 1 (Z.to_nat (py_or a (max_start_attempts self) + 1)) /\
    length (attempts_logged d) = Z.to_nat (py_or a (max_start_attempts self) + 1) /\
    runs_requested d = Z.to_nat (py_or a (max_start_attempts self) + 1).
Proof.
  intros H Hn.
  apply start_not_started_inv in H
    as (d1 & w2 & cur & w3 & result & Ht2 & Hd1 & Hloop & Hterm & _).
  apply attempts_loop_exhausted in Hloop as (_ & d & Ht3 & Hlog & Hruns); [|lia].
  destruct (emits_delta _ _ _ _ _
              (emits_terminate quiet self hook_event_quiet teardown_event_quiet) Hterm)
    as (d4 & Ht4 & Hd4).
  apply quiet_events in Hd4 as [Hq1 Hq2].
  assert (Hq : Forall quiet d1).
  { eapply Forall_impl; [exact Hd1|]. apply hook_event_quiet. }
  apply quiet_events in Hq as [Hq3 Hq4].
  rewrite Z.sub_0_r in Hlog, Hruns.
  exists (EvAtexitRegister :: d1 ++ [EvPing] ++ d ++ d4). split_and!.
  - rewrite Ht4, Ht3, Ht2, <- !app_assoc. simpl. rewrite <- !app_assoc. reflexivity.
  - change (EvAtexitRegister :: d1 ++ [EvPing] ++ d ++ d4)
      with ([EvAtexitRegister] ++ d1 ++ [EvPing] ++ d ++ d4).
    rewrite !attempts_logged_app, Hq1, Hq3, Hlog. simpl. rewrite app_nil_r. reflexivity.
  - change (EvAtexitRegister :: d1 ++ [EvPing] ++ d ++ d4)
      with ([EvAtexitRegister] ++ d1 ++ [EvPing] ++ d ++ d4).
    rewrite !attempts_logged_app, Hq1, Hq3, Hlog. simpl. rewrite app_nil_r.
    generalize (Z.to_nat (py_or a (max_start_attempts self) + 1)) (0 + 1).
    intros len. induction len as [|len IH]; intros first; simpl; [reflexivity|].
    rewrite IH. reflexivity.
  - change (EvAtexitRegister :: d1 ++ [EvPing] ++ d ++ d4)
      with ([EvAtexitRegister] ++ d1 ++ [EvPing] ++ d ++ d4).
    rewrite !runs_requested_app, Hq2, Hq4, Hruns. unfold runs_requested. simpl. lia.
Qed.

(** C2: a call of [start] that reaches the attempt loop and leaves it
    without [factory_started] calls [terminate] once more; when that returns,
    [start] raises [FactoryNotStarted] reporting the attempt count in force
    (not the N + 1 attempts made), the time since the loop began, the timeout
    of an attempt, and the stdout, stderr and exit code of that last
    [terminate].  Conversely every [FactoryNotStarted] of [start] arises so. *)
Theorem start_exhausted_raises_FactoryNotStarted fuel self a t (w w2 w3 w4 : World E)
    cur result :
  (emit EvAtexitRegister ;;
   run_callbacks rt (before_start_callbacks self) ;;
   client_connectable rt) w = (Return IsTrue, w2) ->
  attempts_loop rt fuel self (py_or t (start_timeout self)) (w_now w2)
    (py_or a (max_start_attempts self)) 0 false w2 = (Return (false, cur), w3) ->
  terminate rt self w3 = (Return result, w4) ->
  0 <= py_or a (max_start_attempts self) ->
  start rt fuel self a t w =
    (Raises (FactoryNotStarted
               {| ns_attempts := py_or a (max_start_attempts self);
                  ns_elapsed := w_now w4 - w_now w2;
                  ns_timeout := py_or t (start_timeout self);
                  ns_stdout := stdout result;
                  ns_stderr := stderr result;
                  ns_exitcode := exitcode result |}), w4) /\
  exitcode result = Some 0 /\
  (exists d, w_trace w4 = w_trace w3 ++ EvAtexitUnregister :: d) /\
  forall info w',
    start rt fuel self a t w = (Raises (FactoryNotStarted info), w') ->
    ns_attempts info = py_or a (max_start_attempts self) /\
    ns_timeout info = py_or t (start_timeout self).
Proof.
  intros Hpro Hloop Hterm Hn.
  pose proof Hloop as Hex.
  apply attempts_loop_exhausted in Hex as (Hcur & _); [|lia].
  assert (Hstart : start rt fuel self a t w =
    (Raises (FactoryNotStarted
               {| ns_attempts := py_or a (max_start_attempts self);
                  ns_elapsed := w_now w4 - w_now w2;
                  ns_timeout := py_or t (start_timeout self);
                  ns_stdout := stdout result;
                  ns_stderr := stderr result;
                  ns_exitcode := exitcode result |}), w4)).
  { unfold start.
    apply bind_Return_inv in Hpro as ([] & w0 & Hreg & Hpro).
    apply bind_Return_inv in Hpro as ([] & w1 & Hhooks & Hcc).
    rewrite (bind_Return _ _ _ _ _ Hreg).
    rewrite (bind_Return _ _ _ _ _ Hhooks).
    rewrite (bind_Return _ _ _ _ _ Hcc).
    unfold bind at 1. unfold ret at 1. unfold bind at 1. unfold time_time at 1.
    cbv zeta. unfold bind at 1. rewrite Hloop.
    unfold bind at 1. rewrite Hterm. unfold bind, time_time, raise.
    subst cur. repeat f_equal. lia. }
  split_and!.
  - exact Hstart.
  - eapply terminate_exitcode; eauto.
  - destruct (terminate_unregisters_first self w3) as (d & Hd).
    rewrite Hterm in Hd. exists d. exact Hd.
  - intros info w' H. rewrite Hstart in H. inversion H; subst. split; reflexivity.
Qed.

(** *** A resource that is running *)

Lemma is_running_Gives (w : World E) c st e' :
  w_container w = Some c ->
  rt_status rt c (w_env w) = (Gives st, e') ->
  is_running rt w = (Return (is_status_running st), record_event rt (EvStatus c) w e' 0).
Proof.
  intros Hc Hs. unfold is_running, bind, get_container, status, extern.
  rewrite Hc, Hs. reflexivity.
Qed.

Lemma run_start_checks_no_ports fuel self t1 t2 (w : World E) :
  get_check_ports self = [] ->
  run_start_checks rt fuel self t1 t2 w = (Return true, w).
Proof. intros H. unfold run_start_checks. rewrite H. reflexivity. Qed.

(** One poll that finds the resource running, and still running on the
    handle, ends the wait at once when there are no ports to check. *)
Lemma wait_until_running_at_once fuel self t0 k t1 t2 (w : World E) handle :
  w_container w = Some handle ->
  w_now w <= t2 ->
  get_check_ports self = [] ->
  (forall id e, exists c, fst (rt_get rt id e) = Gives c) ->
  (forall c e, fst (rt_status rt c e) = Gives "running") ->
  exists w' container,
    wait_until_running rt (S fuel) self t0 k t1 t2 w = (Return true, w') /\
    w_container w' = Some handle /\
    w_trace w' = w_trace w ++
      [EvContainersGet (cid handle); EvStatus container; EvStatus handle;
       EvStatus handle; EvLog WARNING (LogContainerIsRunning true);
       EvStatus handle;
       EvLog INFO (LogFactoryIsRunning k (w_now w' - t0))].
Proof.
  intros Hc Hnow Hports Hget Hstatus.
  cbn [wait_until_running].
  unfold bind at 1. unfold time_time at 1.
  destruct (Z.leb_spec (w_now w) t2) as [_|Hlt]; [|lia].
  unfold bind at 1. unfold get_container at 1. rewrite Hc.
  destruct (Hget (cid handle) (w_env w)) as [container Hg].
  destruct (rt_get rt (cid handle) (w_env w)) as [r1 e1] eqn:Hg1. simpl in Hg. subst r1.
  rewrite (bind_Return _ _ _ _ _ (extern_Gives _ _ _ _ _ Hg1)).
  set (w1 := record_event rt (EvContainersGet (cid handle)) w e1 0).
  pose proof (Hstatus container (w_env w1)) as Hs1.
  destruct (rt_status rt container (w_env w1)) as [r2 e2] eqn:Hs1'. simpl in Hs1. subst r2.
  unfold status at 1. rewrite (bind_Return _ _ _ _ _ (extern_Gives _ _ _ _ _ Hs1')).
  set (w2 := record_event rt (EvStatus container) w1 e2 0).
  change (is_status_running "running") with true. cbn [negb].
  pose proof (Hstatus handle (w_env w2)) as Hs2.
  destruct (rt_status rt handle (w_env w2)) as [r3 e3] eqn:Hs2'. simpl in Hs2. subst r3.
  unfold status at 1. rewrite (bind_Return _ _ _ _ _ (extern_Gives _ _ _ _ _ Hs2')).
  set (w3 := record_event rt (EvStatus handle) w2 e3 0).
  change (is_status_running "running") with true. cbn [negb].
  unfold bind at 1. unfold ret at 1.
  assert (Hc3 : w_container w3 = Some handle) by exact Hc.
  pose proof (Hstatus handle (w_env w3)) as Hs3.
  destruct (rt_status rt handle (w_env w3)) as [r4 e4] eqn:Hs3'. simpl in Hs3. subst r4.
  rewrite (bind_Return _ _ _ _ _ (is_running_Gives _ _ _ _ Hc3 Hs3')).
  set (w4 := record_event rt (EvStatus handle) w3 e4 0).
  change (is_status_running "running") with true.
  unfold bind at 1. unfold log at 1, emit at 1.
  match goal with |- context [bind (is_running rt) _ ?w0] => set (w5 := w0) end.
  assert (Hc5 : w_container w5 = Some handle) by exact Hc.
  pose proof (Hstatus handle (w_env w5)) as Hs5.
  destruct (rt_status rt handle (w_env w5)) as [r6 e6] eqn:Hs5'. simpl in Hs5. subst r6.
  rewrite (bind_Return _ _ _ _ _ (is_running_Gives _ _ _ _ Hc5 Hs5')).
  set (w6 := record_event rt (EvStatus handle) w5 e6 0).
  change (is_status_running "running") with true. cbn [negb].
  rewrite (bind_Return _ _ _ _ _ (run_start_checks_no_ports fuel self t1 t2 w6 Hports)).
  cbn [negb].
  unfold bind, time_time, log, emit, ret.
  eexists _, container. split_and!; [reflexivity|exact Hc|].
  simpl. rewrite <- !app_assoc. reflexivity.
Qed.

Lemma hook_event_not_probe ev : hook_event ev = true -> is_port_probe ev = false.
Proof. event_cases ev. Qed.

(** With handled hooks, a ready runtime and no ports to check, [start]
    succeeds in its first attempt, after a single poll. *)
Lemma start_succeeds_when_running fuel self a t (w : World E) :
  Forall (handled rt) (before_start_callbacks self) ->
  Forall (handled rt) (after_start_callbacks self) ->
  runtime_ready rt self (py_or t (start_timeout self)) ->
  get_check_ports self = [] ->
  0 <= py_or a (max_start_attempts self) ->
  exists w' d,
    start rt (S (S fuel)) self a t w = (Return true, w') /\
    w_trace w' = w_trace w ++ d /\
    calls_made d = before_start_callbacks self ++ after_start_callbacks self /\
    attempts_logged d = [1] /\
    Forall (fun ev => is_port_probe ev = false) d.
Proof.
  intros Hb Ha (Hping & Hkw & Hrun & Hlat & Hget & Hstatus) Hports Hn.
  destruct (run_callbacks_handled _ Hb (snd (emit EvAtexitRegister w)))
    as (w1 & d1 & Hrun1 & Hc1 & _ & _ & Ht1 & Hd1 & Hcalls1 & _).
  simpl in Hrun1, Ht1.
  unfold start.
  unfold bind at 1. unfold emit at 1. unfold bind at 1. rewrite Hrun1.
  unfold bind at 1. rewrite client_connectable_spec.
  pose proof (Hping (w_env w1)) as Hp.
  destruct (rt_ping rt (w_env w1)) as [r e2] eqn:Hp'. simpl in Hp. subst r.
  set (w2 := record_event rt EvPing w1 e2 0).
  unfold bind at 1. unfold ret at 1. unfold bind at 1. unfold time_time at 1.
  cbv zeta.
  set (n := py_or a (max_start_attempts self)) in *.
  set (timeout := py_or t (start_timeout self)) in *.
  (* the first attempt *)
  assert (Hloop : exists w6 cur container c,
             attempts_loop rt (S (S fuel)) self timeout (w_now w2) n 0 false w2 =
               (Return (true, cur), w6) /\
             w_trace w6 = w_trace w2 ++
               [EvLog INFO (LogStarting 1 n);
                EvContainersRun (image self) (name self) true true
                  (container_run_kwargs self);
                EvContainersGet (cid c); EvStatus container; EvStatus c;
                EvStatus c; EvLog WARNING (LogContainerIsRunning true);
                EvStatus c;
                EvLog INFO (LogFactoryIsRunning 1 (w_now w6 - w_now w2))]).
  { cbn [attempts_loop].
    destruct (Z.leb_spec 0 n) as [_|Hlt]; [|lia].
    unfold bind at 1. unfold log at 1, emit at 1.
    unfold bind at 1. unfold time_time at 1.
    unfold bind at 1. unfold check_keywords at 1. rewrite Hkw. unfold ret at 1.
    cbn [w_env w_now].
    match goal with |- context [bind (extern rt ?ev ?f) _ ?w0] =>
      set (w3 := w0); set (ev_run := ev)
    end.
    destruct (Hrun (w_env w3)) as [c Hr].
    destruct (rt_run rt (image self) (name self) true true (container_run_kwargs self)
                (w_env w3)) as [r e4] eqn:Hr'.
    simpl in Hr. subst r.
    rewrite (bind_Return _ _ _ _ _ (extern_Gives _ _ _ _ _ Hr')).
    unfold bind at 1. unfold set_container at 1.
    match goal with |- context [bind (wait_until_running _ _ _ _ _ _ _) _ ?w0] =>
      set (w5 := w0)
    end.
    destruct (wait_until_running_at_once fuel self (w_now w2) (0 + 1) (w_now w2)
                (w_now w2 + timeout) w5 c eq_refl) as (w6 & container & Hwait & Hc6 & Ht6);
      auto.
    { subst w5 w3 ev_run. cbn [w_now record_event w_env]. pose proof (Hlat (w_env w2)). lia. }
    rewrite (bind_Return _ _ _ _ _ Hwait).
    exists w6.
    destruct fuel as [|fuel'];
      cbn [attempts_loop]; destruct (0 + 1 <=? n); eexists _, container, c;
      (split; [reflexivity|]); rewrite Ht6; subst w5 w3 ev_run;
      cbn [w_trace record_event]; rewrite <- !app_assoc; reflexivity. }
  destruct Hloop as (w6 & cur & container & c & Hloop & Ht6).
  unfold bind at 1. rewrite Hloop.
  destruct (run_callbacks_handled _ Ha w6)
    as (w7 & d7 & Hrun7 & _ & _ & _ & Ht7 & Hd7 & Hcalls7 & _).
  unfold bind at 1. rewrite Hrun7. unfold ret.
  match type of Ht6 with _ = _ ++ ?L => set (d6 := L) in * end.
  exists w7, ([EvAtexitRegister] ++ d1 ++ [EvPing] ++ d6 ++ d7).
  assert (Hq1 : attempts_logged d1 = []).
  { apply quiet_events. eapply Forall_impl; [exact Hd1|]. apply hook_event_quiet. }
  assert (Hq7 : attempts_logged d7 = []).
  { apply quiet_events. eapply Forall_impl; [exact Hd7|]. apply hook_event_quiet. }
  split_and!.
  - reflexivity.
  - rewrite Ht7, Ht6. subst w2. cbn [w_trace record_event]. rewrite Ht1.
    rewrite <- !app_assoc. reflexivity.
  - rewrite !calls_made_app, Hcalls1, Hcalls7. reflexivity.
  - rewrite !attempts_logged_app, Hq1, Hq7. reflexivity.
  - repeat (apply Forall_app; split);
      try (eapply Forall_impl; [eassumption|]; apply hook_event_not_probe);
      subst d6; repeat constructor.
Qed.

Lemma emits_start (P : Event -> Prop) fuel self a t :
  P EvAtexitRegister -> P EvPing ->
  (forall ev, hook_event ev = true -> P ev) ->
  (forall ev, teardown_event ev = true -> P ev) ->
  (forall ev, polling_event ev = true -> P ev) ->
  (get_check_ports self <> [] -> forall ev, readiness_event ev = true -> P ev) ->
  (forall ev, attempt_event ev = true -> P ev) ->
  emits P (start rt fuel self a t).
Proof.
  intros Hreg Hping Hh Ht Hp Hr Ha. unfold start.
  apply emits_bind; [apply emits_emit; exact Hreg|intros _].
  apply emits_bind; [apply emits_run_callbacks; exact Hh|intros _].
  apply emits_bind; [apply emits_client_connectable; exact Hping|intros c].
  apply emits_start_after_ping; assumption.
Qed.

Lemma teardown_event_not_probe ev : teardown_event ev = true -> is_port_probe ev = false.
Proof. event_cases ev. Qed.

Lemma polling_event_not_probe ev : polling_event ev = true -> is_port_probe ev = false.
Proof. event_cases ev. Qed.

Lemma attempt_event_not_probe ev : attempt_event ev = true -> is_port_probe ev = false.
Proof. event_cases ev. Qed.

(** *** Polling without ports to check *)

(** A poll that finds the resource not running sleeps a quarter of a second
    and polls again. *)
Lemma wait_poll_not_running fuel self t0 k t1 t2 (w : World E) handle container st e1 e2 :
  w_container w = Some handle ->
  w_now w <= t2 ->
  rt_get rt (cid handle) (w_env w) = (Gives container, e1) ->
  rt_status rt container e1 = (Gives st, e2) ->
  is_status_running st = false ->
  wait_until_running rt (S fuel) self t0 k t1 t2 w =
  wait_until_running rt fuel self t0 k t1 t2
    (record_event rt (EvSleep 250)
       (record_event rt (EvStatus container)
          (record_event rt (EvContainersGet (cid handle)) w e1 0) e2 0)
       (rt_sleep rt 250 e2) 250).
Proof.
  intros Hc Hnow Hget Hs Hnr. cbn [wait_until_running].
  unfold bind at 1. unfold time_time at 1.
  destruct (Z.leb_spec (w_now w) t2) as [_|Hlt]; [|lia].
  unfold bind at 1. unfold get_container at 1. rewrite Hc.
  rewrite (bind_Return _ _ _ _ _ (extern_Gives _ _ _ _ _ Hget)).
  unfold status at 1.
  rewrite (bind_Return _ _ _ _ _
             (extern_Gives _ (rt_status rt container)
                (record_event rt (EvContainersGet (cid handle)) w e1 0) _ _ Hs)).
  rewrite Hnr. cbn [negb]. unfold bind at 1. unfold time_sleep at 1. reflexivity.
Qed.

(** A poll that finds the resource running, and still running when it
    checks again, ends the wait at once when there are no ports to check. *)
Lemma wait_poll_running fuel self t0 k t1 t2 (w : World E)
    handle container st' s3 s4 e1 e2 e3 e4 e5 :
  get_check_ports self = [] ->
  w_container w = Some handle ->
  w_now w <= t2 ->
  rt_get rt (cid handle) (w_env w) = (Gives container, e1) ->
  rt_status rt container e1 = (Gives "running", e2) ->
  rt_status rt handle e2 = (Gives st', e3) ->
  let current := if is_status_running st' then handle else container in
  rt_status rt current e3 = (Gives s3, e4) ->
  rt_status rt current e4 = (Gives s4, e5) ->
  is_status_running s4 = true ->
  exists w',
    wait_until_running rt (S fuel) self t0 k t1 t2 w = (Return true, w') /\
    w_env w' = e5 /\
    w_container w' = Some current /\
    w_trace w' = w_trace w ++
      [EvContainersGet (cid handle); EvStatus container; EvStatus handle;
       EvStatus current; EvLog WARNING (LogContainerIsRunning (is_status_running s3));
       EvStatus current; EvLog INFO (LogFactoryIsRunning k (w_now w' - t0))].
Proof.
  intros Hports Hc Hnow Hget Hs1 Hs2 current Hs3 Hs4 Hup.
  cbn [wait_until_running].
  unfold bind at 1. unfold time_time at 1.
  destruct (Z.leb_spec (w_now w) t2) as [_|Hlt]; [|lia].
  unfold bind at 1. unfold get_container at 1. rewrite Hc.
  rewrite (bind_Return _ _ _ _ _ (extern_Gives _ _ _ _ _ Hget)).
  set (w1 := record_event rt (EvContainersGet (cid handle)) w e1 0).
  unfold status at 1.
  rewrite (bind_Return _ _ _ _ _ (extern_Gives _ (rt_status rt container) w1 _ _ Hs1)).
  set (w2 := record_event rt (EvStatus container) w1 e2 0).
  change (is_status_running "running") with true. cbn [negb].
  unfold status at 1.
  rewrite (bind_Return _ _ _ _ _ (extern_Gives _ (rt_status rt handle) w2 _ _ Hs2)).
  set (w3 := record_event rt (EvStatus handle) w2 e3 0).
  assert (Hupd : exists w3',
             (if negb (is_status_running st')
              then set_container (Some container) else ret ()) w3 = (Return tt, w3') /\
             w_container w3' = Some current /\ w_env w3' = e3 /\
             w_trace w3' = w_trace w3).
  { subst current. destruct (is_status_running st'); cbn [negb];
      eexists; (split; [reflexivity|]); split_and!; try reflexivity. exact Hc. }
  destruct Hupd as (w3' & Hupd & Hc3 & He3 & Ht3).
  rewrite (bind_Return _ _ _ _ _ Hupd).
  rewrite <- He3 in Hs3.
  rewrite (bind_Return _ _ _ _ _ (is_running_Gives _ _ _ _ Hc3 Hs3)).
  set (w4 := record_event rt (EvStatus current) w3' e4 0).
  unfold bind at 1. unfold log at 1, emit at 1.
  match goal with |- context [bind (is_running rt) _ ?w0] => set (w5 := w0) end.
  assert (Hc5 : w_container w5 = Some current) by exact Hc3.
  assert (Hs5 : rt_status rt current (w_env w5) = (Gives s4, e5)) by exact Hs4.
  rewrite (bind_Return _ _ _ _ _ (is_running_Gives _ _ _ _ Hc5 Hs5)).
  rewrite Hup. cbn [negb].
  set (w6 := record_event rt (EvStatus current) w5 e5 0).
  rewrite (bind_Return _ _ _ _ _ (run_start_checks_no_ports fuel self t1 t2 w6 Hports)).
  cbn [negb].
  unfold bind, time_time, log, emit, ret.
  eexists. split_and!; [reflexivity|reflexivity|exact Hc3|].
  subst w6 w5 w4. cbn [w_trace w_now record_event]. rewrite Ht3.
  subst w3 w2 w1. cbn [w_trace record_event]. rewrite <- !app_assoc. reflexivity.
Qed.

(** When the wait of an attempt answers true, the attempt loop is left with
    [factory_started]. *)
Lemma attempts_loop_wait_true F self timeout t0 n j (w0 w1 wt : World E) :
  j <= n ->
  (log INFO (LogStarting (j + 1) n) ;;
   check_keywords ["name"; "detach"; "stdin_open"] (container_run_kwargs self) ;;
   let* c := extern rt
               (EvContainersRun (image self) (name self) true true
                  (container_run_kwargs self))
               (rt_run rt (image self) (name self) true true
                  (container_run_kwargs self)) in
   set_container (Some c)) w0 = (Return tt, w1) ->
  wait_until_running rt (S F) self t0 (j + 1) (w_now w0) (w_now w0 + timeout) w1
    = (Return true, wt) ->
  attempts_loop rt (S (S F)) self timeout t0 n j false w0 =
    (Return (true, if j + 1 <=? n then j + 1 + 1 else j + 1), wt).
Proof.
  intros Hj Hpre Hw.
  cbn [attempts_loop].
  destruct (Z.leb_spec j n) as [_|Hlt]; [|lia].
  apply bind_Return_inv in Hpre as ([] & wa & Hlog & Hpre).
  apply bind_Return_inv in Hpre as ([] & wb & Hkw & Hpre).
  apply bind_Return_inv in Hpre as (c & wc & Hrun & Hset).
  rewrite (bind_Return _ _ _ _ _ Hlog).
  unfold bind at 1. unfold time_time at 1.
  assert (Hnow0 : w_now wa = w_now w0) by (inversion Hlog; reflexivity).
  rewrite Hnow0.
  rewrite (bind_Return _ _ _ _ _ Hkw).
  rewrite (bind_Return _ _ _ _ _ Hrun).
  rewrite (bind_Return _ _ _ _ _ Hset).
  rewrite (bind_Return _ _ _ _ _ Hw).
  destruct (j + 1 <=? n); reflexivity.
Qed.

(** When the attempt loop is left with [factory_started], what is left of
    [start] are the after-start callbacks and [return True]. *)
Lemma start_after_loop_true fuel self a t (w w2 w6 : World E) cur :
  (emit EvAtexitRegister ;;
   run_callbacks rt (before_start_callbacks self) ;;
   client_connectable rt) w = (Return IsTrue, w2) ->
  attempts_loop rt fuel self (py_or t (start_timeout self)) (w_now w2)
    (py_or a (max_start_attempts self)) 0 false w2 = (Return (true, cur), w6) ->
  start rt fuel self a t w =
    (run_callbacks rt (after_start_callbacks self) ;; ret true) w6.
Proof.
  intros Hpro Hloop. unfold start.
  apply bind_Return_inv in Hpro as ([] & w0 & Hreg & Hpro).
  apply bind_Return_inv in Hpro as ([] & w1 & Hhooks & Hcc).
  rewrite (bind_Return _ _ _ _ _ Hreg).
  rewrite (bind_Return _ _ _ _ _ Hhooks).
  rewrite (bind_Return _ _ _ _ _ Hcc).
  unfold bind at 1. unfold ret at 1. unfold bind at 1. unfold time_time at 1.
  cbv zeta. unfold bind at 1. rewrite Hloop. reflexivity.
Qed.

Section BecomesRunning.

Variable self : ContainerFactory.
Variables (timeout : Z) (polls_left : E -> nat) (m : nat) (poll_time : Z).
Hypothesis Hbecomes : runtime_becomes_running rt self timeout polls_left m poll_time.
Hypothesis Hports : get_check_ports self = [].

Lemma status_reports_running c e :
  polls_left e = 0%nat ->
  exists e', rt_status rt c e = (Gives "running", e') /\ polls_left e' = 0%nat.
Proof.
  destruct Hbecomes as (_ & _ & _ & _ & Hstatus & _ & Hdec & _).
  intros H0. destruct (Hstatus c e) as (st & Hst & Hr).
  rewrite H0 in Hr. simpl in Hr. apply String.eqb_eq in Hr. subst st.
  pose proof (Hdec c e) as Hd.
  destruct (rt_status rt c e) as [r e'] eqn:Hs. simpl in Hst, Hd. subst r.
  exists e'. split; [reflexivity|lia].
Qed.

Lemma poll_time_nonneg (e : E) : m <> 0%nat -> 250 <= poll_time.
Proof.
  destruct Hbecomes as (_ & _ & _ & _ & _ & _ & _ & _ & _ & _ & Hpoll).
  intros Hm. pose proof (Hpoll Hm EvPing e). lia.
Qed.

(** The polls of an attempt: at most [n] of them find the resource not
    running; the next one finds it running and ends the wait. *)
Lemma wait_becomes_running t0 k t1 t2 :
  forall n F (w : World E) handle,
    (polls_left (w_env w) <= n)%nat -> (n <= m)%nat -> (n <= F)%nat ->
    w_container w = Some handle ->
    w_now w + Z.of_nat n * poll_time <= t2 ->
    exists w' container d,
      wait_until_running rt (S F) self t0 k t1 t2 w = (Return true, w') /\
      w_trace w' = w_trace w ++ EvContainersGet (cid handle) :: EvStatus container :: d /\
      calls_made d = [].
Proof.
  pose proof Hbecomes as (_ & _ & _ & Hget & Hstatus & _ & Hdec & Hgetl & Hsleepl & _ & Hpoll).
  induction n as [|n IH]; intros F w handle Hleft Hm HF Hc Hnow.
  - (* no poll is left: the resource is reported running *)
    destruct (Hget (cid handle) (w_env w)) as [container Hg].
    pose proof (Hgetl (cid handle) (w_env w)) as Hl1.
    destruct (rt_get rt (cid handle) (w_env w)) as [r e1] eqn:Hg'.
    simpl in Hg, Hl1. subst r.
    destruct (status_reports_running container e1 ltac:(lia)) as (e2 & Hs1 & H2).
    destruct (status_reports_running handle e2 H2) as (e3 & Hs2 & H3).
    destruct (status_reports_running handle e3 H3) as (e4 & Hs3 & H4).
    destruct (status_reports_running handle e4 H4) as (e5 & Hs4 & H5).
    destruct (wait_poll_running F self t0 k t1 t2 w handle container
                "running" "running" "running" e1 e2 e3 e4 e5 Hports Hc ltac:(lia)
                Hg' Hs1 Hs2 Hs3 Hs4 eq_refl) as (w' & Hwait & _ & _ & Ht).
    exists w', container. eexists.
      split_and!; [exact Hwait|rewrite Ht; reflexivity|reflexivity].
  - assert (Hpt : 250 <= poll_time) by (apply (poll_time_nonneg (w_env w)); lia).
    destruct (Hget (cid handle) (w_env w)) as [container Hg].
    pose proof (Hgetl (cid handle) (w_env w)) as Hl1.
    destruct (rt_get rt (cid handle) (w_env w)) as [r e1] eqn:Hg'.
    simpl in Hg, Hl1. subst r.
    destruct (polls_left e1) as [|p] eqn:Hp1.
    + destruct (status_reports_running container e1 Hp1) as (e2 & Hs1 & H2).
      destruct (status_reports_running handle e2 H2) as (e3 & Hs2 & H3).
      destruct (status_reports_running handle e3 H3) as (e4 & Hs3 & H4).
      destruct (status_reports_running handle e4 H4) as (e5 & Hs4 & H5).
      destruct (wait_poll_running F self t0 k t1 t2 w handle container
                  "running" "running" "running" e1 e2 e3 e4 e5 Hports Hc ltac:(nia)
                  Hg' Hs1 Hs2 Hs3 Hs4 eq_refl) as (w' & Hwait & _ & _ & Ht).
      exists w', container. eexists.
      split_and!; [exact Hwait|rewrite Ht; reflexivity|reflexivity].
    + destruct (Hstatus container e1) as (st & Hst & Hr).
      rewrite Hp1 in Hr. simpl in Hr.
      pose proof (Hdec container e1) as Hl2.
      destruct (rt_status rt container e1) as [r e2] eqn:Hs'.
      simpl in Hst, Hl2. subst r.
      destruct F as [|F']; [lia|].
      rewrite (wait_poll_not_running (S F') self t0 k t1 t2 w handle container st e1 e2
                 Hc ltac:(nia) Hg' Hs' Hr).
      set (w3 := record_event rt (EvSleep 250)
                   (record_event rt (EvStatus container)
                      (record_event rt (EvContainersGet (cid handle)) w e1 0) e2 0)
                   (rt_sleep rt 250 e2) 250).
      destruct (IH F' w3 handle) as (w' & container' & d & Hwait & Ht & Hcalls).
      * subst w3. cbn [w_env record_event].
        pose proof (Hsleepl 250 e2). lia.
      * lia.
      * lia.
      * exact Hc.
      * subst w3. cbn [w_now record_event w_env].
        pose proof (Hpoll ltac:(lia) (EvContainersGet (cid handle)) (w_env w)).
        pose proof (Hpoll ltac:(lia) (EvStatus container) e1).
        pose proof (Hpoll ltac:(lia) (EvSleep 250) e2).
        rewrite Nat2Z.inj_succ, Z.mul_succ_l in Hnow. lia.
      * exists w', container,
          (EvSleep 250 :: EvContainersGet (cid handle) :: EvStatus container' :: d).
        split_and!; [exact Hwait| |exact Hcalls].
        rewrite Ht. subst w3. cbn [w_trace record_event].
        rewrite <- !app_assoc. reflexivity.
Qed.

(** With handled hooks, [start] succeeds in its first attempt on such a
    runtime, having looked the container up and read its status. *)
Lemma start_becomes_running fuel a t (w : World E) :
  Forall (handled rt) (before_start_callbacks self) ->
  Forall (handled rt) (after_start_callbacks self) ->
  timeout = py_or t (start_timeout self) ->
  0 <= py_or a (max_start_attempts self) ->
  exists w' d,
    start rt (S (S (m + fuel))) self a t w = (Return true, w') /\
    w_trace w' = w_trace w ++ d /\
    calls_made d = before_start_callbacks self ++ after_start_callbacks self /\
    attempts_logged d = [1] /\
    runs_requested d = 1%nat /\
    (exists id, In (EvContainersGet id) d) /\
    (exists c, In (EvStatus c) d).
Proof.
  intros Hb Ha Htimeout Hn.
  pose proof Hbecomes as (Hping & Hkw & Hrun & _ & _ & Hmax & _ & _ & _ & Hlat & _).
  destruct (run_callbacks_handled _ Hb (snd (emit EvAtexitRegister w)))
    as (w1 & d1 & Hrun1 & Hc1 & _ & _ & Ht1 & Hd1 & Hcalls1 & _).
  simpl in Hrun1, Ht1.
  unfold start.
  unfold bind at 1. unfold emit at 1. unfold bind at 1. rewrite Hrun1.
  unfold bind at 1. rewrite client_connectable_spec.
  pose proof (Hping (w_env w1)) as Hp.
  destruct (rt_ping rt (w_env w1)) as [r e2] eqn:Hp'. simpl in Hp. subst r.
  set (w2 := record_event rt EvPing w1 e2 0).
  unfold bind at 1. unfold ret at 1. unfold bind at 1. unfold time_time at 1.
  cbv zeta. rewrite <- Htimeout.
  set (n := py_or a (max_start_attempts self)) in *.
  assert (Hloop : exists w6 cur container c dw,
             attempts_loop rt (S (S (m + fuel))) self timeout (w_now w2) n 0 false w2 =
               (Return (true, cur), w6) /\
             w_trace w6 = w_trace w2 ++
               [EvLog INFO (LogStarting 1 n);
                EvContainersRun (image self) (name self) true true
                  (container_run_kwargs self)] ++
               EvContainersGet (cid c) :: EvStatus container :: dw /\
             Forall quiet (EvContainersGet (cid c) :: EvStatus container :: dw) /\
             calls_made dw = []).
  { cbn [attempts_loop].
    destruct (Z.leb_spec 0 n) as [_|Hlt]; [|lia].
    unfold bind at 1. unfold log at 1, emit at 1.
    unfold bind at 1. unfold time_time at 1.
    unfold bind at 1. unfold check_keywords at 1. rewrite Hkw. unfold ret at 1.
    cbn [w_env w_now].
    match goal with |- context [bind (extern rt ?ev ?f) _ ?w0] =>
      set (w3 := w0); set (ev_run := ev)
    end.
    destruct (Hrun (w_env w3)) as [c Hr].
    destruct (rt_run rt (image self) (name self) true true (container_run_kwargs self)
                (w_env w3)) as [r e4] eqn:Hr'.
    simpl in Hr. subst r.
    rewrite (bind_Return _ _ _ _ _ (extern_Gives _ _ _ _ _ Hr')).
    unfold bind at 1. unfold set_container at 1.
    match goal with |- context [bind (wait_until_running _ _ _ _ _ _ _) _ ?w0] =>
      set (w5 := w0)
    end.
    destruct (wait_becomes_running (w_now w2) (0 + 1) (w_now w2) (w_now w2 + timeout)
                m (m + fuel)%nat w5 c) as (w6 & container & dw & Hwait & Ht6 & Hcw).
    { apply Hmax. }
    { lia. }
    { lia. }
    { reflexivity. }
    { subst w5 w3 ev_run. cbn [w_now record_event w_env].
      pose proof (Hlat (w_env w2)). lia. }
    rewrite (bind_Return _ _ _ _ _ Hwait).
    destruct (emits_delta _ _ _ _ _ (wait_until_running_quiet _ _ _ _ _ _) Hwait)
      as (dq & Htq & Hq).
    rewrite Ht6 in Htq. apply app_inv_head in Htq. subst dq.
    exists w6.
    cbn [attempts_loop]. destruct (0 + 1 <=? n); eexists _, container, c, dw;
      (split_and!; [reflexivity| |exact Hq|exact Hcw]); rewrite Ht6; subst w5 w3 ev_run;
      cbn [w_trace record_event]; rewrite <- !app_assoc; reflexivity. }
  destruct Hloop as (w6 & cur & container & c & dw & Hloop & Ht6 & Hq6 & Hcw).
  unfold bind at 1. rewrite Hloop.
  destruct (run_callbacks_handled _ Ha w6)
    as (w7 & d7 & Hrun7 & _ & _ & _ & Ht7 & Hd7 & Hcalls7 & _).
  unfold bind at 1. rewrite Hrun7. unfold ret.
  set (dp := EvContainersGet (cid c) :: EvStatus container :: dw) in *.
  exists w7, ([EvAtexitRegister] ++ d1 ++ [EvPing] ++
              [EvLog INFO (LogStarting 1 n);
               EvContainersRun (image self) (name self) true true
                 (container_run_kwargs self)] ++ dp ++ d7).
  assert (Hq1 : Forall quiet d1).
  { eapply Forall_impl; [exact Hd1|]. apply hook_event_quiet. }
  assert (Hq7 : Forall quiet d7).
  { eapply Forall_impl; [exact Hd7|]. apply hook_event_quiet. }
  apply quiet_events in Hq1 as [Hl1 Hr1].
  apply quiet_events in Hq7 as [Hl7 Hr7].
  pose proof Hq6 as Hq6'. apply quiet_events in Hq6' as [Hl6 Hr6].
  assert (Hcalls6 : calls_made dp = []) by exact Hcw.
  split_and!.
  - reflexivity.
  - rewrite Ht7, Ht6. subst w2. cbn [w_trace record_event]. rewrite Ht1.
    rewrite <- !app_assoc. reflexivity.
  - rewrite !calls_made_app, Hcalls1, Hcalls7, Hcalls6. reflexivity.
  - rewrite !attempts_logged_app, Hl1, Hl7, Hl6. reflexivity.
  - rewrite !runs_requested_app, Hr1, Hr7, Hr6. reflexivity.
  - exists (cid c). apply in_or_app. right. apply in_or_app. right.
    apply in_or_app. right. apply in_or_app. right. apply in_or_app. left.
    subst dp. left. reflexivity.
  - exists container. apply in_or_app. right. apply in_or_app. right.
    apply in_or_app. right. apply in_or_app. right. apply in_or_app. left.
    subst dp. right. left. reflexivity.
Qed.

End BecomesRunning.

(** C6: without ports to check ([check_ports] absent or empty), the
    readiness check answers true at once and leaves the world as it is, and
    no call of [start] ever probes a port.  So the polling loop alone
    decides: a poll that finds the resource not running sleeps a quarter of
    a second and polls again; the poll in which the backend reports it
    running (at the lookup, and again at the double-check) ends the wait at
    once, after the lookup and the status reads and nothing else; the
    attempt loop is then left with [factory_started], and what is left of
    [start] is to run the after-start callbacks and return True.  On a
    runtime that reports the resource running after some polls within the
    timeout, [start] therefore returns True in its first attempt. *)
Theorem no_ports_ready_at_once self :
  check_ports self = None \/ check_ports self = Some [] ->
  (forall fuel t1 t2 (w : World E),
      run_start_checks rt fuel self t1 t2 w = (Return true, w)) /\
  (forall fuel a t (w : World E),
      exists d, w_trace (snd (start rt fuel self a t w)) = w_trace w ++ d /\
                Forall (fun ev => is_port_probe ev = false) d) /\
  (forall fuel t0 k t1 t2 (w : World E) handle container st e1 e2,
      w_container w = Some handle ->
      w_now w <= t2 ->
      rt_get rt (cid handle) (w_env w) = (Gives container, e1) ->
      rt_status rt container e1 = (Gives st, e2) ->
      is_status_running st = false ->
      wait_until_running rt (S fuel) self t0 k t1 t2 w =
      wait_until_running rt fuel self t0 k t1 t2
        (record_event rt (EvSleep 250)
           (record_event rt (EvStatus container)
              (record_event rt (EvContainersGet (cid handle)) w e1 0) e2 0)
           (rt_sleep rt 250 e2) 250)) /\
  (forall fuel t0 k t1 t2 (w : World E) handle container st' s3 s4 e1 e2 e3 e4 e5,
      w_container w = Some handle ->
      w_now w <= t2 ->
      rt_get rt (cid handle) (w_env w) = (Gives container, e1) ->
      rt_status rt container e1 = (Gives "running", e2) ->
      rt_status rt handle e2 = (Gives st', e3) ->
      let current := if is_status_running st' then handle else container in
      rt_status rt current e3 = (Gives s3, e4) ->
      rt_status rt current e4 = (Gives s4, e5) ->
      is_status_running s4 = true ->
      exists w',
        wait_until_running rt (S fuel) self t0 k t1 t2 w = (Return true, w') /\
        w_env w' = e5 /\
        w_container w' = Some current /\
        w_trace w' = w_trace w ++
          [EvContainersGet (cid handle); EvStatus container; EvStatus handle;
           EvStatus current;
           EvLog WARNING (LogContainerIsRunning (is_status_running s3));
           EvStatus current; EvLog INFO (LogFactoryIsRunning k (w_now w' - t0))]) /\
  (forall F timeout t0 n j (w0 w1 wt : World E),
      j <= n ->
      (log INFO (LogStarting (j + 1) n) ;;
       check_keywords ["name"; "detach"; "stdin_open"] (container_run_kwargs self) ;;
       let* c := extern rt
                   (EvContainersRun (image self) (name self) true true
                      (container_run_kwargs self))
                   (rt_run rt (image self) (name self) true true
                      (container_run_kwargs self)) in
       set_container (Some c)) w0 = (Return tt, w1) ->
      wait_until_running rt (S F) self t0 (j + 1) (w_now w0) (w_now w0 + timeout) w1
        = (Return true, wt) ->
      attempts_loop rt (S (S F)) self timeout t0 n j false w0 =
        (Return (true, if j + 1 <=? n then j + 1 + 1 else j + 1), wt)) /\
  (forall fuel a t (w w2 w6 : World E) cur,
      (emit EvAtexitRegister ;;
       run_callbacks rt (before_start_callbacks self) ;;
       client_connectable rt) w = (Return IsTrue, w2) ->
      attempts_loop rt fuel self (py_or t (start_timeout self)) (w_now w2)
        (py_or a (max_start_attempts self)) 0 false w2 = (Return (true, cur), w6) ->
      start rt fuel self a t w =
        (run_callbacks rt (after_start_callbacks self) ;; ret true) w6) /\
  (forall fuel a t (w : World E) polls_left m poll_time,
      Forall (handled rt) (before_start_callbacks self) ->
      Forall (handled rt) (after_start_callbacks self) ->
      runtime_becomes_running rt self (py_or t (start_timeout self))
        polls_left m poll_time ->
      0 <= py_or a (max_start_attempts self) ->
      exists w' d,
        start rt (S (S (m + fuel))) self a t w = (Return true, w') /\
        w_trace w' = w_trace w ++ d /\
        calls_made d = before_start_callbacks self ++ after_start_callbacks self /\
        attempts_logged d = [1] /\
        runs_requested d = 1%nat /\
        (exists id, In (EvContainersGet id) d) /\
        (exists c, In (EvStatus c) d) /\
        Forall (fun ev => is_port_probe ev = false) d).
Proof.
  intros Hcp.
  assert (Hports : get_check_ports self = []).
  { unfold get_check_ports. destruct Hcp as [-> | ->]; reflexivity. }
  assert (Hnoprobe : forall fuel a t (w : World E),
             exists d, w_trace (snd (start rt fuel self a t w)) = w_trace w ++ d /\
                       Forall (fun ev => is_port_probe ev = false) d).
  { intros fuel a t w.
    apply (emits_start (fun ev => is_port_probe ev = false)); try reflexivity;
      auto using hook_event_not_probe, teardown_event_not_probe,
                 polling_event_not_probe, attempt_event_not_probe. }
  split_and!.
  - intros. apply run_start_checks_no_ports. exact Hports.
  - exact Hnoprobe.
  - intros. apply wait_poll_not_running with (st := st); assumption.
  - intros fuel t0 k t1 t2 w handle container st' s3 s4 e1 e2 e3 e4 e5
      Hc Hnow Hget Hs1 Hs2 current Hs3 Hs4 Hup.
    exact (wait_poll_running fuel self t0 k t1 t2 w handle container st' s3 s4
             e1 e2 e3 e4 e5 Hports Hc Hnow Hget Hs1 Hs2 Hs3 Hs4 Hup).
  - intros F timeout t0 n j w0 w1 wt Hj Hpre Hw.
    exact (attempts_loop_wait_true F self timeout t0 n j w0 w1 wt Hj Hpre Hw).
  - intros fuel a t w w2 w6 cur Hpro Hloop.
    exact (start_after_loop_true fuel self a t w w2 w6 cur Hpro Hloop).
  - intros fuel a t w polls_left m poll_time Hb Ha Hbec Hn.
    destruct (start_becomes_running self _ polls_left m poll_time Hbec Hports
                fuel a t w Hb Ha eq_refl Hn)
      as (w' & d & Hstart & Ht & Hcalls & Hlog & Hruns & Hget & Hst).
    exists w', d. split_and!; auto.
    destruct (Hnoprobe (S (S (m + fuel))) a t w) as (d' & Ht' & Hd').
    rewrite Hstart in Ht'. simpl in Ht'. rewrite Ht in Ht'.
    apply app_inv_head in Ht'. subst d'. exact Hd'.
Qed.


(** *** Hooks *)

(** C4, as the code has it: hooks whose exceptions derive from [Exception]
    and whose description can be built never abort anything.  Such a
    sequence runs to its end, each callback invoked in insertion order and
    each exception logged; [start] still succeeds when the runtime is ready,
    having invoked every before-start and after-start callback; and an
    exception of [terminate] is one of its capture-and-removal step, raised
    after every before-terminate and after-terminate callback was invoked. *)
Theorem handled_hooks_never_abort self (w : World E) :
  Forall (handled rt) (before_start_callbacks self) ->
  Forall (handled rt) (after_start_callbacks self) ->
  Forall (handled rt) (before_terminate_callbacks self) ->
  Forall (handled rt) (after_terminate_callbacks self) ->
  (forall callbacks (w0 : World E),
      Forall (handled rt) callbacks ->
      exists w' d,
        run_callbacks rt callbacks w0 = (Return tt, w') /\
        w_trace w' = w_trace w0 ++ d /\
        Forall (fun ev => hook_event ev = true) d /\
        calls_made d = callbacks /\
        failures_logged d = fst (hooks_outcome rt callbacks (w_env w0))) /\
  (forall fuel a t,
      runtime_ready rt self (py_or t (start_timeout self)) ->
      get_check_ports self = [] ->
      0 <= py_or a (max_start_attempts self) ->
      exists w' d,
        start rt (S (S fuel)) self a t w = (Return true, w') /\
        w_trace w' = w_trace w ++ d /\
        calls_made d = before_start_callbacks self ++ after_start_callbacks self) /\
  (exists d,
      w_trace (snd (terminate rt self w)) = w_trace w ++ d /\
      calls_made d = before_terminate_callbacks self ++ after_terminate_callbacks self) /\
  (forall e,
      fst (terminate rt self w) = Raises e ->
      exists w1 w2, terminate_capture_and_remove rt w1 = (Raises e, w2)).
Proof.
  intros Hbs Has Hbt Hat. split_and!.
  - intros callbacks w0 Hcb.
    destruct (run_callbacks_handled _ Hcb w0)
      as (w' & d & Hrun & _ & _ & _ & Ht & Hd & Hcalls & Hf).
    exists w', d. auto.
  - intros fuel a t Hready Hports Hn.
    destruct (start_succeeds_when_running fuel self a t w Hbs Has Hready Hports Hn)
      as (w' & d & Hstart & Ht & Hcalls & _).
    exists w', d. auto.
  - destruct (terminate_phases self w Hbt Hat)
      as (w1 & o & w2 & w3 & d1 & d2 & d3 & Ht1 & Hc1 & Hstep & Ht2 & Hd2 & _ & Ht3 & Hc3
          & Hterm & _).
    exists (EvAtexitUnregister :: d1 ++ d2 ++ d3). rewrite Hterm. simpl. split.
    + rewrite Ht3, Ht2, Ht1, <- !app_assoc. reflexivity.
    + change (EvAtexitUnregister :: d1 ++ d2 ++ d3)
        with ([EvAtexitUnregister] ++ d1 ++ d2 ++ d3).
      rewrite !calls_made_app, Hc1, Hc3. simpl.
      assert (Hq : calls_made d2 = []).
      { clear -Hd2. induction Hd2 as [|ev d Hev _ IH]; [reflexivity|].
        destruct ev; simpl in *; try discriminate; exact IH. }
      rewrite Hq. reflexivity.
  - intros e He.
    destruct (terminate_phases self w Hbt Hat)
      as (w1 & o & w2 & w3 & d1 & d2 & d3 & _ & _ & Hstep & _ & _ & _ & _ & _
          & Hterm & _).
    rewrite Hterm in He. simpl in He.
    destruct o as [[out err]|e0|]; try discriminate.
    inversion He; subst. exists w1, w2. exact Hstep.
Qed.

(** *** A resource that flaps *)

(** C7: in a poll of an attempt, once the fresh handle reports "running",
    the controller reads the status of its own handle, adopts the fresh
    handle when its own is not running, and checks again; when that check
    finds the handle not running, it force-removes the resource, waits for
    the removal, clears its handle and leaves the polling loop without
    [factory_started], without sleeping, tearing down or raising; the attempt
    loop then goes on with the next value of [current_attempt]. *)
Theorem flapped_resource_removed_and_retried fuel self t0 k t1 t2 (w : World E)
    handle container st' s3 s4 e1 e2 e3 e4 e5 e6 e7 :
  w_container w = Some handle ->
  w_now w <= t2 ->
  rt_get rt (cid handle) (w_env w) = (Gives container, e1) ->
  rt_status rt container e1 = (Gives "running", e2) ->
  rt_status rt handle e2 = (Gives st', e3) ->
  let current := if is_status_running st' then handle else container in
  rt_status rt current e3 = (Gives s3, e4) ->
  rt_status rt current e4 = (Gives s4, e5) ->
  is_status_running s4 = false ->
  rt_remove rt current true e5 = (Gives tt, e6) ->
  rt_wait rt current e6 = (Gives tt, e7) ->
  (exists w',
      wait_until_running rt (S fuel) self t0 k t1 t2 w = (Return false, w') /\
      w_env w' = e7 /\
      w_container w' = None /\
      w_trace w' = w_trace w ++
        [EvContainersGet (cid handle); EvStatus container; EvStatus handle;
         EvStatus current; EvLog WARNING (LogContainerIsRunning (is_status_running s3));
         EvStatus current; EvRemove current true; EvWait current]) /\
  (forall F timeout n j (w0 w1 wt : World E),
      j <= n ->
      (log INFO (LogStarting (j + 1) n) ;;
       check_keywords ["name"; "detach"; "stdin_open"] (container_run_kwargs self) ;;
       let* c := extern rt
                   (EvContainersRun (image self) (name self) true true
                      (container_run_kwargs self))
                   (rt_run rt (image self) (name self) true true
                      (container_run_kwargs self)) in
       set_container (Some c)) w0 = (Return tt, w1) ->
      wait_until_running rt F self t0 (j + 1) (w_now w0) (w_now w0 + timeout) w1
        = (Return false, wt) ->
      attempts_loop rt (S F) self timeout t0 n j false w0 =
      attempts_loop rt F self timeout t0 n (j + 1) false wt).
Proof.
  intros Hc Hnow Hget Hs1 Hs2 current Hs3 Hs4 Hflap Hrm Hwait. split.
  - cbn [wait_until_running].
    unfold bind at 1. unfold time_time at 1.
    destruct (Z.leb_spec (w_now w) t2) as [_|Hlt]; [|lia].
    unfold bind at 1. unfold get_container at 1. rewrite Hc.
    rewrite (bind_Return _ _ _ _ _ (extern_Gives _ _ _ _ _ Hget)).
    set (w1 := record_event rt (EvContainersGet (cid handle)) w e1 0).
    unfold status at 1.
    rewrite (bind_Return _ _ _ _ _ (extern_Gives _ (rt_status rt container) w1 _ _ Hs1)).
    set (w2 := record_event rt (EvStatus container) w1 e2 0).
    change (is_status_running "running") with true. cbn [negb].
    unfold status at 1.
    rewrite (bind_Return _ _ _ _ _ (extern_Gives _ (rt_status rt handle) w2 _ _ Hs2)).
    set (w3 := record_event rt (EvStatus handle) w2 e3 0).
    assert (Hupd : exists w3',
               (if negb (is_status_running st')
                then set_container (Some container) else ret ()) w3 = (Return tt, w3') /\
               w_container w3' = Some current /\ w_env w3' = e3 /\
               w_trace w3' = w_trace w3).
    { subst current. destruct (is_status_running st'); cbn [negb];
        eexists; (split; [reflexivity|]); split_and!; try reflexivity. exact Hc. }
    destruct Hupd as (w3' & Hupd & Hc3 & He3 & Ht3).
    rewrite (bind_Return _ _ _ _ _ Hupd).
    rewrite <- He3 in Hs3.
    rewrite (bind_Return _ _ _ _ _ (is_running_Gives _ _ _ _ Hc3 Hs3)).
    set (w4 := record_event rt (EvStatus current) w3' e4 0).
    unfold bind at 1. unfold log at 1, emit at 1.
    match goal with |- context [bind (is_running rt) _ ?w0] => set (w5 := w0) end.
    assert (Hc5 : w_container w5 = Some current) by exact Hc3.
    assert (Hs5 : rt_status rt current (w_env w5) = (Gives s4, e5)) by exact Hs4.
    rewrite (bind_Return _ _ _ _ _ (is_running_Gives _ _ _ _ Hc5 Hs5)).
    rewrite Hflap. cbn [negb].
    set (w6 := record_event rt (EvStatus current) w5 e5 0).
    unfold bind at 1. unfold get_container at 1.
    assert (Hc6 : w_container w6 = Some current) by exact Hc3.
    rewrite Hc6.
    rewrite (bind_Return _ _ _ _ _
               (extern_Gives _ (rt_remove rt current true) w6 _ _ Hrm)).
    set (w7 := record_event rt (EvRemove current true) w6 e6 0).
    rewrite (bind_Return _ _ _ _ _ (extern_Gives _ (rt_wait rt current) w7 _ _ Hwait)).
    unfold bind, set_container, ret.
    eexists. split_and!; try reflexivity.
    subst w7 w6 w5 w4. cbn [w_trace record_event]. rewrite Ht3.
    subst w3 w2 w1. cbn [w_trace record_event]. rewrite <- !app_assoc. reflexivity.
  - intros F timeout n j w0 w1 wt Hj Hpre Hw.
    cbn [attempts_loop].
    destruct (Z.leb_spec j n) as [_|Hlt]; [|lia].
    apply bind_Return_inv in Hpre as ([] & wa & Hlog & Hpre).
    apply bind_Return_inv in Hpre as ([] & wb & Hkw & Hpre).
    apply bind_Return_inv in Hpre as (c & wc & Hrun & Hset).
    rewrite (bind_Return _ _ _ _ _ Hlog).
    unfold bind at 1. unfold time_time at 1.
    assert (Hnow0 : w_now wa = w_now w0) by (inversion Hlog; reflexivity).
    rewrite Hnow0.
    rewrite (bind_Return _ _ _ _ _ Hkw).
    rewrite (bind_Return _ _ _ _ _ Hrun).
    rewrite (bind_Return _ _ _ _ _ Hset).
    rewrite (bind_Return _ _ _ _ _ Hw).
    reflexivity.
Qed.

(** *** A resource that never runs *)

Lemma terminate_no_handle_clock self (w : World E) :
  w_container w = None ->
  Forall (handled rt) (before_terminate_callbacks self) ->
  Forall (handled rt) (after_terminate_callbacks self) ->
  w_now w <= w_now (snd (terminate rt self w)).
Proof.
  intros Hc Hb Ha. unfold terminate.
  unfold bind at 1. unfold emit.
  match goal with |- context [bind (run_callbacks rt _) _ ?w1] =>
    destruct (run_callbacks_handled _ Hb w1) as (w1' & d1 & Hrun1 & Hc1 & Hn1 & _)
  end.
  unfold bind at 1. rewrite Hrun1.
  unfold bind at 1. unfold finally.
  simpl in Hc1. rewrite terminate_capture_no_handle by congruence.
  destruct (run_callbacks_handled _ Ha w1') as (w2 & d2 & Hrun2 & _ & Hn2 & _).
  rewrite Hrun2. simpl in *. lia.
Qed.

Section NeverRunning.

Variable self : ContainerFactory.
Hypothesis Hnever : runtime_never_running rt self.
Hypothesis Hbefore : Forall (handled rt) (before_terminate_callbacks self).
Hypothesis Hafter : Forall (handled rt) (after_terminate_callbacks self).

Lemma capture_not_running (w : World E) handle :
  w_container w = Some handle ->
  exists out err w',
    terminate_capture_and_remove rt w = (Return (out, err), w') /\
    w_container w' = None /\
    w_now w <= w_now w'.
Proof.
  destruct Hnever as (_ & _ & _ & Hget & Hstatus & Hlogs).
  intros Hc. unfold terminate_capture_and_remove.
  unfold bind at 1. unfold get_container at 1. rewrite Hc.
  destruct (Hget (cid handle) (w_env w)) as [container Hg].
  destruct (rt_get rt (cid handle) (w_env w)) as [r1 e1] eqn:Hg'. simpl in Hg. subst r1.
  unfold bind_unless_NotFound at 1.
  rewrite (extern_Gives _ _ _ _ _ Hg').
  set (w1 := record_event rt (EvContainersGet (cid handle)) w e1 0).
  destruct (Hlogs container (w_env w1)) as (l & Hl & Hdec).
  destruct (rt_logs rt container true true false (w_env w1)) as [r2 e2] eqn:Hl'.
  simpl in Hl. subst r2.
  unfold bind_unless_NotFound at 1.
  rewrite (extern_Gives _ _ _ _ _ Hl').
  set (w2 := record_event rt (EvLogs container true true false) w1 e2 0).
  assert (Hw2 : w_now w <= w_now w2).
  { subst w2 w1. cbn [w_now record_event]. lia. }
  clearbody w2.
  assert (Hrest : forall out err (w3 : World E),
             exists w',
               (log WARNING (LogRunningContainerLogs out err) ;;
                try* st := status rt container keeping (out, err) in
                try* _ := (if is_status_running st
                           then extern rt (EvRemove container true)
                                  (rt_remove rt container true) ;;
                                extern rt (EvWait container) (rt_wait rt container)
                           else ret tt)
                  keeping (out, err) in
                set_container None ;;
                ret (out, err)) w3 = (Return (out, err), w') /\
               w_container w' = None /\
               w_now w3 <= w_now w').
  { intros out err w3.
    unfold bind at 1. unfold log at 1, emit at 1.
    match goal with |- context [bind_unless_NotFound _ _ _ ?w0] => set (w4 := w0) end.
    destruct (Hstatus container (w_env w4)) as (st & Hst & Hnr).
    destruct (rt_status rt container (w_env w4)) as [r3 e3] eqn:Hst'.
    simpl in Hst. subst r3.
    unfold bind_unless_NotFound at 1. unfold status at 1.
    rewrite (extern_Gives _ _ _ _ _ Hst'). rewrite Hnr.
    unfold bind_unless_NotFound, bind, ret, set_container.
    eexists. split_and!; [reflexivity|reflexivity|].
    subst w4. cbn [w_now record_event]. lia. }
  destruct l as [b|b0 b1]; simpl in Hdec; unfold decodable in Hdec.
  - unfold bind_unless_NotFound at 1. unfold py_decode at 1.
    destruct (rt_decode rt b) as [s|]; [|discriminate].
    unfold ret at 1.
    destruct (Hrest (Some s) None w2) as (w' & Hr & Hc' & Hn').
    exists (Some s), None, w'. split_and!; [exact Hr|exact Hc'|lia].
  - unfold bind_unless_NotFound at 1. unfold py_decode at 1.
    destruct (rt_decode rt b0) as [s0|]; [|discriminate].
    unfold ret at 1.
    unfold bind_unless_NotFound at 1. unfold py_decode at 1.
    destruct (rt_decode rt b1) as [s1|]; [|discriminate].
    unfold ret at 1.
    destruct (Hrest (Some s0) (Some s1) w2) as (w' & Hr & Hc' & Hn').
    exists (Some s0), (Some s1), w'. split_and!; [exact Hr|exact Hc'|lia].
Qed.

Lemma terminate_not_running (w : World E) handle :
  w_container w = Some handle ->
  exists result w',
    terminate rt self w = (Return result, w') /\
    w_container w' = None /\
    w_now w <= w_now w'.
Proof.
  intros Hc. unfold terminate.
  unfold bind at 1. unfold emit at 1.
  match goal with |- context [bind (run_callbacks rt _) _ ?w0] =>
    destruct (run_callbacks_handled _ Hbefore w0)
      as (w1 & d1 & Hrun1 & Hc1 & Hn1 & _)
  end.
  rewrite (bind_Return _ _ _ _ _ Hrun1). simpl in Hc1, Hn1. rewrite Hc in Hc1.
  destruct (capture_not_running w1 handle Hc1) as (out & err & w2 & Hstep & Hc2 & Hn2).
  destruct (run_callbacks_handled _ Hafter w2) as (w3 & d3 & Hrun3 & Hc3 & Hn3 & _).
  unfold bind, finally. rewrite Hstep, Hrun3. unfold ret.
  eexists _, w3. split_and!; [reflexivity|congruence|lia].
Qed.

(** The polls of an attempt: each finds the resource not running and sleeps
    a quarter of a second, until the deadline has passed; then the attempt
    is torn down. *)
Lemma wait_never_running t0 k t1 t2 :
  forall F (w : World E) handle,
    w_container w = Some handle ->
    t2 - w_now w < 250 * Z.of_nat F ->
    exists w', wait_until_running rt (S F) self t0 k t1 t2 w = (Return false, w') /\
               w_container w' = None /\
               t2 < w_now w'.
Proof.
  destruct Hnever as (_ & _ & _ & Hget & Hstatus & _).
  induction F as [|F IH]; intros w handle Hc Hlt; cbn [wait_until_running];
    unfold bind at 1; unfold time_time at 1;
    destruct (Z.leb_spec (w_now w) t2) as [Hle|Hgt]; try lia.
  - destruct (terminate_not_running w handle Hc) as (r & w' & Hterm & Hc' & Hn').
    rewrite (bind_Return _ _ _ _ _ Hterm). exists w'.
    split_and!; [reflexivity|exact Hc'|lia].
  - unfold bind at 1. unfold get_container at 1. rewrite Hc.
    destruct (Hget (cid handle) (w_env w)) as [container Hg].
    destruct (rt_get rt (cid handle) (w_env w)) as [r1 e1] eqn:Hg'. simpl in Hg. subst r1.
    rewrite (bind_Return _ _ _ _ _ (extern_Gives _ _ _ _ _ Hg')).
    set (w1 := record_event rt (EvContainersGet (cid handle)) w e1 0).
    destruct (Hstatus container (w_env w1)) as (st & Hst & Hnr).
    destruct (rt_status rt container (w_env w1)) as [r2 e2] eqn:Hst'.
    simpl in Hst. subst r2.
    unfold status at 1.
    rewrite (bind_Return _ _ _ _ _ (extern_Gives _ _ _ _ _ Hst')).
    rewrite Hnr. cbn [negb].
    unfold bind at 1. unfold time_sleep at 1.
    apply (IH _ handle).
    + exact Hc.
    + subst w1. cbn [w_now record_event]. lia.
  - destruct (terminate_not_running w handle Hc) as (r & w' & Hterm & Hc' & Hn').
    rewrite (bind_Return _ _ _ _ _ Hterm). exists w'.
    split_and!; [reflexivity|exact Hc'|lia].
Qed.

Lemma attempts_never_running timeout t0 n :
  forall (r : nat) cur fuel (w : World E),
    Z.of_nat r = n + 1 - cur ->
    (r + Z.to_nat (timeout / 250 + 1) + 1 <= fuel)%nat ->
    exists w',
      attempts_loop rt fuel self timeout t0 n cur false w = (Return (false, n + 1), w') /\
      (0 < r -> w_container w' = None)%nat /\
      w_now w + Z.of_nat r * (timeout + 1) <= w_now w'.
Proof.
  destruct Hnever as (_ & Hkw & Hrun & _).
  induction r as [|r IH]; intros cur fuel w Hr Hfuel.
  - exists w. split_and!; [|lia|lia].
    destruct fuel; cbn [attempts_loop];
      destruct (Z.leb_spec cur n); try lia; unfold ret; repeat f_equal; lia.
  - destruct fuel as [|f]; [lia|]. cbn [attempts_loop].
    destruct (Z.leb_spec cur n) as [_|Hgt]; [|lia].
    unfold bind at 1. unfold log at 1, emit at 1.
    unfold bind at 1. unfold time_time at 1.
    unfold bind at 1. unfold check_keywords at 1. rewrite Hkw. unfold ret at 1.
    cbn [w_env w_now].
    match goal with |- context [bind (extern rt ?ev ?g) _ ?w0] =>
      set (w3 := w0); set (ev_run := ev)
    end.
    destruct (Hrun (w_env w3)) as [c Hc].
    destruct (rt_run rt (image self) (name self) true true (container_run_kwargs self)
                (w_env w3)) as [r1 e1] eqn:Hc'.
    simpl in Hc. subst r1.
    rewrite (bind_Return _ _ _ _ _ (extern_Gives _ _ _ _ _ Hc')).
    unfold bind at 1. unfold set_container at 1.
    match goal with |- context [bind (wait_until_running _ _ _ _ _ _ _) _ ?w0] =>
      set (w5 := w0)
    end.
    destruct f as [|F]; [lia|].
    destruct (wait_never_running t0 (cur + 1) (w_now w) (w_now w + timeout) F w5 c eq_refl)
      as (w6 & Hwait & Hc6 & Hn6).
    { subst w5 w3. cbn [w_now record_event].
      assert (timeout < 250 * Z.of_nat (Z.to_nat (timeout / 250 + 1))).
      { destruct (Z.lt_ge_cases timeout 0) as [Hneg|Hpos].
        - lia.
        - pose proof (Z.mul_succ_div_gt timeout 250 ltac:(lia)).
          assert (0 <= timeout / 250) by (apply Z.div_pos; lia). lia. }
      lia. }
    rewrite (bind_Return _ _ _ _ _ Hwait).
    destruct (IH (cur + 1) (S F) w6) as (w' & Hloop & Hnone & Hn'); [lia|lia|].
    exists w'. split_and!; [exact Hloop| |].
    + intros _. destruct r as [|r'].
      * (* the last attempt: the loop is left in the world of the wait *)
        clear Hnone. revert Hloop. cbn [attempts_loop].
        destruct (Z.leb_spec (cur + 1) n); [lia|].
        intros Hloop. inversion Hloop; subst. exact Hc6.
      * apply Hnone. lia.
    + rewrite Nat2Z.inj_succ, Z.mul_succ_l. lia.
Qed.

End NeverRunning.

(** X4: the scenario "the resource never becomes ready".  When the backend
    answers every request and no status read is "running", [start] raises
    [FactoryNotStarted] for every amount of fuel from [fuel_needed] on; the
    exception reports the attempt count in force and exit code 0, carries
    no stdout and no stderr (the teardown of the last timed-out attempt has
    already dropped the handle, so the final [terminate] captures nothing),
    and more than (N + 1) times the timeout has passed since the attempts
    began. *)
Theorem start_never_running fuel self a t (w : World E) :
  runtime_never_running rt self ->
  Forall (handled rt) (before_start_callbacks self) ->
  Forall (handled rt) (before_terminate_callbacks self) ->
  Forall (handled rt) (after_terminate_callbacks self) ->
  0 <= py_or a (max_start_attempts self) ->
  (fuel_needed (py_or a (max_start_attempts self)) (py_or t (start_timeout self))
   <= fuel)%nat ->
  exists info w',
    start rt fuel self a t w = (Raises (FactoryNotStarted info), w') /\
    ns_attempts info = py_or a (max_start_attempts self) /\
    ns_stdout info = None /\ ns_stderr info = None /\ ns_exitcode info = Some 0 /\
    (py_or a (max_start_attempts self) + 1) * py_or t (start_timeout self)
      < ns_elapsed info.
Proof.
  intros Hnever Hbs Hbt Hat Hn Hfuel.
  pose proof Hnever as (Hping & _).
  destruct (run_callbacks_handled _ Hbs (snd (emit EvAtexitRegister w)))
    as (w1 & d1 & Hrun1 & _).
  simpl in Hrun1.
  unfold start.
  unfold bind at 1. unfold emit at 1. unfold bind at 1. rewrite Hrun1.
  unfold bind at 1. rewrite client_connectable_spec.
  pose proof (Hping (w_env w1)) as Hp.
  destruct (rt_ping rt (w_env w1)) as [r e2] eqn:Hp'. simpl in Hp. subst r.
  set (w2 := record_event rt EvPing w1 e2 0).
  unfold bind at 1. unfold ret at 1. unfold bind at 1. unfold time_time at 1.
  cbv zeta.
  set (n := py_or a (max_start_attempts self)) in *.
  set (timeout := py_or t (start_timeout self)) in *.
  destruct (attempts_never_running self Hnever Hbt Hat timeout (w_now w2) n
              (Z.to_nat (n + 1)) 0 fuel w2) as (w3 & Hloop & Hc3 & Hn3).
  { lia. }
  { unfold fuel_needed in Hfuel. lia. }
  unfold bind at 1. rewrite Hloop.
  pose proof (terminate_no_handle_clock self w3 (Hc3 ltac:(lia)) Hbt Hat) as Hn4.
  destruct (terminate_no_handle self w3 (Hc3 ltac:(lia)) Hbt Hat)
    as (w4 & d4 & Hterm & _).
  rewrite Hterm in Hn4. simpl in Hn4.
  unfold bind at 1. rewrite Hterm.
  unfold bind, time_time, raise.
  eexists _, w4. split; [reflexivity|]. simpl. split_and!; try reflexivity.
  - ring.
  - rewrite Z2Nat.id in Hn3 by lia.
    subst w2. cbn [w_now record_event] in Hn3.
    clearbody n timeout. nia.
Qed.

(** *** What a returning start went through *)

Lemma format_callback_world callback args kwargs (w : World E) :
  snd (_format_callback callback args kwargs w) = w.
Proof.
  unfold _format_callback. destruct (cb_name callback); [|reflexivity].
  destruct args as [|a args']; [reflexivity|].
  unfold bind. destruct (str_items (a :: args')); reflexivity.
Qed.

Lemma run_callbacks_container callbacks :
  forall w : World E, w_container (snd (run_callbacks rt callbacks w)) = w_container w.
Proof.
  induction callbacks as [|[[callback args] kwargs] rest IH]; intros w; [reflexivity|].
  simpl. unfold bind at 1. unfold try_except, extern.
  destruct (rt_call rt callback args kwargs (w_env w)) as [[[]|k msg] e1]; simpl.
  - rewrite IH. reflexivity.
  - destruct (is_Exception k); [|reflexivity].
    unfold bind at 1.
    pose proof (format_callback_world callback args kwargs
                  (record_event rt (EvCall callback args kwargs) w e1 0)) as Hw.
    destruct (_format_callback callback args kwargs _) as [[str|e|] w2];
      simpl in Hw; subst w2; try reflexivity.
    unfold log, emit. rewrite IH. reflexivity.
Qed.

Lemma is_running_Return_inv (w : World E) b w' :
  is_running rt w = (Return b, w') ->
  exists c, w_container w = Some c /\ w_container w' = Some c.
Proof.
  unfold is_running, bind, get_container, status, extern.
  destruct (w_container w) as [c|] eqn:Hc; [|discriminate].
  destruct (rt_status rt c (w_env w)) as [[st|k msg] e']; intros H; inversion H.
  exists c. split; [reflexivity|exact Hc].
Qed.

Lemma check_ports_loop_true_handle fuel t2 t0 :
  forall pending (w w' : World E),
    check_ports_loop rt fuel t2 t0 pending w = (Return true, w') ->
    w_container w' <> None.
Proof.
  induction fuel as [|fuel IH]; intros pending w w' H; [discriminate|].
  cbn [check_ports_loop] in H.
  apply bind_Return_inv in H as (now & w0 & Hnow & H).
  destruct (now <=? t2).
  - apply bind_Return_inv in H as (running & w1 & Hrun & H).
    destruct running; cbn [negb] in H.
    + destruct (no_ports pending).
      * inversion H; subst.
        apply is_running_Return_inv in Hrun as (c & _ & ->). discriminate.
      * apply bind_Return_inv in H as (conn & w2 & _ & H). eapply IH; eauto.
    + apply bind_Return_inv in H as ([] & w2 & _ & H). discriminate.
  - apply bind_Return_inv in H as (now' & w1 & _ & H).
    apply bind_Return_inv in H as ([] & w2 & _ & H). discriminate.
Qed.

Lemma run_start_checks_true_handle fuel self t1 t2 (w w' : World E) c :
  w_container w = Some c ->
  run_start_checks rt fuel self t1 t2 w = (Return true, w') ->
  w_container w' <> None.
Proof.
  intros Hc. unfold run_start_checks.
  destruct (no_ports _).
  - intros H. inversion H; subst. congruence.
  - intros H. apply bind_Return_inv in H as (now & w0 & _ & H).
    eapply check_ports_loop_true_handle; eauto.
Qed.

(** The wait of an attempt answers true only after a readiness check that
    answered true, made with a handle in place. *)
Lemma wait_until_running_true_inv fuel self t0 k t1 t2 :
  forall (w w' : World E),
    wait_until_running rt fuel self t0 k t1 t2 w = (Return true, w') ->
    exists F w8 w9 c,
      w_container w8 = Some c /\
      run_start_checks rt F self t1 t2 w8 = (Return true, w9) /\
      w_container w' = w_container w9.
Proof.
  induction fuel as [|fuel IH]; intros w w' H; [discriminate|].
  cbn [wait_until_running] in H.
  apply bind_Return_inv in H as (now & w0 & Hnow & H).
  destruct (now <=? t2).
  2:{ apply bind_Return_inv in H as (r & w1 & _ & H). discriminate. }
  apply bind_Return_inv in H as (h & w1 & _ & H).
  destruct h as [handle|]; [|discriminate].
  apply bind_Return_inv in H as (container & w2 & _ & H).
  apply bind_Return_inv in H as (st & w3 & _ & H).
  destruct (negb (is_status_running st)).
  { apply bind_Return_inv in H as ([] & w4 & _ & H). eapply IH; eauto. }
  apply bind_Return_inv in H as (st' & w4 & _ & H).
  apply bind_Return_inv in H as ([] & w5 & _ & H).
  apply bind_Return_inv in H as (running & w6 & _ & H).
  apply bind_Return_inv in H as ([] & w7 & _ & H).
  apply bind_Return_inv in H as (running' & w8 & Hrun & H).
  destruct (negb running').
  { apply bind_Return_inv in H as (h' & w9 & _ & H).
    destruct h' as [handle'|]; [|discriminate].
    apply bind_Return_inv in H as ([] & wa & _ & H).
    apply bind_Return_inv in H as ([] & wb & _ & H).
    apply bind_Return_inv in H as ([] & wc & _ & H).
    discriminate. }
  apply bind_Return_inv in H as (ready & w9 & Hready & H).
  destruct ready; cbn [negb] in H.
  2:{ apply bind_Return_inv in H as ([] & w10 & _ & H). eapply IH; eauto. }
  apply bind_Return_inv in H as (now' & w10 & Hn & H).
  apply bind_Return_inv in H as ([] & w11 & Hlog & H).
  inversion H; subst. inversion Hn; subst. inversion Hlog; subst.
  apply is_running_Return_inv in Hrun as (c & _ & Hc8).
  exists fuel, w8, w10, c. split_and!; [exact Hc8|exact Hready|reflexivity].
Qed.

Lemma attempts_loop_true_inv fuel self timeout t0 n :
  forall cur (w w' : World E) cur',
    attempts_loop rt fuel self timeout t0 n cur false w = (Return (true, cur'), w') ->
    exists F k t1 t2 w5,
      wait_until_running rt F self t0 k t1 t2 w5 = (Return true, w').
Proof.
  induction fuel as [|fuel IH]; intros cur w w' cur' H; simpl in H;
    destruct (cur <=? n); try discriminate; try solve [inversion H].
  apply bind_Return_inv in H as ([] & w1 & _ & H).
  apply bind_Return_inv in H as (t1 & w2 & _ & H).
  apply bind_Return_inv in H as ([] & w3 & _ & H).
  apply bind_Return_inv in H as (c & w4 & _ & H).
  apply bind_Return_inv in H as ([] & w5 & _ & H).
  apply bind_Return_inv in H as (started & w6 & Hwait & H).
  destruct started.
  - assert (w' = w6) as ->.
    { destruct fuel; simpl in H; destruct (_ <=? _); inversion H; reflexivity. }
    eauto 10.
  - eapply IH; eauto.
Qed.

Lemma start_Return_inv fuel self a t (w : World E) b w' :
  start rt fuel self a t w = (Return b, w') ->
  b = true /\
  exists F k t0 t1 t2 w5 w6,
    wait_until_running rt F self t0 k t1 t2 w5 = (Return true, w6) /\
    run_callbacks rt (after_start_callbacks self) w6 = (Return tt, w').
Proof.
  unfold start. intros H.
  apply bind_Return_inv in H as ([] & w0 & _ & H).
  apply bind_Return_inv in H as ([] & w1 & _ & H).
  apply bind_Return_inv in H as (c & w2 & _ & H).
  apply bind_Return_inv in H as ([] & w2' & _ & H).
  apply bind_Return_inv in H as (t0 & w2'' & _ & H).
  cbv zeta in H.
  apply bind_Return_inv in H as ([started cur] & w3 & Hloop & H).
  destruct started.
  - apply bind_Return_inv in H as ([] & w4 & Hafter & H).
    inversion H; subst. split; [reflexivity|].
    apply attempts_loop_true_inv in Hloop as (F & k & t1 & t2 & w5 & Hwait).
    eauto 10.
  - apply bind_Return_inv in H as (r & w4 & _ & H).
    apply bind_Return_inv in H as (t1 & w5 & _ & H). discriminate.
Qed.

Lemma start_Return_handle fuel self a t (w : World E) b w' :
  start rt fuel self a t w = (Return b, w') ->
  b = true /\ exists c, w_container w' = Some c.
Proof.
  intros H.
  apply start_Return_inv in H as (Hb & F & k & t0 & t1 & t2 & w5 & w6 & Hwait & Hafter).
  split; [exact Hb|].
  apply wait_until_running_true_inv in Hwait as (F' & w8 & w9 & c & Hc8 & Hchecks & Hc6).
  pose proof (run_start_checks_true_handle _ _ _ _ _ _ _ Hc8 Hchecks) as Hc9.
  pose proof (run_callbacks_container (after_start_callbacks self) w6) as Hc.
  rewrite Hafter in Hc. simpl in Hc.
  destruct (w_container w') as [c'|] eqn:Hc'; [eauto|]. congruence.
Qed.

(** X1: [start] never returns False: it returns True or raises, and when it
    returns, the controller holds a handle, so that [is_running], [run] and
    [__enter__] find one. *)
Theorem start_returns_true_with_handle fuel self a t (w : World E) b w' :
  start rt fuel self a t w = (Return b, w') ->
  b = true /\ exists c, w_container w' = Some c.
Proof. exact (start_Return_handle fuel self a t w b w'). Qed.

(** *** Ports that never accept a connection *)

Lemma check_ports_loop_port_closed p :
  (forall ps e a e', rt_connectable_ports rt ps e = (Gives a, e') -> p ∉ a) ->
  forall fuel t2 t0 pending (w w' : World E),
    p ∈ pending ->
    check_ports_loop rt fuel t2 t0 pending w <> (Return true, w').
Proof.
  intros Hclosed.
  induction fuel as [|fuel IH]; intros t2 t0 pending w w' Hp H; [discriminate|].
  cbn [check_ports_loop] in H.
  apply bind_Return_inv in H as (now & w0 & Hnow & H).
  destruct (now <=? t2).
  - apply bind_Return_inv in H as (running & w1 & Hrun & H).
    destruct running; cbn [negb] in H.
    + destruct (no_ports pending) eqn:Hnp.
      * apply bool_decide_eq_true in Hnp. set_solver.
      * apply bind_Return_inv in H as (conn & w2 & Hprobe & H).
        apply extern_Return_inv in Hprobe as (e' & Hg & ->).
        specialize (Hclosed _ _ _ _ Hg).
        eapply IH; [|exact H]. set_solver.
    + apply bind_Return_inv in H as ([] & w2 & _ & H). discriminate.
  - apply bind_Return_inv in H as (now' & w1 & _ & H).
    apply bind_Return_inv in H as ([] & w2 & _ & H). discriminate.
Qed.

(** X2: when one of the ports to check is never reported connectable,
    [start] never returns, whatever the arguments and however long it runs:
    it raises, or is still polling. *)
Theorem closed_port_start_never_returns self p fuel a t (w : World E) b :
  In p (get_check_ports self) ->
  (forall ps e a e', rt_connectable_ports rt ps e = (Gives a, e') -> p ∉ a) ->
  fst (start rt fuel self a t w) <> Return b.
Proof.
  intros Hin Hclosed Hret.
  destruct (start rt fuel self a t w) as [o w'] eqn:Hs. simpl in Hret. subst o.
  apply start_Return_inv in Hs as (_ & F & k & t0 & t1 & t2 & w5 & w6 & Hwait & _).
  apply wait_until_running_true_inv in Hwait as (F' & w8 & w9 & c & _ & Hchecks & _).
  assert (Hp : p ∈ (list_to_set (get_check_ports self) : gset Z)).
  { apply elem_of_list_to_set. apply list_elem_of_In. exact Hin. }
  unfold run_start_checks in Hchecks.
  destruct (no_ports _) eqn:Hnp.
  - apply bool_decide_eq_true in Hnp. set_solver.
  - apply bind_Return_inv in Hchecks as (now & w0 & _ & H).
    eapply check_ports_loop_port_closed; eauto.
Qed.

(** *** The exit hook *)

Lemma exit_hook_registered_no_register d :
  forall r,
    Forall (fun ev => ev <> EvAtexitRegister) d ->
    exit_hook_registered r d = if existsb is_unregister d then false else r.
Proof.
  induction d as [|ev d IH]; intros r Hd; [reflexivity|].
  inversion Hd as [|? ? Hev Hd']; subst.
  destruct ev; simpl; try (apply IH; assumption).
  - congruence.
  - rewrite IH by assumption. destruct (existsb is_unregister d); reflexivity.
Qed.

(** X3: [start] registers [terminate] with [atexit] once, as its first
    action, and never again; every [terminate] it calls (after a timed-out
    attempt, a failed ping, or when the attempts are used up) unregisters
    it.  So at the end of [start], also of one that returns True, the exit
    hook is registered exactly when no teardown took place during the
    call. *)
Theorem exit_hook_after_start fuel self a t (w : World E) o w' d :
  start rt fuel self a t w = (o, w') ->
  w_trace w' = w_trace w ++ d ->
  (exists d', d = EvAtexitRegister :: d' /\
              Forall (fun ev => ev <> EvAtexitRegister) d') /\
  forall registered,
    exit_hook_registered registered d = negb (existsb is_unregister d).
Proof.
  intros Hs Ht.
  assert (Hd : exists d', d = EvAtexitRegister :: d' /\
                          Forall (fun ev => ev <> EvAtexitRegister) d').
  { unfold start in Hs.
    match type of Hs with
    | bind (emit EvAtexitRegister) ?K w = _ =>
        destruct (emits_after (fun ev => ev <> EvAtexitRegister)
                    (emit EvAtexitRegister) K w) as (d0 & Hd0 & HF)
    end.
    - intros _. cbv zeta.
      apply emits_bind; [apply emits_run_callbacks; intros ev H ->; discriminate|intros _].
      apply emits_bind; [apply emits_client_connectable; intros ?; discriminate|intros c].
      apply emits_start_after_ping;
        try (intros _); intros ev H ->; discriminate.
    - rewrite Hs in Hd0. simpl in Hd0. rewrite Ht, <- app_assoc in Hd0.
      apply app_inv_head in Hd0. exists d0. split; [exact Hd0|exact HF]. }
  split; [exact Hd|].
  destruct Hd as (d' & -> & HF). intros registered. simpl.
  rewrite exit_hook_registered_no_register by exact HF.
  destruct (existsb is_unregister d'); reflexivity.
Qed.


(** *** Hook failures that are not handled *)

Lemma format_callback_unformattable callback args kwargs :
  formattable (callback, args, kwargs) = false ->
  exists msg, forall w : World E,
    _format_callback callback args kwargs w =
      (Raises (PyExc (match cb_name callback with
                      | Some _ => TypeError
                      | None => AttributeError
                      end) msg), w).
Proof.
  unfold formattable, _format_callback. intros H.
  destruct (cb_name callback) as [nm|]; [|eexists; intros w; reflexivity].
  destruct args as [|a args']; [discriminate|].
  destruct (str_items (a :: args')) as [items|]; [discriminate|].
  eexists. intros w. reflexivity.
Qed.

Lemma run_callbacks_unhandled callback args kwargs rest k msg :
  is_Exception k && formattable (callback, args, kwargs) = false ->
  exists exc,
    (is_Exception k = false -> exc = PyExc k msg) /\
    (is_Exception k = true ->
     exists msg', exc = PyExc (match cb_name callback with
                               | Some _ => TypeError
                               | None => AttributeError
                               end) msg') /\
    forall (w : World E) e',
      rt_call rt callback args kwargs (w_env w) = (Throws k msg, e') ->
      run_callbacks rt ((callback, args, kwargs) :: rest) w =
        (Raises exc, record_event rt (EvCall callback args kwargs) w e' 0).
Proof.
  intros H. destruct (is_Exception k) eqn:Hk; simpl in H.
  - destruct (format_callback_unformattable callback args kwargs H) as [msg' Hf].
    eexists. split_and!; [discriminate|intros _; eexists; reflexivity|].
    intros w e' Hcall. simpl. unfold bind at 1. unfold try_except, extern.
    rewrite Hcall. simpl. rewrite Hk. unfold bind at 1. rewrite Hf. reflexivity.
  - exists (PyExc k msg). split_and!; [reflexivity|discriminate|].
    intros w e' Hcall. simpl. unfold bind at 1. unfold try_except, extern.
    rewrite Hcall. simpl. rewrite Hk. reflexivity.
Qed.

(** X5: a hook failure that the handler does not take care of stops the
    sequence at once.  When a callback raises an exception that is not an
    [Exception] ([KeyboardInterrupt], [SystemExit]), that exception leaves
    the loop; when it raises an [Exception] and its description cannot be
    built (a callable without [__name__]: [AttributeError]; a positional
    argument that is not a [str]: [TypeError]), the error of the description
    leaves the loop instead.  Either way nothing is logged and the remaining
    callbacks are not invoked; in [terminate], a before-terminate hook that
    fails so ends the call before the container is looked up: the handle is
    kept and nothing is removed. *)
Theorem unhandled_hook_failure_aborts callback args kwargs rest (w : World E) k msg e' :
  rt_call rt callback args kwargs (w_env w) = (Throws k msg, e') ->
  is_Exception k && formattable (callback, args, kwargs) = false ->
  exists exc,
    run_callbacks rt ((callback, args, kwargs) :: rest) w =
      (Raises exc, record_event rt (EvCall callback args kwargs) w e' 0) /\
    (is_Exception k = false -> exc = PyExc k msg) /\
    (is_Exception k = true ->
     exists msg', exc = PyExc (match cb_name callback with
                               | Some _ => TypeError
                               | None => AttributeError
                               end) msg') /\
    forall self,
      before_terminate_callbacks self = (callback, args, kwargs) :: rest ->
      terminate rt self w =
        (Raises exc,
         record_event rt (EvCall callback args kwargs)
           (snd (emit EvAtexitUnregister w)) e' 0).
Proof.
  intros Hcall Hun.
  destruct (run_callbacks_unhandled callback args kwargs rest k msg Hun)
    as (exc & Hbase & Hexc & Hrun).
  exists exc. split_and!; auto.
  intros self Hcbs. unfold terminate.
  unfold bind at 1. unfold emit at 1.
  unfold bind at 1. rewrite Hcbs.
  rewrite (Hrun _ e') by exact Hcall. reflexivity.
Qed.

(** *** terminate with a handle *)

Lemma capture_with_handle (w : World E) handle container l st e1 e2 e3 :
  w_container w = Some handle ->
  rt_get rt (cid handle) (w_env w) = (Gives container, e1) ->
  rt_logs rt container true true false e1 = (Gives l, e2) ->
  logs_decodable rt l = true ->
  rt_status rt container e2 = (Gives st, e3) ->
  (is_status_running st = true ->
   exists e4 e5, rt_remove rt container true e3 = (Gives tt, e4) /\
                 rt_wait rt container e4 = (Gives tt, e5)) ->
  exists w',
    terminate_capture_and_remove rt w = (Return (captured rt l), w') /\
    w_container w' = None /\
    w_trace w' = w_trace w ++
      [EvContainersGet (cid handle); EvLogs container true true false;
       EvLog WARNING (LogRunningContainerLogs (fst (captured rt l)) (snd (captured rt l)));
       EvStatus container] ++
      (if is_status_running st then [EvRemove container true; EvWait container] else []).
Proof.
  intros Hc Hg Hl Hdec Hst Hrm.
  unfold terminate_capture_and_remove, py_decode, bind_unless_NotFound, bind,
    get_container, status, extern, log, emit, set_container, ret, raise.
  rewrite Hc, Hg. cbn [w_env record_event]. rewrite Hl.
  destruct l as [b|b0 b1]; simpl in Hdec; cbn [captured fst snd].
  - destruct (rt_decode rt b) as [s|]; [|discriminate].
    cbn [w_env record_event]. rewrite Hst.
    destruct (is_status_running st).
    + destruct (Hrm eq_refl) as (e4 & e5 & Hre & Hwa).
      cbn [w_env record_event]. rewrite Hre. cbn [w_env record_event]. rewrite Hwa.
      eexists. split_and!; [reflexivity|reflexivity|].
      cbn [w_trace record_event]. rewrite <- !app_assoc. reflexivity.
    + eexists. split_and!; [reflexivity|reflexivity|].
      cbn [w_trace record_event]. rewrite <- !app_assoc. reflexivity.
  - destruct (rt_decode rt b0) as [s0|]; [|discriminate].
    destruct (rt_decode rt b1) as [s1|]; [|discriminate].
    cbn [w_env record_event]. rewrite Hst.
    destruct (is_status_running st).
    + destruct (Hrm eq_refl) as (e4 & e5 & Hre & Hwa).
      cbn [w_env record_event]. rewrite Hre. cbn [w_env record_event]. rewrite Hwa.
      eexists. split_and!; [reflexivity|reflexivity|].
      cbn [w_trace record_event]. rewrite <- !app_assoc. reflexivity.
    + eexists. split_and!; [reflexivity|reflexivity|].
      cbn [w_trace record_event]. rewrite <- !app_assoc. reflexivity.
Qed.

Lemma terminate_answered self (w : World E) handle container l st e1 e2 e3 :
  Forall (handled rt) (before_terminate_callbacks self) ->
  Forall (handled rt) (after_terminate_callbacks self) ->
  w_container w = Some handle ->
  rt_get rt (cid handle)
    (snd (hooks_outcome rt (before_terminate_callbacks self) (w_env w)))
    = (Gives container, e1) ->
  rt_logs rt container true true false e1 = (Gives l, e2) ->
  logs_decodable rt l = true ->
  rt_status rt container e2 = (Gives st, e3) ->
  (is_status_running st = true ->
   exists e4 e5, rt_remove rt container true e3 = (Gives tt, e4) /\
                 rt_wait rt container e4 = (Gives tt, e5)) ->
  exists w' d1 d3,
    terminate rt self w =
      (Return {| exitcode := Some 0; stdout := fst (captured rt l);
                 stderr := snd (captured rt l); cmdline := None |}, w') /\
    w_container w' = None /\
    w_trace w' = w_trace w ++ EvAtexitUnregister :: d1 ++
      [EvContainersGet (cid handle); EvLogs container true true false;
       EvLog WARNING (LogRunningContainerLogs (fst (captured rt l)) (snd (captured rt l)));
       EvStatus container] ++
      (if is_status_running st then [EvRemove container true; EvWait container] else [])
      ++ d3 /\
    calls_made d1 = before_terminate_callbacks self /\
    Forall (fun ev => hook_event ev = true) d1 /\
    calls_made d3 = after_terminate_callbacks self /\
    Forall (fun ev => hook_event ev = true) d3.
Proof.
  intros Hb Ha Hc Hg Hl Hdec Hst Hrm.
  destruct (run_callbacks_handled _ Hb (snd (emit EvAtexitUnregister w)))
    as (w1 & d1 & Hrun1 & Hc1 & _ & He1 & Ht1 & Hd1 & Hcalls1 & _).
  simpl in Hrun1, Hc1, He1, Ht1.
  rewrite <- He1 in Hg. rewrite Hc in Hc1.
  destruct (capture_with_handle w1 handle container l st e1 e2 e3 Hc1 Hg Hl Hdec Hst Hrm)
    as (w2 & Hstep & Hc2 & Ht2).
  destruct (run_callbacks_handled _ Ha w2)
    as (w3 & d3 & Hrun3 & Hc3 & _ & _ & Ht3 & Hd3 & Hcalls3 & _).
  exists w3, d1, d3. split_and!; auto.
  - unfold terminate. unfold bind at 1. unfold emit at 1.
    rewrite (bind_Return _ _ _ _ _ Hrun1).
    unfold bind, finally. rewrite Hstep, Hrun3.
    destruct (captured rt l) as [out err]. reflexivity.
  - congruence.
  - rewrite Ht3, Ht2, Ht1, <- !app_assoc. reflexivity.
Qed.

(** C3: terminate is idempotent, when its hooks are handled.  On a
    controller without a handle, [terminate] returns the empty result (exit
    code 0, no stdout, no stderr), leaves the handle absent, and does
    nothing but unregister the exit hook and run the before-terminate and
    then the after-terminate callbacks: no call reaches the backend.  Hence
    a second consecutive call returns the empty result again; and so does
    the call that follows a [terminate] which found the container, captured
    its logs and dropped the handle. *)
Theorem terminate_idempotent self (w : World E) :
  Forall (handled rt) (before_terminate_callbacks self) ->
  Forall (handled rt) (after_terminate_callbacks self) ->
  (w_container w = None ->
   exists w' d,
     terminate rt self w = (Return empty_result, w') /\
     w_container w' = None /\
     w_trace w' = w_trace w ++ EvAtexitUnregister :: d /\
     Forall (fun ev => hook_event ev = true /\ backend_event ev = false) d /\
     calls_made d = before_terminate_callbacks self ++ after_terminate_callbacks self /\
     exists w'', terminate rt self w' = (Return empty_result, w'') /\
                 w_container w'' = None) /\
  (forall handle container l st e1 e2 e3,
      w_container w = Some handle ->
      rt_get rt (cid handle)
        (snd (hooks_outcome rt (before_terminate_callbacks self) (w_env w)))
        = (Gives container, e1) ->
      rt_logs rt container true true false e1 = (Gives l, e2) ->
      logs_decodable rt l = true ->
      rt_status rt container e2 = (Gives st, e3) ->
      (is_status_running st = true ->
       exists e4 e5, rt_remove rt container true e3 = (Gives tt, e4) /\
                     rt_wait rt container e4 = (Gives tt, e5)) ->
      exists result w' w'' d,
        terminate rt self w = (Return result, w') /\
        exitcode result = Some 0 /\
        w_container w' = None /\
        terminate rt self w' = (Return empty_result, w'') /\
        w_container w'' = None /\
        w_trace w'' = w_trace w' ++ EvAtexitUnregister :: d /\
        Forall (fun ev => hook_event ev = true /\ backend_event ev = false) d /\
        calls_made d =
          before_terminate_callbacks self ++ after_terminate_callbacks self).
Proof.
  intros Hb Ha.
  assert (Hquiet : forall d,
             Forall (fun ev => hook_event ev = true) d ->
             Forall (fun ev => hook_event ev = true /\ backend_event ev = false) d).
  { intros d Hd. eapply Forall_impl; [exact Hd|]. intros ev Hev. split; [done|].
    destruct ev; try discriminate; reflexivity. }
  split.
  - intros Hc.
    destruct (terminate_no_handle self w Hc Hb Ha) as (w' & d & Ht & Hc' & Htr & Hd & Hcalls).
    exists w', d. split_and!; auto.
    destruct (terminate_no_handle self w' Hc' Hb Ha) as (w'' & d' & Ht' & Hc'' & _).
    exists w''. auto.
  - intros handle container l st e1 e2 e3 Hc Hg Hl Hdec Hst Hrm.
    destruct (terminate_answered self w handle container l st e1 e2 e3
                Hb Ha Hc Hg Hl Hdec Hst Hrm)
      as (w' & d1 & d3 & Hterm & Hc' & _).
    destruct (terminate_no_handle self w' Hc' Hb Ha)
      as (w'' & d & Ht' & Hc'' & Htr & Hd & Hcalls).
    eexists _, w', w'', d. split_and!; eauto.
Qed.

(** X6: [terminate] on a controller that holds a handle, with handled hooks
    and a backend that answers: the container is looked up by the id of the
    handle, its logs are read and decoded (into stdout when the backend
    gives bytes, into stdout and stderr when it gives a pair) and logged,
    its status is read, and only when that status is "running" it is
    force-removed and waited for; then the handle is dropped.  The result
    has exit code 0 and the captured streams, and all of this happens
    between the before-terminate and the after-terminate callbacks. *)
Theorem terminate_with_handle self (w : World E) handle container l st e1 e2 e3 :
  Forall (handled rt) (before_terminate_callbacks self) ->
  Forall (handled rt) (after_terminate_callbacks self) ->
  w_container w = Some handle ->
  rt_get rt (cid handle)
    (snd (hooks_outcome rt (before_terminate_callbacks self) (w_env w)))
    = (Gives container, e1) ->
  rt_logs rt container true true false e1 = (Gives l, e2) ->
  logs_decodable rt l = true ->
  rt_status rt container e2 = (Gives st, e3) ->
  (is_status_running st = true ->
   exists e4 e5, rt_remove rt container true e3 = (Gives tt, e4) /\
                 rt_wait rt container e4 = (Gives tt, e5)) ->
  exists w' d1 d3,
    terminate rt self w =
      (Return {| exitcode := Some 0; stdout := fst (captured rt l);
                 stderr := snd (captured rt l); cmdline := None |}, w') /\
    w_container w' = None /\
    w_trace w' = w_trace w ++ EvAtexitUnregister :: d1 ++
      [EvContainersGet (cid handle); EvLogs container true true false;
       EvLog WARNING (LogRunningContainerLogs (fst (captured rt l)) (snd (captured rt l)));
       EvStatus container] ++
      (if is_status_running st then [EvRemove container true; EvWait container] else [])
      ++ d3 /\
    calls_made d1 = before_terminate_callbacks self /\
    Forall (fun ev => hook_event ev = true) d1 /\
    calls_made d3 = after_terminate_callbacks self /\
    Forall (fun ev => hook_event ev = true) d3.
Proof. exact (terminate_answered self w handle container l st e1 e2 e3). Qed.

Lemma trace_after_finally {A} (P : Event -> Prop) (m : M E A) (f : M E unit)
    (w : World E) :
  emits P f ->
  exists d, w_trace (snd (finally m f w)) = w_trace (snd (m w)) ++ d.
Proof.
  intros Hf. unfold finally.
  destruct (m w) as [[a|e|] w1]; simpl;
    try solve [destruct (Hf w1) as (d & Hd & _);
               destruct (f w1) as [[[]|e2|] w2]; simpl in *; eauto].
  exists []. rewrite app_nil_r. reflexivity.
Qed.

Lemma trace_after_unless_NotFound {A L} (P : Event -> Prop) (l : L) (m : M E A)
    (k : A -> M E L) (w : World E) :
  (forall a, emits P (k a)) ->
  exists d, w_trace (snd (bind_unless_NotFound l m k w)) = w_trace (snd (m w)) ++ d.
Proof.
  intros Hk. unfold bind_unless_NotFound.
  destruct (m w) as [[a|e|] w1]; simpl.
  - destruct (Hk a w1) as (d & Hd & _). eauto.
  - destruct (exc_is_NotFound e); exists []; rewrite app_nil_r; reflexivity.
  - exists []. rewrite app_nil_r. reflexivity.
Qed.

Lemma extern_trace {A} ev (f : E -> Reply A * E) (w : World E) :
  w_trace (snd (extern rt ev f w)) = w_trace w ++ [ev].
Proof. unfold extern. destruct (f (w_env w)) as [[a|k msg] e']; reflexivity. Qed.

(** With a handle in place, [terminate] looks the container up right after
    its before-terminate hooks. *)
Lemma terminate_looks_up self (w : World E) handle :
  Forall (handled rt) (before_terminate_callbacks self) ->
  w_container w = Some handle ->
  exists d1 d2,
    w_trace (snd (terminate rt self w)) =
      w_trace w ++ EvAtexitUnregister :: d1 ++ EvContainersGet (cid handle) :: d2 /\
    Forall (fun ev => hook_event ev = true) d1.
Proof.
  intros Hb Hc.
  destruct (run_callbacks_handled _ Hb (snd (emit EvAtexitUnregister w)))
    as (w1 & d1 & Hrun1 & Hc1 & _ & _ & Ht1 & Hd1 & _).
  simpl in Hrun1, Hc1, Ht1. rewrite Hc in Hc1.
  assert (Hstep : exists d2,
             w_trace (snd (terminate_capture_and_remove rt w1)) =
               w_trace w1 ++ EvContainersGet (cid handle) :: d2).
  { unfold terminate_capture_and_remove. unfold bind at 1. unfold get_container at 1.
    rewrite Hc1.
    match goal with
    | |- context [bind_unless_NotFound ?l ?m ?k w1] =>
        destruct (trace_after_unless_NotFound (fun _ => True) l m k w1) as (d2 & Hd2)
    end.
    - intros container.
      repeat (emits_step; try apply emits_py_decode; try apply emits_status; auto).
    - exists d2. rewrite Hd2, extern_trace, <- app_assoc. reflexivity. }
  destruct Hstep as (d2 & Hd2).
  destruct (trace_after_finally (fun _ => True) (terminate_capture_and_remove rt)
              (run_callbacks rt (after_terminate_callbacks self)) w1) as (d3 & Hd3).
  { apply emits_run_callbacks. auto. }
  exists d1, (d2 ++ d3). split; [|exact Hd1].
  unfold terminate. unfold bind at 1. unfold emit at 1.
  rewrite (bind_Return _ _ _ _ _ Hrun1).
  unfold bind.
  destruct (finally (terminate_capture_and_remove rt)
              (run_callbacks rt (after_terminate_callbacks self)) w1)
    as [[[out err]|e|] w3]; simpl in *;
    rewrite Hd3, Hd2, Ht1, <- !app_assoc; reflexivity.
Qed.

(** X7: when the lookup of the container answers [NotFound] (it is already
    gone), [terminate] returns the empty result as if nothing had happened,
    but the handle is not dropped: the assignment that drops it belongs to
    the part of the [try] block that was skipped.  So, unlike a [terminate]
    without a handle, the next [terminate] asks the backend for the
    container again. *)
Theorem terminate_NotFound_keeps_handle self (w : World E) handle msg e1 :
  Forall (handled rt) (before_terminate_callbacks self) ->
  Forall (handled rt) (after_terminate_callbacks self) ->
  w_container w = Some handle ->
  rt_get rt (cid handle)
    (snd (hooks_outcome rt (before_terminate_callbacks self) (w_env w)))
    = (Throws NotFound msg, e1) ->
  exists w' d1 d3,
    terminate rt self w = (Return empty_result, w') /\
    w_container w' = Some handle /\
    w_trace w' =
      w_trace w ++ EvAtexitUnregister :: d1 ++ [EvContainersGet (cid handle)] ++ d3 /\
    Forall (fun ev => hook_event ev = true) d1 /\
    Forall (fun ev => hook_event ev = true) d3 /\
    exists d1' d2',
      w_trace (snd (terminate rt self w')) =
        w_trace w' ++ EvAtexitUnregister :: d1' ++ EvContainersGet (cid handle) :: d2' /\
      Forall (fun ev => hook_event ev = true) d1'.
Proof.
  intros Hb Ha Hc Hg.
  destruct (run_callbacks_handled _ Hb (snd (emit EvAtexitUnregister w)))
    as (w1 & d1 & Hrun1 & Hc1 & _ & He1 & Ht1 & Hd1 & _).
  simpl in Hrun1, Hc1, He1, Ht1.
  rewrite <- He1 in Hg. rewrite Hc in Hc1.
  assert (Hstep : terminate_capture_and_remove rt w1 =
                    (Return (None, None),
                     record_event rt (EvContainersGet (cid handle)) w1 e1 0)).
  { unfold terminate_capture_and_remove. unfold bind at 1. unfold get_container at 1.
    rewrite Hc1. unfold bind_unless_NotFound at 1.
    rewrite (extern_Throws _ _ _ _ _ _ Hg). reflexivity. }
  destruct (run_callbacks_handled _ Ha
              (record_event rt (EvContainersGet (cid handle)) w1 e1 0))
    as (w3 & d3 & Hrun3 & Hc3 & _ & _ & Ht3 & Hd3 & _).
  simpl in Hc3, Ht3.
  assert (Hc' : w_container w3 = Some handle) by congruence.
  exists w3, d1, d3. split_and!; auto.
  - unfold terminate. unfold bind at 1. unfold emit at 1.
    rewrite (bind_Return _ _ _ _ _ Hrun1).
    unfold bind, finally. rewrite Hstep, Hrun3. reflexivity.
  - rewrite Ht3, Ht1, <- !app_assoc. reflexivity.
  - exact (terminate_looks_up self w3 handle Hb Hc').
Qed.


(** *** The readiness check with ports *)



(** X9: finding the last port connectable does not end the readiness check:
    the loop first reads the clock again.  When the deadline has passed
    during the probe that found every pending port connectable, the check
    logs "Failed to check ports" and answers False. *)
Theorem ports_connected_after_deadline fuel t2 t0 pending (w : World E) c st e1 conn e2 :
  w_container w = Some c ->
  w_now w <= t2 ->
  rt_status rt c (w_env w) = (Gives st, e1) ->
  is_status_running st = true ->
  pending <> ∅ ->
  rt_connectable_ports rt pending e1 = (Gives conn, e2) ->
  pending ⊆ conn ->
  t2 < w_now (record_event rt (EvGetConnectablePorts pending)
                (record_event rt (EvStatus c) w e1 0) e2 0) ->
  exists w',
    check_ports_loop rt (S (S fuel)) t2 t0 pending w = (Return false, w') /\
    w_trace w' = w_trace w ++
      [EvStatus c; EvGetConnectablePorts pending;
       EvLog ERROR (LogFailedToCheckPorts (w_now w' - t0))].
Proof.
  intros Hc Hnow Hst Hrun Hne Hprobe Hall Hlate.
  cbn [check_ports_loop].
  unfold bind at 1. unfold time_time at 1.
  destruct (Z.leb_spec (w_now w) t2) as [_|Hlt]; [|lia].
  rewrite (bind_Return _ _ _ _ _ (is_running_Gives _ _ _ _ Hc Hst)).
  rewrite Hrun. cbn [negb].
  destruct (no_ports pending) eqn:Hnp;
    [apply bool_decide_eq_true in Hnp; contradiction|].
  set (w1 := record_event rt (EvStatus c) w e1 0) in *.
  assert (Hp : rt_connectable_ports rt pending (w_env w1) = (Gives conn, e2))
    by exact Hprobe.
  rewrite (bind_Return _ _ _ _ _ (extern_Gives _ _ _ _ _ Hp)).
  set (w2 := record_event rt (EvGetConnectablePorts pending) w1 e2 0) in *.
  unfold bind at 1. unfold time_time at 1.
  destruct (Z.leb_spec (w_now w2) t2) as [Hle|_]; [lia|].
  unfold bind, time_time, log, emit, ret.
  eexists. split; [reflexivity|].
  subst w2 w1. cbn [w_trace w_now record_event]. rewrite <- !app_assoc. reflexivity.
Qed.

(** *** A negative attempt count *)

(** X10: with a negative attempt count in force the attempt loop is not
    entered: [start] runs its before-start hooks and the ping, requests no
    container, calls [terminate], and raises [FactoryNotStarted] reporting
    -1 attempts, whatever the negative count was. *)
Theorem negative_attempt_count_no_attempt fuel self a t (w : World E) e2 :
  py_or a (max_start_attempts self) < 0 ->
  Forall (handled rt) (before_start_callbacks self) ->
  Forall (handled rt) (before_terminate_callbacks self) ->
  Forall (handled rt) (after_terminate_callbacks self) ->
  w_container w = None ->
  rt_ping rt (snd (hooks_outcome rt (before_start_callbacks self) (w_env w)))
    = (Gives true, e2) ->
  exists info w' d,
    start rt fuel self a t w = (Raises (FactoryNotStarted info), w') /\
    ns_attempts info = -1 /\
    w_trace w' = w_trace w ++ d /\
    attempts_logged d = [] /\
    runs_requested d = 0%nat.
Proof.
  intros Hn Hbs Hbt Hat Hc Hping.
  destruct (run_callbacks_handled _ Hbs (snd (emit EvAtexitRegister w)))
    as (w1 & d1 & Hrun1 & Hc1 & _ & He1 & Ht1 & Hd1 & _).
  simpl in Hrun1, Hc1, He1, Ht1. rewrite <- He1 in Hping.
  unfold start.
  unfold bind at 1. unfold emit at 1. unfold bind at 1. rewrite Hrun1.
  unfold bind at 1. rewrite client_connectable_spec, Hping.
  set (w2 := record_event rt EvPing w1 e2 0).
  unfold bind at 1. unfold ret at 1. unfold bind at 1. unfold time_time at 1.
  cbv zeta.
  assert (Hloop : attempts_loop rt fuel self (py_or t (start_timeout self)) (w_now w2)
                    (py_or a (max_start_attempts self)) 0 false w2
                  = (Return (false, 0), w2)).
  { destruct fuel; cbn [attempts_loop];
      destruct (Z.leb_spec 0 (py_or a (max_start_attempts self))); try lia; reflexivity. }
  unfold bind at 1. rewrite Hloop.
  assert (Hc2 : w_container w2 = None) by (simpl; congruence).
  destruct (terminate_no_handle self w2 Hc2 Hbt Hat) as (w4 & d4 & Hterm & _ & Ht4 & Hd4 & _).
  unfold bind at 1. rewrite Hterm. unfold bind, time_time, raise.
  assert (Hq : Forall quiet ([EvAtexitRegister] ++ d1 ++ [EvPing] ++
                             [EvAtexitUnregister] ++ d4)).
  { repeat (apply Forall_app; split);
      try (eapply Forall_impl; [eassumption|]; apply hook_event_quiet);
      repeat constructor. }
  apply quiet_events in Hq as [Hq1 Hq2].
  eexists _, w4, _. split_and!; [reflexivity|reflexivity| |exact Hq1|exact Hq2].
  rewrite Ht4. subst w2. cbn [w_trace record_event]. rewrite Ht1, <- !app_assoc.
  reflexivity.
Qed.

(** *** run without a handle, or with output that is not text *)

(** X11: how [run] fails.  Without a handle it logs the command and raises
    [AttributeError], and no exec request is sent.  With a handle, an
    exception of the exec request leaves [run] as it is; and when a stream
    of the answer cannot be decoded, [run] raises [UnicodeDecodeError] after
    the command was executed, so that its exit code and output are lost. *)
Theorem run_failures (cmd : list CmdArg) (kwargs : Kwargs) (w : World E) :
  (w_container w = None ->
   run rt cmd kwargs w =
     (Raises (PyExc AttributeError "'NoneType' object has no attribute 'exec_run'"),
      snd (log INFO (LogIsRunningCmd (cmdline_of cmd)) w))) /\
  (forall c k msg e',
      w_container w = Some c ->
      has_key "demux" kwargs = false ->
      rt_exec_run rt c (cmdline_of cmd) true kwargs (w_env w) = (Throws k msg, e') ->
      exists w',
        run rt cmd kwargs w = (Raises (PyExc k msg), w') /\
        w_trace w' = w_trace w ++ [EvLog INFO (LogIsRunningCmd (cmdline_of cmd));
                                   EvExecRun c (cmdline_of cmd) true kwargs]) /\
  (forall c r e',
      w_container w = Some c ->
      has_key "demux" kwargs = false ->
      rt_exec_run rt c (cmdline_of cmd) true kwargs (w_env w) = (Gives r, e') ->
      decodable rt (fst (exec_streams r)) && decodable rt (snd (exec_streams r)) = false ->
      exists w',
        run rt cmd kwargs w =
          (Raises (PyExc UnicodeDecodeError "can't decode bytes"), w') /\
        w_trace w' = w_trace w ++ [EvLog INFO (LogIsRunningCmd (cmdline_of cmd));
                                   EvExecRun c (cmdline_of cmd) true kwargs]).
Proof.
  split_and!.
  - intros Hc. unfold run.
    unfold bind at 1. unfold log, emit. unfold bind at 1. unfold get_container. simpl.
    rewrite Hc. reflexivity.
  - intros c k msg e' Hc Hk Hex. unfold run.
    unfold bind at 1. unfold log, emit. unfold bind at 1. unfold get_container. simpl.
    rewrite Hc. unfold bind at 1. unfold check_keywords. simpl.
    rewrite Hk. simpl. unfold bind at 1. unfold extern. simpl. rewrite Hex.
    eexists. split; [reflexivity|]. simpl. rewrite <- app_assoc. reflexivity.
  - intros c r e' Hc Hk Hex Hdec. unfold run.
    unfold bind at 1. unfold log, emit. unfold bind at 1. unfold get_container. simpl.
    rewrite Hc. unfold bind at 1. unfold check_keywords. simpl.
    rewrite Hk. simpl. unfold bind at 1. unfold extern. simpl. rewrite Hex.
    revert Hdec.
    destruct (exec_streams r) as [[bo|] [be|]]; simpl;
      unfold decodable, decode_present, py_decode, bind, ret, raise; simpl;
      repeat match goal with
             | |- context [rt_decode rt ?b] => destruct (rt_decode rt b)
             end;
      intros; try discriminate;
      eexists; (split; [reflexivity|]); simpl; rewrite <- app_assoc; reflexivity.
Qed.

(** *** Scoped use *)

(** X12: the round trip of [with factory.started() as f: ...] on a ready
    runtime.  [started] returns the controller, [__enter__] finds it
    running and returns it too, and [__exit__] force-removes the container,
    drops the handle and returns a result with exit code 0. *)
Theorem started_enter_exit_round_trip fuel self a t (w : World E) :
  Forall (handled rt) (before_start_callbacks self) ->
  Forall (handled rt) (after_start_callbacks self) ->
  Forall (handled rt) (before_terminate_callbacks self) ->
  Forall (handled rt) (after_terminate_callbacks self) ->
  runtime_ready rt self (py_or t (start_timeout self)) ->
  get_check_ports self = [] ->
  0 <= py_or a (max_start_attempts self) ->
  (forall c e, exists l,
      fst (rt_logs rt c true true false e) = Gives l /\ logs_decodable rt l = true) ->
  (forall c e, fst (rt_remove rt c true e) = Gives tt) ->
  (forall c e, fst (rt_wait rt c e) = Gives tt) ->
  exists w1 w2 w3 result,
    started rt (S (S fuel)) self a t w = (Return self, w1) /\
    __enter__ rt self w1 = (Return self, w2) /\
    __exit__ rt self w2 = (Return result, w3) /\
    exitcode result = Some 0 /\
    w_container w3 = None /\
    exists d container, w_trace w3 = w_trace w2 ++ d /\ In (EvRemove container true) d.
Proof.
  intros Hbs Has Hbt Hat Hready Hports Hn Hlogs Hremove Hwait.
  destruct (start_succeeds_when_running fuel self a t w Hbs Has Hready Hports Hn)
    as (w1 & d0 & Hstart & _).
  destruct (start_Return_handle _ _ _ _ _ _ _ Hstart) as (_ & c & Hc1).
  destruct Hready as (_ & _ & _ & _ & Hget & Hstatus).
  pose proof (Hstatus c (w_env w1)) as Hs.
  destruct (rt_status rt c (w_env w1)) as [r e1] eqn:Hs'. simpl in Hs. subst r.
  set (w2 := record_event rt (EvStatus c) w1 e1 0).
  assert (Hc2 : w_container w2 = Some c) by exact Hc1.
  set (e0 := snd (hooks_outcome rt (before_terminate_callbacks self) (w_env w2))).
  destruct (Hget (cid c) e0) as [container Hg].
  destruct (rt_get rt (cid c) e0) as [r e3] eqn:Hg'. simpl in Hg. subst r.
  destruct (Hlogs container e3) as (l & Hl & Hdec).
  destruct (rt_logs rt container true true false e3) as [r e4] eqn:Hl'.
  simpl in Hl. subst r.
  pose proof (Hstatus container e4) as Hs2.
  destruct (rt_status rt container e4) as [r e5] eqn:Hs2'. simpl in Hs2. subst r.
  assert (Hrm : is_status_running "running" = true ->
                exists e6 e7, rt_remove rt container true e5 = (Gives tt, e6) /\
                              rt_wait rt container e6 = (Gives tt, e7)).
  { intros _.
    pose proof (Hremove container e5) as Hr.
    destruct (rt_remove rt container true e5) as [r e6] eqn:Hr'. simpl in Hr. subst r.
    pose proof (Hwait container e6) as Hw.
    destruct (rt_wait rt container e6) as [r e7] eqn:Hw'. simpl in Hw. subst r.
    exists e6, e7. split; [reflexivity|exact Hw']. }
  destruct (terminate_answered self w2 c container l "running" e3 e4 e5
              Hbt Hat Hc2 Hg' Hl' Hdec Hs2' Hrm)
    as (w3 & d1 & d3 & Hterm & Hc3 & Ht3 & _).
  exists w1, w2, w3. eexists. split_and!.
  - unfold started. rewrite (bind_Return _ _ _ _ _ Hstart). reflexivity.
  - unfold __enter__.
    rewrite (bind_Return _ _ _ _ _ (is_running_Gives _ _ _ _ Hc1 Hs')).
    reflexivity.
  - unfold __exit__. exact Hterm.
  - reflexivity.
  - exact Hc3.
  - eexists _, container. split; [exact Ht3|].
    change (is_status_running "running") with true.
    right. apply in_or_app. right. simpl. do 4 right. left. reflexivity.
Qed.

(** *** Registration *)



(** *** SaltDaemonContainerFactory *)





End Properties.

(** ** The properties at work on the scripted runtimes *)

Ltac demo_handled :=
  repeat first [apply List.Forall_nil | apply List.Forall_cons];
  let H := fresh "Hcall" in
  intros ? ? ? ? H; simpl in H; inversion H; subst; split; reflexivity.

Ltac demo_ready :=
  unfold runtime_ready; split_and!; intros; simpl;
  first [ reflexivity | eexists; reflexivity | vm_compute; discriminate
        | repeat match goal with
                 | |- context [match ?x with _ => _ end] => destruct x
                 end;
          reflexivity ].

(** C1 on the runtime that never reports "running": with two attempts in
    force, three attempts are logged and three containers requested. *)
Lemma attempt_loop_runs_N_plus_1_witness :
  exists d,
    w_trace (snd (start Demo.never_running 10 Demo.factory None None Demo.fresh)) =
      w_trace Demo.fresh ++ d /\
    attempts_logged d = [1; 2; 3] /\
    length (attempts_logged d) = 3%nat /\
    runs_requested d = 3%nat.
Proof.
  apply (attempt_loop_runs_N_plus_1 Demo.never_running 10 Demo.factory None None
           Demo.fresh
           {| ns_attempts := 2; ns_elapsed := 2250; ns_timeout := 500;
              ns_stdout := None; ns_stderr := None; ns_exitcode := Some 0 |}
           (snd (start Demo.never_running 10 Demo.factory None None Demo.fresh))).
  - vm_compute. reflexivity.
  - vm_compute. discriminate.
Defined.

(** C2 on the same runtime: [FactoryNotStarted] reports 2 attempts. *)
Lemma start_exhausted_raises_FactoryNotStarted_witness :
  fst (start Demo.never_running 10 Demo.factory None None Demo.fresh) =
    Raises (FactoryNotStarted
              {| ns_attempts := 2; ns_elapsed := 2250; ns_timeout := 500;
                 ns_stdout := None; ns_stderr := None; ns_exitcode := Some 0 |}).
Proof.
  edestruct (start_exhausted_raises_FactoryNotStarted Demo.never_running 10
               Demo.factory None None Demo.fresh) as (H & _).
  - vm_compute. reflexivity.
  - vm_compute. reflexivity.
  - vm_compute. reflexivity.
  - vm_compute. discriminate.
  - rewrite H. vm_compute. reflexivity.
Defined.

(** C3 on a controller that was never started. *)
Lemma terminate_idempotent_witness :
  exists w' d,
    terminate Demo.running_at_once Demo.factory Demo.fresh = (Return empty_result, w') /\
    w_container w' = None /\
    w_trace w' = w_trace Demo.fresh ++ EvAtexitUnregister :: d /\
    Forall (fun ev => hook_event ev = true /\ backend_event ev = false) d /\
    calls_made d =
      before_terminate_callbacks Demo.factory ++ after_terminate_callbacks Demo.factory /\
    exists w'', terminate Demo.running_at_once Demo.factory w' = (Return empty_result, w'') /\
                w_container w'' = None.
Proof.
  destruct (terminate_idempotent Demo.running_at_once Demo.factory Demo.fresh)
    as [H _].
  - demo_handled.
  - demo_handled.
  - apply H. reflexivity.
Defined.

(** C3 as stated fails: on a controller without a handle, a before-terminate
    callback that raises [KeyboardInterrupt] is not handled by
    [except Exception], and [terminate] raises it. *)
Lemma interrupting_hook_makes_terminate_raise :
  w_container Demo.fresh = None /\
  fst (terminate Demo.never_running Demo.factory_teardown_interrupted Demo.fresh)
  = Raises (PyExc KeyboardInterrupt "").
Proof. split; [reflexivity|vm_compute; reflexivity]. Qed.

(** C4 as stated fails: a before-start callback that raises
    [KeyboardInterrupt] is not handled by [except Exception]; the exception
    leaves [start], the callback registered after it is never invoked, and
    [start] does not succeed although the same runtime starts the factory
    that has no such hook. *)
Lemma interrupting_hook_aborts_start :
  fst (rt_call Demo.running_at_once Demo.interrupt [] [] 0%nat) =
    Throws KeyboardInterrupt "" /\
  fst (start Demo.running_at_once 5 Demo.factory_interrupted None None Demo.fresh) =
    Raises (PyExc KeyboardInterrupt "") /\
  calls_made
    (w_trace (snd (start Demo.running_at_once 5 Demo.factory_interrupted None None
                     Demo.fresh))) = [(Demo.interrupt, [], [])] /\
  fst (start Demo.running_at_once 5 Demo.factory_plain None None Demo.fresh) =
    Return true.
Proof. vm_compute. repeat split. Qed.

(** The description of a failed hook is built with [", ".join(args)]: when
    an argument is not a [str], the handler itself raises [TypeError], which
    leaves [start]. *)
Lemma unformattable_hook_aborts_start :
  fst (rt_call Demo.running_at_once Demo.notify [PyObj "1"] [] 0%nat) =
    Throws OtherException "boom" /\
  fst (start Demo.running_at_once 5 Demo.factory_unformattable None None Demo.fresh) =
    Raises (PyExc TypeError "sequence item: expected str instance") /\
  calls_made
    (w_trace (snd (start Demo.running_at_once 5 Demo.factory_unformattable None None
                     Demo.fresh))) = [(Demo.notify, [PyObj "1"], [])].
Proof. vm_compute. repeat split. Qed.

(** C4 as amended, on the runtime that is running at once: the before-start
    callback [notify] raises, and [start] succeeds. *)
Lemma handled_hooks_never_abort_witness :
  fst (rt_call Demo.running_at_once Demo.notify [PyStr "a" "'a'"] [("k", PyObj "1")]
         0%nat) = Throws OtherException "boom" /\
  exists w' d,
    start Demo.running_at_once 2 Demo.factory None None Demo.fresh = (Return true, w') /\
    w_trace w' = w_trace Demo.fresh ++ d /\
    calls_made d =
      before_start_callbacks Demo.factory ++ after_start_callbacks Demo.factory.
Proof.
  split; [reflexivity|].
  destruct (handled_hooks_never_abort Demo.running_at_once Demo.factory Demo.fresh)
    as (_ & Hstart & _); [demo_handled..|].
  apply (Hstart 0%nat None None).
  - demo_ready.
  - reflexivity.
  - vm_compute. discriminate.
Defined.

(** C5 on the runtime whose daemon refuses the connection. *)
Lemma reachability_checked_once_witness :
  fst (start Demo.unreachable 5 Demo.factory None None Demo.fresh) =
    Raises (Failed "The docker client failed to ping the docker server: Connection refused").
Proof.
  destruct (reachability_checked_once Demo.unreachable 5 Demo.factory None None
              Demo.fresh) as (_ & _ & Hhandled).
  destruct Hhandled as (w1 & d1 & d2 & _ & _ & _ & _ & _ & _ & _ & H);
    [demo_handled|].
  edestruct H as (_ & _ & Hfail).
  - rewrite client_connectable_spec. simpl. reflexivity.
  - apply Hfail; [reflexivity|demo_handled..].
Defined.

(** C5 as stated fails: when a before-start callback raises
    [KeyboardInterrupt], [start] ends before the reachability check, and no
    ping is sent at all. *)
Lemma interrupted_start_never_pings :
  fst (start Demo.running_at_once 5 Demo.factory_interrupted None None Demo.fresh)
  = Raises (PyExc KeyboardInterrupt "") /\
  List.filter is_ping
    (w_trace (snd (start Demo.running_at_once 5 Demo.factory_interrupted None None
                     Demo.fresh))) = [].
Proof. split; vm_compute; reflexivity. Qed.

(** C6 on the runtime that reports "running" at the third status read: the
    readiness check answers at once, and [start] returns True in its first
    attempt, after two polls that slept and one that found the container
    running. *)
Lemma no_ports_ready_at_once_witness :
  run_start_checks Demo.created_then_running 0 Demo.factory 0 0 Demo.started_world =
    (Return true, Demo.started_world) /\
  exists w' d,
    start Demo.created_then_running 4 Demo.factory None None Demo.fresh
    = (Return true, w') /\
    w_trace w' = w_trace Demo.fresh ++ d /\
    attempts_logged d = [1] /\
    runs_requested d = 1%nat /\
    (exists id, In (EvContainersGet id) d) /\
    Forall (fun ev => is_port_probe ev = false) d.
Proof.
  destruct (no_ports_ready_at_once Demo.created_then_running Demo.factory)
    as (Hchecks & _ & _ & _ & _ & _ & Hstart); [left; reflexivity|].
  split; [apply Hchecks|].
  destruct (Hstart 0%nat None None Demo.fresh (fun e => (2 - e)%nat) 2%nat 250)
    as (w' & d & H1 & H2 & _ & H3 & H4 & H5 & _ & H6).
  - demo_handled.
  - demo_handled.
  - unfold runtime_becomes_running. split_and!.
    + intros e. reflexivity.
    + reflexivity.
    + intros e. eexists. reflexivity.
    + intros id e. eexists. reflexivity.
    + intros c e. eexists. split; [reflexivity|].
      destruct e as [|[|[|[|e]]]]; reflexivity.
    + intros e. lia.
    + intros c e. simpl. lia.
    + intros id e. simpl. lia.
    + intros ms e. simpl. lia.
    + intros e. simpl. lia.
    + intros _ ev e. simpl. lia.
  - vm_compute. discriminate.
  - exists w', d. split_and!; assumption.
Defined.

(** C7 on the runtime whose fourth status read answers "exited". *)
Lemma flapped_resource_removed_and_retried_witness :
  exists w',
    wait_until_running Demo.flapping 1 Demo.factory 0 1 0 500 Demo.started_world =
      (Return false, w') /\
    w_env w' = 4%nat /\
    w_container w' = None /\
    w_trace w' = w_trace Demo.started_world ++
      [EvContainersGet "c0ffee"; EvStatus {| cobj := 2; cid := "c0ffee" |};
       EvStatus Demo.a_handle; EvStatus Demo.a_handle;
       EvLog WARNING (LogContainerIsRunning true);
       EvStatus Demo.a_handle; EvRemove Demo.a_handle true; EvWait Demo.a_handle].
Proof.
  apply (flapped_resource_removed_and_retried Demo.flapping 0 Demo.factory 0 1 0 500
           Demo.started_world Demo.a_handle {| cobj := 2; cid := "c0ffee" |}
           "running" "running" "exited" 0%nat 1%nat 2%nat 3%nat 4%nat 4%nat 4%nat).
  - reflexivity.
  - vm_compute. discriminate.
  - reflexivity.
  - reflexivity.
  - reflexivity.
  - reflexivity.
  - reflexivity.
  - reflexivity.
  - reflexivity.
  - reflexivity.
Defined.

(** C8 on the command of the repository's test: [run("echo", "foo")] gives
    exit code 0, stdout "foo" with its newline, and no stderr; and on a
    command that writes to both streams and exits with code 3. *)
Lemma run_demux_and_decoding_witness :
  fst (run Demo.running_at_once [CmdStr "echo"; CmdStr "foo"] [] Demo.started_world) =
    Return {| exitcode := Some 0;
              stdout := Some ("foo" +:+ String (Ascii.ascii_of_nat 10) EmptyString);
              stderr := None;
              cmdline := Some (CmdTuple [CmdStr "echo"; CmdStr "foo"]) |} /\
  fst (run Demo.both_streams [CmdStr "make"] [("user", PyStr "root" "'root'")]
         Demo.started_world) =
    Return {| exitcode := Some 3;
              stdout := Some ("foo" +:+ String (Ascii.ascii_of_nat 10) EmptyString);
              stderr := Some "bar";
              cmdline := Some (CmdSingle (CmdStr "make")) |}.
Proof.
  split.
  - destruct (run_demux_and_decoding Demo.running_at_once [CmdStr "echo"; CmdStr "foo"] []
                Demo.a_handle Demo.started_world eq_refl) as (_ & _ & Hrun & _).
    destruct (Hrun {| exit_code := Some 0; output := Some (Some Demo.foo_bytes, None) |}
                0%nat eq_refl eq_refl eq_refl eq_refl) as (w' & Heq & _).
    rewrite Heq. reflexivity.
  - destruct (run_demux_and_decoding Demo.both_streams [CmdStr "make"]
                [("user", PyStr "root" "'root'")]
                Demo.a_handle Demo.started_world eq_refl) as (_ & _ & Hrun & _).
    destruct (Hrun {| exit_code := Some 3;
                      output := Some (Some Demo.foo_bytes, Some Demo.bar_bytes) |}
                0%nat eq_refl eq_refl eq_refl eq_refl) as (w' & Heq & _).
    rewrite Heq. reflexivity.
Defined.

(** C8 as stated fails: when the caller passes a [demux] option, the exec
    call has two values for [demux]; [run] raises [TypeError] and no request
    reaches the runtime. *)
Lemma run_with_demux_option_sends_no_exec :
  w_container Demo.started_world = Some Demo.a_handle /\
  fst (run Demo.running_at_once [CmdStr "echo"; CmdStr "foo"] [("demux", PyObj "False")]
         Demo.started_world)
  = Raises (PyExc TypeError "got multiple values for keyword argument") /\
  List.filter backend_event
    (w_trace (snd (run Demo.running_at_once [CmdStr "echo"; CmdStr "foo"]
                     [("demux", PyObj "False")] Demo.started_world))) = [].
Proof. split_and!; [reflexivity|vm_compute; reflexivity..]. Qed.

(** C9 on the runtime that has lost the container: the lookup answers
    [NotFound], and [terminate] returns the empty result after running its
    after-terminate callbacks. *)
Lemma terminate_after_hooks_always_run_witness :
  fst (terminate Demo.container_gone Demo.factory Demo.started_world) =
    Return empty_result /\
  calls_made (w_trace (snd (terminate Demo.container_gone Demo.factory
                              Demo.started_world))) =
    before_terminate_callbacks Demo.factory ++ after_terminate_callbacks Demo.factory.
Proof.
  destruct (terminate_after_hooks_always_run Demo.container_gone Demo.factory
              Demo.started_world) as [_ Hhandled].
  destruct Hhandled
    as (w1 & o & w2 & w3 & d1 & d2 & d3 & _ & _ & _ & _ & _ & _ & _ & _ & _ & _ & _ & _
        & Hgone); [demo_handled..|].
  split.
  - erewrite Hgone; reflexivity.
  - vm_compute. reflexivity.
Defined.

(** C9 as stated fails: the before-terminate hooks run outside the
    [try ... finally]; when one of them raises [KeyboardInterrupt],
    [terminate] ends there, and no after-terminate callback is invoked
    although two are registered. *)
Lemma interrupted_terminate_skips_after_hooks :
  fst (terminate Demo.running_at_once Demo.factory_teardown_interrupted
         Demo.started_world)
  = Raises (PyExc KeyboardInterrupt "") /\
  calls_made (w_trace (snd (terminate Demo.running_at_once
                              Demo.factory_teardown_interrupted Demo.started_world)))
  = [(Demo.interrupt, [], [])] /\
  length (after_terminate_callbacks Demo.factory_teardown_interrupted) = 2%nat.
Proof. split_and!; vm_compute; reflexivity. Qed.

(** X1 on the runtime that reports "running" at once. *)
Lemma start_returns_true_with_handle_witness :
  true = true /\
  exists c,
    w_container (snd (start Demo.running_at_once 2 Demo.factory None None Demo.fresh))
    = Some c.
Proof.
  apply (start_returns_true_with_handle Demo.running_at_once 2 Demo.factory None None
           Demo.fresh).
  vm_compute. reflexivity.
Defined.

(** X2 on a running resource whose port 8080 never accepts a connection. *)
Lemma closed_port_start_never_returns_witness :
  fst (start Demo.ports_closed 10 Demo.factory_with_port None None Demo.fresh)
  <> Return true.
Proof.
  apply (closed_port_start_never_returns Demo.ports_closed Demo.factory_with_port 8080).
  - simpl. left. reflexivity.
  - intros ps e a e' H. simpl in H. inversion H. apply not_elem_of_empty.
Defined.

(** X3 on the runtime whose first attempt times out: [start] returns True,
    and [terminate] is no longer registered to run at exit. *)
Lemma exit_hook_after_start_witness :
  fst (start Demo.slow_start 10 Demo.factory None None Demo.fresh) = Return true /\
  exit_hook_registered false
    (w_trace (snd (start Demo.slow_start 10 Demo.factory None None Demo.fresh))) = false.
Proof.
  split; [vm_compute; reflexivity|].
  destruct (exit_hook_after_start Demo.slow_start 10 Demo.factory None None Demo.fresh
              (fst (start Demo.slow_start 10 Demo.factory None None Demo.fresh))
              (snd (start Demo.slow_start 10 Demo.factory None None Demo.fresh))
              (w_trace (snd (start Demo.slow_start 10 Demo.factory None None Demo.fresh))))
    as [_ H].
  - vm_compute. reflexivity.
  - reflexivity.
  - rewrite H. vm_compute. reflexivity.
Defined.

Ltac demo_never :=
  unfold runtime_never_running; split_and!; intros; simpl;
  first [ reflexivity | eexists; reflexivity
        | eexists; split; [reflexivity|vm_compute; reflexivity]
        | match goal with
          | e : nat |- _ => destruct e as [|[|e]]; eexists; split; reflexivity
          end ].

(** X4 on the runtime that never reports "running": two attempts in force,
    half a second each. *)
Lemma start_never_running_witness :
  exists info w',
    start Demo.never_running 10 Demo.factory None None Demo.fresh
    = (Raises (FactoryNotStarted info), w') /\
    ns_attempts info = 2 /\
    ns_stdout info = None /\ ns_stderr info = None /\ ns_exitcode info = Some 0 /\
    (2 + 1) * 500 < ns_elapsed info.
Proof.
  apply (start_never_running Demo.never_running 10 Demo.factory None None Demo.fresh).
  - demo_never.
  - demo_handled.
  - demo_handled.
  - demo_handled.
  - vm_compute. discriminate.
  - vm_compute. lia.
Defined.

(** X5 on a hook registered with the number 1 as its argument: its
    exception is replaced by the [TypeError] of the description, and
    [cleanup], registered after it, is not invoked. *)
Lemma unhandled_hook_failure_aborts_witness :
  exists exc msg',
    run_callbacks Demo.never_running
      [(Demo.notify, [PyObj "1"], []); (Demo.cleanup, [], [])] Demo.fresh
    = (Raises exc,
       record_event Demo.never_running (EvCall Demo.notify [PyObj "1"] []) Demo.fresh
         0%nat 0) /\
    exc = PyExc TypeError msg'.
Proof.
  destruct (unhandled_hook_failure_aborts Demo.never_running Demo.notify [PyObj "1"] []
              [(Demo.cleanup, [], [])] Demo.fresh OtherException "boom" 0%nat)
    as (exc & Hrun & _ & Hexc & _).
  - reflexivity.
  - reflexivity.
  - destruct (Hexc eq_refl) as [msg' Hm].
    exists exc, msg'. split; [exact Hrun|exact Hm].
Defined.

(** X6 on a started controller whose container is running. *)
Lemma terminate_with_handle_witness :
  exists w',
    terminate Demo.running_at_once Demo.factory Demo.started_world
    = (Return {| exitcode := Some 0; stdout := Demo.decode_ascii Demo.foo_bytes;
                 stderr := None; cmdline := None |}, w') /\
    w_container w' = None.
Proof.
  destruct (terminate_with_handle Demo.running_at_once Demo.factory Demo.started_world
              Demo.a_handle {| cobj := 2; cid := "c0ffee" |} (LogsBytes Demo.foo_bytes)
              "running" 0%nat 0%nat 1%nat)
    as (w' & d1 & d3 & Hterm & Hc & _).
  - demo_handled.
  - demo_handled.
  - reflexivity.
  - reflexivity.
  - reflexivity.
  - vm_compute. reflexivity.
  - reflexivity.
  - intros _. exists 1%nat, 1%nat. split; reflexivity.
  - exists w'. split; [exact Hterm|exact Hc].
Defined.

(** X7 on a started controller whose container is gone. *)
Lemma terminate_NotFound_keeps_handle_witness :
  exists w',
    terminate Demo.container_gone Demo.factory Demo.started_world
    = (Return empty_result, w') /\
    w_container w' = Some Demo.a_handle.
Proof.
  destruct (terminate_NotFound_keeps_handle Demo.container_gone Demo.factory
              Demo.started_world Demo.a_handle "No such container" 0%nat)
    as (w' & d1 & d3 & Hterm & Hc & _).
  - demo_handled.
  - demo_handled.
  - reflexivity.
  - reflexivity.
  - exists w'. split; [exact Hterm|exact Hc].
Defined.

(** X9 on a probe that takes a second, half a second before the deadline. *)
Lemma ports_connected_after_deadline_witness :
  exists w',
    check_ports_loop Demo.slow_probe 2 500 0 {[8080]} Demo.started_world
    = (Return false, w') /\
    w_trace w' = w_trace Demo.started_world ++
      [EvStatus Demo.a_handle; EvGetConnectablePorts {[8080]};
       EvLog ERROR (LogFailedToCheckPorts (w_now w' - 0))].
Proof.
  apply (ports_connected_after_deadline Demo.slow_probe 0 500 0 {[8080]}
           Demo.started_world Demo.a_handle "running" 1%nat {[8080]} 1%nat).
  - reflexivity.
  - simpl. lia.
  - reflexivity.
  - reflexivity.
  - apply non_empty_singleton_L.
  - reflexivity.
  - reflexivity.
  - simpl. lia.
Defined.

(** X10 on a call that asks for -1 attempts. *)
Lemma negative_attempt_count_no_attempt_witness :
  exists info w' d,
    start Demo.never_running 0 Demo.factory (Some (-1)) None Demo.fresh
    = (Raises (FactoryNotStarted info), w') /\
    ns_attempts info = -1 /\
    w_trace w' = w_trace Demo.fresh ++ d /\
    attempts_logged d = [] /\
    runs_requested d = 0%nat.
Proof.
  apply (negative_attempt_count_no_attempt Demo.never_running 0 Demo.factory (Some (-1))
           None Demo.fresh 0%nat).
  - vm_compute. reflexivity.
  - demo_handled.
  - demo_handled.
  - demo_handled.
  - reflexivity.
  - reflexivity.
Defined.

(** X11 on a command whose output is the byte 0xff. *)
Lemma run_failures_witness :
  exists w',
    run Demo.garbled_exec [CmdStr "cat"; CmdStr "/dev/urandom"] [] Demo.started_world
    = (Raises (PyExc UnicodeDecodeError "can't decode bytes"), w') /\
    w_trace w' = w_trace Demo.started_world ++
      [EvLog INFO (LogIsRunningCmd (CmdTuple [CmdStr "cat"; CmdStr "/dev/urandom"]));
       EvExecRun Demo.a_handle (CmdTuple [CmdStr "cat"; CmdStr "/dev/urandom"]) true []].
Proof.
  destruct (run_failures Demo.garbled_exec [CmdStr "cat"; CmdStr "/dev/urandom"] []
              Demo.started_world) as (_ & _ & H).
  apply (H Demo.a_handle
           {| exit_code := Some 0; output := Some (Some [Byte.xff], None) |} 0%nat).
  - reflexivity.
  - reflexivity.
  - reflexivity.
  - vm_compute. reflexivity.
Defined.

(** X12 on the runtime that reports "running" at once. *)
Lemma started_enter_exit_round_trip_witness :
  exists w1 w2 w3 result,
    started Demo.running_at_once 2 Demo.factory None None Demo.fresh
    = (Return Demo.factory, w1) /\
    __enter__ Demo.running_at_once Demo.factory w1 = (Return Demo.factory, w2) /\
    __exit__ Demo.running_at_once Demo.factory w2 = (Return result, w3) /\
    exitcode result = Some 0 /\
    w_container w3 = None /\
    exists d container, w_trace w3 = w_trace w2 ++ d /\ In (EvRemove container true) d.
Proof.
  apply (started_enter_exit_round_trip Demo.running_at_once 0 Demo.factory None None
           Demo.fresh).
  - demo_handled.
  - demo_handled.
  - demo_handled.
  - demo_handled.
  - demo_ready.
  - reflexivity.
  - vm_compute. discriminate.
  - intros c e. eexists. split; [reflexivity|vm_compute; reflexivity].
  - reflexivity.
  - reflexivity.
Defined.




